(** * LeadEstate agency backend: subscription and trial access control

    A shallow embedding of the request gate of the backend
    ([src/middleware/subscription.js], the trial signup route of
    [src/routes/auth.js], the Sequelize [Subscription] and
    [SubscriptionPlan] models and the [subscriptionService]) and the
    properties of it that the specification relies on.

    Conventions of the embedding.
    - A JavaScript [Date] is its time value, a [Z] of milliseconds since
      the epoch; [new Date()] is a clock reading passed in by the caller.
    - An [async] function is a program of type [Prog]: a tree whose nodes
      are the [await pool.query(...)] suspension points.  Running such a
      program against a [World] is [run]; running two of them with their
      suspension points interleaved is [interleave].
    - An HTTP response is kept by its status, its machine readable [code]
      and its [data] block; the human readable [message] is left out. *)

From Stdlib Require Import ZArith List String Ascii Bool Lia.
From stdpp Require Import base gmap strings list fin_maps.
Import ListNotations.

Open Scope string_scope.
Open Scope Z_scope.

(** ** JavaScript values and objects *)

(** The values that the feature and limit tables can hold.  [JBuiltin]
    stands for a function or object that is none of the primitive values:
    the members every object literal inherits from [Object.prototype]. *)
Inductive JsVal : Type :=
| JUndefined
| JNull
| JBool (b : bool)
| JNum (n : Z)
| JStr (s : string)
| JBuiltin (name : string).

#[global] Instance JsVal_eq_dec : EqDecision JsVal.
Proof. solve_decision. Defined.

(** Own property names of [Object.prototype]: a lookup [o[k]] on an
    object literal that has no own property [k] finds these. *)
Definition object_prototype_keys : list string :=
  [ "constructor"; "hasOwnProperty"; "isPrototypeOf";
    "propertyIsEnumerable"; "toLocaleString"; "toString"; "valueOf";
    "__proto__"; "__defineGetter__"; "__defineSetter__";
    "__lookupGetter__"; "__lookupSetter__" ].

Definition inherited (k : string) : bool :=
  bool_decide (k ∈ object_prototype_keys).

(** [o[k]] for an object literal [o] whose own properties are the finite
    map [o]. *)
Definition js_get (o : gmap string JsVal) (k : string) : JsVal :=
  match o !! k with
  | Some v => v
  | None => if inherited k then JBuiltin k else JUndefined
  end.

(** [typeof v === 'string'] *)
Definition is_string (v : JsVal) : bool :=
  match v with JStr _ => true | _ => false end.

(** ToNumber, [None] for NaN.  The limits this program compares are
    numbers, [null] or [undefined]; a string never reaches a comparison
    here and is counted as NaN. *)
Definition to_number (v : JsVal) : option Z :=
  match v with
  | JNum n => Some n
  | JNull => Some 0
  | JBool b => Some (if b then 1 else 0)
  | JUndefined | JStr _ | JBuiltin _ => None
  end.

(** [c >= v] for a number [c]: false as soon as [v] converts to NaN. *)
Definition js_ge (c : Z) (v : JsVal) : bool :=
  match to_number v with
  | Some m => m <=? c
  | None => false
  end.

(** [v - c] for a number [c], [None] for NaN. *)
Definition js_minus (v : JsVal) (c : Z) : option Z :=
  match to_number v with
  | Some m => Some (m - c)
  | None => None
  end.

(** The property key a value is converted to in [o[v]]: [null] becomes
    the string ["null"]. *)
Definition property_key (v : option string) : string :=
  match v with
  | Some s => s
  | None => "null"
  end.

(** [list.includes(v)] for a list of string literals and a value that is
    a string or [null]. *)
Definition includes (l : list string) (v : option string) : bool :=
  match v with
  | Some s => bool_decide (s ∈ l)
  | None => false
  end.

(** [s.charAt(0).toUpperCase() + s.slice(1)] on ASCII letters. *)
Definition upper (c : ascii) : ascii :=
  let n := nat_of_ascii c in
  if ((97 <=? n)%nat && (n <=? 122)%nat)%bool then ascii_of_nat (n - 32) else c.

Definition capitalize (s : string) : string :=
  match s with
  | EmptyString => EmptyString
  | String c rest => String (upper c) rest
  end.

(** [s.slice(n)] for [0 <= n]. *)
Fixpoint slice (n : nat) (s : string) : string :=
  match n, s with
  | O, _ => s
  | S n', String _ rest => slice n' rest
  | S _, EmptyString => EmptyString
  end.

(** ** Time *)

Definition MS_PER_DAY : Z := 1000 * 60 * 60 * 24.

Definition MS_PER_HOUR : Z := 1000 * 60 * 60.

(** [LocalTZA(t, isUTC)] of ECMAScript, the offset of the local time of
    the server from UTC, in milliseconds: at the UTC time value [t] when
    [isUTC], at the local time value [t] otherwise.  The time zone of
    the server decides it. *)
Definition Zone : Type := Z -> bool -> Z.

(** [d.setDate(d.getDate() + n)] on the time value [t]: the local time
    of [t] moves by [n] calendar days, its time within the day kept
    ([MakeDate(MakeDay(year, month, date + n), TimeWithinDay(local))],
    which is [local + n * msPerDay]), and is read back as UTC. *)
Definition setDate_plus (LocalTZA : Zone) (t : Z) (n : Z) : Z :=
  let local := t + LocalTZA t true in
  let moved := local + n * MS_PER_DAY in
  moved - LocalTZA moved false.

(** [Math.ceil(a / b)] for integers [a] and [0 < b]. *)
Definition ceil_div (a b : Z) : Z := - ((- a) / b).

(** ** Exceptions *)

Record Exn : Type := mkExn { exn_name : string; exn_message : string }.

#[global] Instance Exn_eq_dec : EqDecision Exn.
Proof. solve_decision. Defined.

(** The test of the [catch] block of [checkSubscriptionStatus]. *)
Definition is_token_error (e : Exn) : bool :=
  bool_decide (exn_name e = "JsonWebTokenError")
  || bool_decide (exn_name e = "TokenExpiredError").

(** ** The durable store *)

(** A row of [users], with the columns the gate and the signup read or
    write.  A column that can be NULL is an [option]. *)
Record UserRow : Type := mkUser {
  u_id : string;
  u_email : string;
  u_password_hash : string;
  u_first_name : string;
  u_last_name : string;
  u_role : string;
  u_status : string;
  u_agency_id : option string;
  u_subscription_status : option string;
  u_trial_end_date : option Z;
  u_plan_name : option string
}.

Record AgencyRow : Type := mkAgency {
  a_id : string;
  a_name : string;
  a_email : string;
  a_status : string;
  a_trial : bool;
  a_plan : string
}.

(** A row of [subscriptions], as [subscriptionService] writes it.  The
    Sequelize model behind [getModels()] is not among the sources: a
    created row is kept as the data it was given, and [findOne] reads it
    back. *)
Record SubRow : Type := mkSub {
  s_id : string;
  s_user_id : string;
  s_agency_id : option string;
  s_plan_id : string;
  s_plan_name : string;
  s_status : string;
  s_payment_method : string;
  s_current_period_start : Z;
  s_current_period_end : Z;
  s_created_at : Z
}.

(** [leads] and [properties] are kept by the [agency_id] of each row,
    the only column the gate looks at. *)
Record Db : Type := mkDb {
  users : list UserRow;
  agencies : list AgencyRow;
  leads : list (option string);
  properties : list (option string);
  subscriptions : list SubRow
}.

(** The world a request runs in: the tables and the failures of the
    store still to come.  Each query consumes the head of [faults];
    [Some e] makes that query reject with [e].  An empty list is a store
    that never fails. *)
Record World : Type := mkWorld {
  db : Db;
  faults : list (option Exn)
}.

Definition with_users (d : Db) (us : list UserRow) : Db :=
  mkDb us (agencies d) (leads d) (properties d) (subscriptions d).

Definition with_agencies (d : Db) (ags : list AgencyRow) : Db :=
  mkDb (users d) ags (leads d) (properties d) (subscriptions d).

Definition with_subscriptions (d : Db) (ss : list SubRow) : Db :=
  mkDb (users d) (agencies d) (leads d) (properties d) ss.

Definition set_subscription_status (st : option string) (u : UserRow) : UserRow :=
  mkUser (u_id u) (u_email u) (u_password_hash u) (u_first_name u)
         (u_last_name u) (u_role u) (u_status u) (u_agency_id u)
         st (u_trial_end_date u) (u_plan_name u).

Definition set_sub_status (st : string) (s : SubRow) : SubRow :=
  mkSub (s_id s) (s_user_id s) (s_agency_id s) (s_plan_id s) (s_plan_name s)
        st (s_payment_method s) (s_current_period_start s)
        (s_current_period_end s) (s_created_at s).

(** What [FROM ${table}] names after [tableMap[resourceType]]: one of the
    three tables, or the text of a built-in, which is not SQL. *)
Inductive Table : Type := TLeads | TUsers | TProperties | TNotSql (name : string).

(** SQL comparison [agency_id = $1]: never true against NULL. *)
Definition sql_eq (col arg : option string) : bool :=
  match col, arg with
  | Some a, Some b => bool_decide (a = b)
  | _, _ => false
  end.

Definition count_where (rows : list (option string)) (agency : option string) : Z :=
  Z.of_nat (length (List.filter (fun a => sql_eq a agency) rows)).

(** The statements sent to the store, indexed by the type of their
    answer. *)
Inductive Sql : Type -> Type :=
| SelectUserById (id : option string) : Sql (list UserRow)
    (* SELECT ... FROM users u WHERE u.id = $1 *)
| SelectUserByEmail (email : string) : Sql (list UserRow)
    (* SELECT ... FROM users WHERE email = $1 *)
| UpdateUserStatus (st : string) (id : string) : Sql unit
    (* UPDATE users SET subscription_status = $1 WHERE id = $2 *)
| UpgradeUser (plan : string) (id : string) : Sql unit
    (* UPDATE users SET subscription_status = 'active', plan_name = $1,
       trial_end_date = NULL WHERE id = $2 *)
| CountByAgency (t : Table) (agency : option string) : Sql Z
    (* SELECT COUNT( * ) as count FROM ${table} WHERE agency_id = $1 *)
| InsertUser (row : UserRow) : Sql UserRow
    (* INSERT INTO users (...) VALUES (...) RETURNING ... *)
| InsertAgency (row : AgencyRow) : Sql unit
    (* INSERT INTO agencies (...) VALUES (...) *)
| FindSubscription (user_id : string) (statuses : list string) : Sql (option SubRow)
    (* Subscription.findOne({ where: { user_id, status: [...] },
                             order: [['created_at', 'DESC']] }) *)
| CreateSubscription (row : SubRow) : Sql SubRow
    (* Subscription.create(subscriptionData) *)
| UpdateSubscription (st : string) (id : string) : Sql unit.
    (* Subscription.update({ status }, { where: { id } }) *)

Definition sql_error (msg : string) : Exn := mkExn "error" msg.

(** The most recent row among those kept by [keep]. *)
Fixpoint latest (keep : SubRow -> bool) (rows : list SubRow) : option SubRow :=
  match rows with
  | [] => None
  | r :: rest =>
      if keep r then
        match latest keep rest with
        | Some r' => if s_created_at r <? s_created_at r' then Some r' else Some r
        | None => Some r
        end
      else latest keep rest
  end.

(** One statement against the tables. *)
Definition exec {R : Type} (q : Sql R) (d : Db) : (Exn + R) * Db :=
  match q in Sql R return (Exn + R) * Db with
  | SelectUserById id =>
      (inr (List.filter (fun u => sql_eq (Some (u_id u)) id) (users d)), d)
  | SelectUserByEmail email =>
      (inr (List.filter (fun u => bool_decide (u_email u = email)) (users d)), d)
  | UpdateUserStatus st id =>
      (inr tt,
       with_users d
         (map (fun u => if bool_decide (u_id u = id)
                        then set_subscription_status (Some st) u else u)
              (users d)))
  | UpgradeUser plan id =>
      (inr tt,
       with_users d
         (map (fun u => if bool_decide (u_id u = id)
                        then mkUser (u_id u) (u_email u) (u_password_hash u)
                               (u_first_name u) (u_last_name u) (u_role u)
                               (u_status u) (u_agency_id u)
                               (Some "active") None (Some plan)
                        else u)
              (users d)))
  | CountByAgency t agency =>
      match t with
      | TLeads => (inr (count_where (leads d) agency), d)
      | TUsers => (inr (count_where (map u_agency_id (users d)) agency), d)
      | TProperties => (inr (count_where (properties d) agency), d)
      | TNotSql _ => (inl (sql_error "syntax error"), d)
      end
  | InsertUser row =>
      if existsb (fun u => bool_decide (u_id u = u_id row)) (users d)
      then (inl (sql_error "duplicate key value violates unique constraint"), d)
      else (inr row, with_users d (users d ++ [row]))
  | InsertAgency row =>
      if existsb (fun a => bool_decide (a_id a = a_id row)) (agencies d)
      then (inl (sql_error "duplicate key value violates unique constraint"), d)
      else (inr tt, with_agencies d (agencies d ++ [row]))
  | FindSubscription uid statuses =>
      (inr (latest (fun s => bool_decide (s_user_id s = uid)
                             && bool_decide (s_status s ∈ statuses))
                   (subscriptions d)), d)
  | CreateSubscription row =>
      (inr row, with_subscriptions d (subscriptions d ++ [row]))
  | UpdateSubscription st id =>
      (inr tt,
       with_subscriptions d
         (map (fun s => if bool_decide (s_id s = id) then set_sub_status st s else s)
              (subscriptions d)))
  end.

(** [pool.query]: the next scheduled fault, if any, rejects the query and
    leaves the tables alone. *)
Definition pool_query {R : Type} (q : Sql R) (w : World) : (Exn + R) * World :=
  match faults w with
  | Some e :: fs => (inl e, mkWorld (db w) fs)
  | None :: fs => let '(r, d') := exec q (db w) in (r, mkWorld d' fs)
  | [] => let '(r, d') := exec q (db w) in (r, mkWorld d' [])
  end.

(** ** Asynchronous programs *)

(** An [async] body: it returns, throws, or awaits a query and goes on
    with its answer ([k]) or with its rejection ([h]). *)
Inductive Prog (A : Type) : Type :=
| Ret (a : A)
| Throw (e : Exn)
| Await {R : Type} (q : Sql R) (k : R -> Prog A) (h : Exn -> Prog A).

Arguments Ret {A} a.
Arguments Throw {A} e.
Arguments Await {A R} q k h.

(** [await pool.query(q)] outside any [try]: a rejection is thrown on. *)
Definition await {A R : Type} (q : Sql R) (k : R -> Prog A) : Prog A :=
  Await q k Throw.

Notation "x <- 'await!' q ;; p" := (await q (fun x => p))
  (at level 100, q at next level, right associativity, only parsing).

(** [try { p } catch (error) { handler error }] *)
Fixpoint try_catch {A : Type} (p : Prog A) (handler : Exn -> Prog A) : Prog A :=
  match p with
  | Ret a => Ret a
  | Throw e => handler e
  | Await q k h =>
      Await q (fun r => try_catch (k r) handler) (fun e => try_catch (h e) handler)
  end.

(** Run to completion with nothing else touching the world. *)
Fixpoint run {A : Type} (p : Prog A) (w : World) : (Exn + A) * World :=
  match p with
  | Ret a => (inr a, w)
  | Throw e => (inl e, w)
  | Await q k h =>
      match pool_query q w with
      | (inr r, w') => run (k r) w'
      | (inl e, w') => run (h e) w'
      end
  end.

(** One suspension point of a program. *)
Definition step {A : Type} (p : Prog A) (w : World) : Prog A * World :=
  match p with
  | Await q k h =>
      match pool_query q w with
      | (inr r, w') => (k r, w')
      | (inl e, w') => (h e, w')
      end
  | _ => (p, w)
  end.


(** Two requests in flight: [sched] says which of them resumes at each
    turn of the event loop ([true] for the first). *)
Fixpoint interleave {A B : Type} (sched : list bool) (p1 : Prog A) (p2 : Prog B)
    (w : World) : Prog A * Prog B * World :=
  match sched with
  | [] => (p1, p2, w)
  | true :: rest => let '(p1', w') := step p1 w in interleave rest p1' p2 w'
  | false :: rest => let '(p2', w') := step p2 w in interleave rest p1 p2' w'
  end.

(** [p] then [f] on its value. *)
Fixpoint bind {A B : Type} (p : Prog A) (f : A -> Prog B) : Prog B :=
  match p with
  | Ret a => f a
  | Throw e => Throw e
  | Await q k h => Await q (fun r => bind (k r) f) (fun e => bind (h e) f)
  end.

(** ** The plan catalogue of the gate *)

(** [planFeatures] of [checkSubscriptionStatus], "simplified for now":
    one object literal per plan. *)
Definition starter_plan : gmap string JsVal :=
  {[ "whatsapp" := JBool false; "analytics" := JStr "basic";
     "branding" := JStr "none"; "api_access" := JBool false;
     "max_leads" := JNum 1000; "max_users" := JNum 3;
     "max_properties" := JNum 100 ]}.

Definition pro_plan : gmap string JsVal :=
  {[ "whatsapp" := JBool true; "analytics" := JStr "advanced";
     "branding" := JStr "basic"; "api_access" := JBool true;
     "max_leads" := JNum 5000; "max_users" := JNum 10;
     "max_properties" := JNum 500 ]}.

Definition agency_plan : gmap string JsVal :=
  {[ "whatsapp" := JBool true; "analytics" := JStr "enterprise";
     "branding" := JStr "full"; "api_access" := JBool true;
     "max_leads" := JNull; "max_users" := JNull;
     "max_properties" := JNull ]}.

Definition planFeatures : gmap string (gmap string JsVal) :=
  {[ "starter" := starter_plan; "pro" := pro_plan; "agency" := agency_plan ]}.

(** What [req.subscription.features] can be bound to: the object of a
    plan, or a member of [Object.prototype] when the plan name happens to
    be the name of one. *)
Inductive Features : Type :=
| PlanObject (o : gmap string JsVal)
| Builtin (name : string).

#[global] Instance Features_eq_dec : EqDecision Features.
Proof. solve_decision. Defined.

(** [planFeatures[user.plan_name] || planFeatures.starter]: every object
    and every function is truthy, so the fallback is taken only when the
    lookup comes back [undefined]. *)
Definition resolve_features (plan_name : option string) : Features :=
  let k := property_key plan_name in
  match planFeatures !! k with
  | Some o => PlanObject o
  | None => if inherited k then Builtin k else PlanObject starter_plan
  end.

(** ** Requests and responses *)

Record Limits : Type := mkLimits {
  maxLeads : JsVal;
  maxUsers : JsVal;
  maxProperties : JsVal
}.

(** [req.subscription] *)
Record Subscription : Type := mkSubscription {
  userId : string;
  agencyId : option string;
  status : option string;
  planName : option string;
  features : Features;
  limits : Limits;
  trialEndDate : option Z;
  isActive : bool
}.

(** An entry of [req.usage] *)
Record Usage : Type := mkUsage {
  usage_current : Z;
  usage_max : JsVal;
  usage_remaining : option Z
}.

(** [req.trialInfo] *)
Record TrialInfo : Type := mkTrialInfo {
  daysRemaining : Z;
  endDate : Z;
  isExpiringSoon : bool;
  upgradeUrl : string
}.

Record Req : Type := mkReq {
  req_path : string;
  req_authorization : option string;
  req_subscription : option Subscription;
  req_usage : gmap string Usage;
  req_trialInfo : option TrialInfo
}.

(** The [data] block of a denial. *)
Inductive Data : Type :=
| NoData
| TrialExpiredData (trialEndDate : Z) (upgradeUrl : string)
| InactiveData (status : option string) (upgradeUrl : string)
| FeatureData (feature : string) (currentPlan : option string) (upgradeUrl : string)
| UsageData (resourceType : string) (currentCount : Z) (maxAllowed : JsVal)
            (upgradeUrl : string).

Record Body : Type := mkBody { code : option string; data : Data }.

(** What a middleware does with a request: hand it to the next handler
    ([next()]), or answer it ([res.status(s).json(body)]). *)
Inductive Outcome : Type :=
| Next (req : Req)
| Respond (http_status : Z) (body : Body).

(** Express runs the next middleware of a route only after [next()]. *)
Definition and_then (p : Prog Outcome) (m : Req -> Prog Outcome) : Prog Outcome :=
  bind p (fun o => match o with
                   | Next req => m req
                   | Respond _ _ => Ret o
                   end).

(** [limits[limitKey]]: the three own properties, then [Object.prototype]. *)
Definition limits_get (l : Limits) (k : string) : JsVal :=
  if bool_decide (k = "maxLeads") then maxLeads l
  else if bool_decide (k = "maxUsers") then maxUsers l
  else if bool_decide (k = "maxProperties") then maxProperties l
  else if inherited k then JBuiltin k else JUndefined.

(** [tableMap[resourceType]], [None] when it is falsy. *)
Definition tableMap (resourceType : string) : option Table :=
  if bool_decide (resourceType = "leads") then Some TLeads
  else if bool_decide (resourceType = "users") then Some TUsers
  else if bool_decide (resourceType = "properties") then Some TProperties
  else if inherited resourceType then Some (TNotSql resourceType) else None.

Definition skipRoutes : list string :=
  [ "/api/auth/"; "/api/subscription/upgrade"; "/api/subscription/status" ].

(** [skipRoutes.some(route => req.path.startsWith(route))] *)
Definition skipped (path : string) : bool :=
  existsb (fun route => String.prefix route path) skipRoutes.

(** [authHeader.startsWith('Bearer ') ? authHeader.slice(7) : authHeader] *)
Definition bearer_token (authHeader : string) : string :=
  if String.prefix "Bearer " authHeader then slice 7 authHeader else authHeader.

(** [!authHeader]: the header is missing or empty. *)
Definition no_header (h : option string) : bool :=
  match h with
  | None => true
  | Some s => bool_decide (s = "")
  end.

(** The three resource types the routes guard. *)
Inductive Resource : Type := Leads | Users | Properties.

Definition resource_name (r : Resource) : string :=
  match r with
  | Leads => "leads"
  | Users => "users"
  | Properties => "properties"
  end.

Definition limit_of (l : Limits) (r : Resource) : JsVal :=
  match r with
  | Leads => maxLeads l
  | Users => maxUsers l
  | Properties => maxProperties l
  end.

(** [SELECT COUNT( * ) FROM <table of r> WHERE agency_id = agency]. *)
Definition usage_count (d : Db) (r : Resource) (agency : option string) : Z :=
  match r with
  | Leads => count_where (leads d) agency
  | Users => count_where (map u_agency_id (users d)) agency
  | Properties => count_where (properties d) agency
  end.

Definition table_of (r : Resource) : Table :=
  match r with
  | Leads => TLeads
  | Users => TUsers
  | Properties => TProperties
  end.

(** ** The gate: [src/middleware/subscription.js] *)

Section Gate.

(** [jwt.verify(token, process.env.JWT_SECRET)]: it throws, or gives
    the payload, of which the gate reads [userId]. *)
Variable jwt_verify : string -> Exn + option string.

(** [process.env.FRONTEND_URL], as the template literal prints it. *)
Variable FRONTEND_URL : string.

(** Member [k] of the [Object.prototype] built-in called [b] (for
    ["constructor"], the function [Object]).  What these built-ins hold
    is left to the engine; the gate only ever asks them for the keys of
    the catalogue and for the feature names of the routes. *)
Variable builtin_member : string -> string -> JsVal.

Definition upgrade_url : string := FRONTEND_URL ++ "/upgrade".

(** [features[k]] and [features.k] *)
Definition features_get (f : Features) (k : string) : JsVal :=
  match f with
  | PlanObject o => js_get o k
  | Builtin b => builtin_member b k
  end.

(** The object bound to [req.subscription]. *)
Definition subscription_of (user : UserRow) : Subscription :=
  let fs := resolve_features (u_plan_name user) in
  mkSubscription
    (u_id user) (u_agency_id user) (u_subscription_status user)
    (u_plan_name user) fs
    (mkLimits (features_get fs "max_leads") (features_get fs "max_users")
              (features_get fs "max_properties"))
    (u_trial_end_date user)
    (includes ["trial"; "active"] (u_subscription_status user)).

Definition attach (req : Req) (s : Subscription) : Req :=
  mkReq (req_path req) (req_authorization req) (Some s)
        (req_usage req) (req_trialInfo req).

(** The part of [checkSubscriptionStatus] after the trial check. *)
Definition check_active (req : Req) (user : UserRow) : Prog Outcome :=
  if negb (includes ["trial"; "active"] (u_subscription_status user)) then
    Ret (Respond 402 (mkBody (Some "SUBSCRIPTION_INACTIVE")
                        (InactiveData (u_subscription_status user) upgrade_url)))
  else
    Ret (Next (attach req (subscription_of user))).

(** "Check if trial has expired", then the rest; [now] is what
    [new Date()] reads. *)
Definition check_trial (req : Req) (now : Z) (user : UserRow) : Prog Outcome :=
  if bool_decide (u_subscription_status user = Some "trial") then
    match u_trial_end_date user with
    | Some endDate =>
        if endDate <? now then
          _ <- await! UpdateUserStatus "expired" (u_id user) ;;
          Ret (Respond 402 (mkBody (Some "TRIAL_EXPIRED")
                              (TrialExpiredData endDate upgrade_url)))
        else check_active req user
    | None => check_active req user
    end
  else check_active req user.

(** The [try] block of [checkSubscriptionStatus]. *)
Definition checkSubscriptionStatus_try (req : Req) (now : Z) : Prog Outcome :=
  if skipped (req_path req) then Ret (Next req)
  else if no_header (req_authorization req) then
    Ret (Respond 401 (mkBody (Some "NO_TOKEN") NoData))
  else
    let token := bearer_token (default "" (req_authorization req)) in
    match jwt_verify token with
    | inl e => Throw e
    | inr decoded_userId =>
        userQuery <- await! SelectUserById decoded_userId ;;
        match userQuery with
        | [] => Ret (Respond 404 (mkBody (Some "USER_NOT_FOUND") NoData))
        | user :: _ => check_trial req now user
        end
    end.

(** The [catch] block of [checkSubscriptionStatus]. *)
Definition checkSubscriptionStatus_catch (error : Exn) : Prog Outcome :=
  if is_token_error error then
    Ret (Respond 401 (mkBody (Some "INVALID_TOKEN") NoData))
  else
    Ret (Respond 500 (mkBody None NoData)).

Definition checkSubscriptionStatus (req : Req) (now : Z) : Prog Outcome :=
  try_catch (checkSubscriptionStatus_try req now) checkSubscriptionStatus_catch.

(** [features[featureName] === true ||
     (typeof features[featureName] === 'string' &&
      features[featureName] !== 'none')] *)
Definition hasFeature (fs : Features) (featureName : string) : bool :=
  let v := features_get fs featureName in
  bool_decide (v = JBool true)
  || (is_string v && negb (bool_decide (v = JStr "none"))).

Definition requireFeature (featureName : string) (req : Req) : Prog Outcome :=
  try_catch
    match req_subscription req with
    | None => Ret (Respond 401 (mkBody (Some "NO_SUBSCRIPTION_INFO") NoData))
    | Some s =>
        if negb (hasFeature (features s) featureName) then
          Ret (Respond 403 (mkBody (Some "FEATURE_NOT_AVAILABLE")
                              (FeatureData featureName (planName s) upgrade_url)))
        else Ret (Next req)
    end
    (fun _ => Ret (Respond 500 (mkBody None NoData))).

Definition set_usage (req : Req) (resourceType : string) (u : Usage) : Req :=
  mkReq (req_path req) (req_authorization req) (req_subscription req)
        (<[resourceType := u]> (req_usage req)) (req_trialInfo req).

Definition checkUsageLimit_try (resourceType : string) (req : Req) : Prog Outcome :=
  match req_subscription req with
  | None => Ret (Respond 401 (mkBody None NoData))
  | Some s =>
      let limitKey := "max" ++ capitalize resourceType in
      let maxAllowed := limits_get (limits s) limitKey in
      if bool_decide (maxAllowed = JNull) then Ret (Next req)
      else
        match tableMap resourceType with
        | None => Ret (Respond 400 (mkBody None NoData))
        | Some table =>
            currentCount <- await! CountByAgency table (agencyId s) ;;
            if js_ge currentCount maxAllowed then
              Ret (Respond 403 (mkBody (Some "USAGE_LIMIT_EXCEEDED")
                                  (UsageData resourceType currentCount maxAllowed
                                             upgrade_url)))
            else
              Ret (Next (set_usage req resourceType
                           (mkUsage currentCount maxAllowed
                                    (js_minus maxAllowed currentCount))))
        end
  end.

Definition checkUsageLimit (resourceType : string) (req : Req) : Prog Outcome :=
  try_catch (checkUsageLimit_try resourceType req)
            (fun _ => Ret (Respond 500 (mkBody None NoData))).

Definition set_trialInfo (req : Req) (t : TrialInfo) : Req :=
  mkReq (req_path req) (req_authorization req) (req_subscription req)
        (req_usage req) (Some t).

(** [addTrialInfo]; it awaits nothing and always calls [next()]. *)
Definition addTrialInfo (now : Z) (req : Req) : Prog Outcome :=
  match req_subscription req with
  | Some s =>
      match trialEndDate s with
      | Some endDate =>
          if bool_decide (status s = Some "trial") then
            let diffTime := endDate - now in
            let days := ceil_div diffTime MS_PER_DAY in
            Ret (Next (set_trialInfo req
                         (mkTrialInfo (Z.max 0 days) endDate (days <=? 3)
                                      upgrade_url)))
          else Ret (Next req)
      | None => Ret (Next req)
      end
  | None => Ret (Next req)
  end.

End Gate.

(** ** Trial signup: [POST /api/auth/trial-signup] *)

Record SignupBody : Type := mkSignupBody {
  email : string;
  password : string;
  firstName : string;
  lastName : string;
  companyName : option string
}.

(** The [subscription] block of the 201 answer, or a refusal. *)
Inductive SignupResponse : Type :=
| Created (user : UserRow) (sub_status plan : string)
          (trialEndDate daysRemaining : Z) (token : string)
| Rejected (http_status : Z) (code : option string).

(** [companyName || `${firstName} ${lastName}'s Agency`] *)
Definition agency_name (b : SignupBody) : string :=
  match companyName b with
  | Some n => if bool_decide (n = "") then firstName b ++ " " ++ lastName b ++ "'s Agency"
              else n
  | None => firstName b ++ " " ++ lastName b ++ "'s Agency"
  end.

(** The handler.  [LocalTZA] is the time zone of the server; [valid] is
    [errors.isEmpty()]; [hashedPassword], [agencyId], [userId] and
    [token] are what [bcrypt.hash], the two [crypto.randomUUID()] and
    [jwt.sign] give; [now] and [now'] are the two readings of the clock,
    for [trialEndDate] and for [daysRemaining]. *)
Definition trial_signup (LocalTZA : Zone) (valid : bool) (b : SignupBody)
    (hashedPassword agencyId userId token : string) (now now' : Z)
    : Prog SignupResponse :=
  try_catch
    (if negb valid then Ret (Rejected 400 None)
     else
       existingUserQuery <- await! SelectUserByEmail (email b) ;;
       match existingUserQuery with
       | existingUser :: _ =>
           if bool_decide (u_subscription_status existingUser = Some "expired")
           then Ret (Rejected 409 (Some "TRIAL_EXPIRED"))
           else Ret (Rejected 409 (Some "EMAIL_EXISTS"))
       | [] =>
           let trialEndDate := setDate_plus LocalTZA now 14 in
           newUser <- await! InsertUser
                        (mkUser userId (email b) hashedPassword (firstName b)
                                (lastName b) "manager" "active" (Some agencyId)
                                (Some "trial") (Some trialEndDate) (Some "starter")) ;;
           _ <- await! InsertAgency
                  (mkAgency agencyId (agency_name b) (email b) "active" true "starter") ;;
           let daysRemaining := ceil_div (trialEndDate - now') MS_PER_DAY in
           Ret (Created newUser "trial" "starter" trialEndDate daysRemaining token)
       end)
    (fun _ => Ret (Rejected 500 None)).

(** ** The Sequelize models: [src/models/SubscriptionPlan.js] and
    [src/models/Subscription.js] *)

Module SubscriptionPlan.

(** [this.features && this.features[featureName] === true], as a truth
    value; [features] is the JSONB column, [None] when it is NULL. *)
Definition hasFeature (features : option (gmap string JsVal)) (featureName : string)
    : bool :=
  match features with
  | Some o => bool_decide (js_get o featureName = JBool true)
  | None => false
  end.

(** [this.features ? this.features[featureName] : null] *)
Definition getFeatureValue (features : option (gmap string JsVal))
    (featureName : string) : JsVal :=
  match features with
  | Some o => js_get o featureName
  | None => JNull
  end.

End SubscriptionPlan.

Module SubscriptionModel.

Record t : Type := mk {
  user_id : string;
  plan_id : string;
  status : string;
  is_trial : bool;
  trial_start_date : option Z;
  trial_end_date : option Z;
  current_period_start : Z;
  current_period_end : Z;
  amount : Z
}.

Definition isActive (s : t) : bool :=
  bool_decide (status s ∈ ["trial"; "active"]).

Definition isTrialExpired (s : t) (now : Z) : bool :=
  match trial_end_date s with
  | Some e => if is_trial s then e <? now else false
  | None => false
  end.

Definition getDaysRemaining (s : t) (now : Z) : Z :=
  match trial_end_date s with
  | Some e => if is_trial s then Z.max 0 (ceil_div (e - now) MS_PER_DAY) else 0
  | None => 0
  end.

Definition canAccess (s : t) (now : Z) : bool :=
  isActive s && negb (isTrialExpired s now).

(** [Subscription.createTrial(userId, planId = null)]: the row handed
    to [this.create].  [starterPlan] is the id of the row that
    [SubscriptionPlan.findOne({ where: { name: 'starter' } })] finds,
    if any; [now] and [now'] are the readings of the clock for
    [trialStartDate] and [trialEndDate], [LocalTZA] the time zone of the
    server. *)
Definition createTrial (LocalTZA : Zone) (userId : string) (planId : option string)
    (starterPlan : option string) (now now' : Z) : Exn + t :=
  let row (p : string) :=
    mk userId p "trial" true (Some now) (Some (setDate_plus LocalTZA now' 14))
       now (setDate_plus LocalTZA now' 14) 0 in
  match planId with
  | Some p => if bool_decide (p = "") then
                match starterPlan with
                | Some sp => inr (row sp)
                | None => inl (mkExn "TypeError" "Cannot read properties of null")
                end
              else inr (row p)
  | None =>
      match starterPlan with
      | Some sp => inr (row sp)
      | None => inl (mkExn "TypeError" "Cannot read properties of null")
      end
  end.

End SubscriptionModel.

(** ** [services/subscriptionService.js] *)

Module SubscriptionService.

Record Plan : Type := mkPlan {
  id : string;
  name : string;
  price : Z;
  limit_leads : Z;
  limit_users : Z;
  limit_properties : Z
}.

Definition plans : list Plan :=
  [ mkPlan "starter" "Starter Plan" 29 50 1 20;
    mkPlan "professional" "Professional Plan" 79 500 5 100;
    mkPlan "enterprise" "Enterprise Plan" 199 (-1) (-1) (-1) ].

Definition getPlan (planId : string) : option Plan :=
  List.find (fun plan => bool_decide (id plan = planId)) plans.

(** [createSubscription]: [now1], [now2], [now3] are the readings of
    the clock in the order the body takes them, [new_id] and
    [created_at] what the store assigns to the new row.  The [catch]
    logs and rethrows. *)
Definition createSubscription (userId : string) (agencyId : option string)
    (planId paymentMethod : string) (now1 now2 now3 : Z)
    (new_id : string) (created_at : Z) : Prog SubRow :=
  match getPlan planId with
  | None => Throw (mkExn "Error" ("Plan " ++ planId ++ " not found"))
  | Some plan =>
      existingSubscription <- await! FindSubscription userId ["active"; "trial"] ;;
      match existingSubscription with
      | Some _ => Throw (mkExn "Error" "User already has an active subscription")
      | None =>
          let is_trial := bool_decide (paymentMethod = "trial") in
          let period_end :=
            if is_trial then now3 + 13 * 24 * 60 * 60 * 1000
            else now2 + 30 * 24 * 60 * 60 * 1000 in
          subscription <- await! CreateSubscription
                            (mkSub new_id userId agencyId planId (name plan)
                                   (if is_trial then "trial" else "active")
                                   paymentMethod now1 period_end created_at) ;;
          Ret subscription
      end
  end.

(** [getUserSubscription]; [now] is the reading of the clock. *)
Definition getUserSubscription (userId : string) (now : Z) : Prog (option SubRow) :=
  found <- await! FindSubscription userId ["active"; "trial"; "past_due"] ;;
  match found with
  | None => Ret None
  | Some subscription =>
      if bool_decide (s_status subscription = "trial")
         && (s_current_period_end subscription <? now)
      then
        _ <- await! UpdateSubscription "expired" (s_id subscription) ;;
        Ret (Some (set_sub_status "expired" subscription))
      else Ret (Some subscription)
  end.

(** [getDaysRemaining]; [today] is the second reading of the clock. *)
Definition getDaysRemaining (userId : string) (now today : Z) : Prog Z :=
  try_catch
    (bind (getUserSubscription userId now) (fun found =>
       match found with
       | None => Ret 0
       | Some subscription =>
           if bool_decide (s_status subscription = "expired")
              || bool_decide (s_status subscription = "cancelled")
           then Ret 0
           else Ret (Z.max 0 (ceil_div (s_current_period_end subscription - today)
                                       (1000 * 3600 * 24)))
       end))
    (fun _ => Ret 0).

End SubscriptionService.

(** ** The join variant of the gate *)

Module Joined.

(** The two writes of the expiry path of the variant of
    [checkSubscriptionStatus] that joins [subscriptions]:
    [UPDATE users SET subscription_status = 'expired' WHERE id = $2],
    then, [if (user.subscription_id)],
    [UPDATE subscriptions SET status = 'expired' WHERE id = $2]. *)
Definition expire (user_id : string) (subscription_id : option string) : Prog unit :=
  _ <- await! UpdateUserStatus "expired" user_id ;;
  match subscription_id with
  | Some sid =>
      if bool_decide (sid = "") then Ret tt
      else _ <- await! UpdateSubscription "expired" sid ;; Ret tt
  | None => Ret tt
  end.

End Joined.

(** ** What the specification says, for comparison *)


(** Feature resolution as the specification words it: [features[name]]
    "is true, or is a non-empty string not equal to the sentinel none". *)
Definition available_spec (o : gmap string JsVal) (name : string) : bool :=
  match js_get o name with
  | JBool true => true
  | JStr s => negb (bool_decide (s = "")) && negb (bool_decide (s = "none"))
  | _ => false
  end.

(** The denial code the specification gives to each stored status that
    is refused: [PAYMENT_REQUIRED] for [past_due], [SUBSCRIPTION_INACTIVE]
    for the others. *)
Definition denial_code_spec (status : option string) : string :=
  if bool_decide (status = Some "past_due") then "PAYMENT_REQUIRED"
  else "SUBSCRIPTION_INACTIVE".

(** ** Running programs *)

Definition find_user (d : Db) (id : string) : list UserRow :=
  List.filter (fun u => sql_eq (Some (u_id u)) (Some id)) (users d).

(** The tables after the write of the expiry path. *)
Definition expired_db (d : Db) (id : string) : Db :=
  snd (exec (UpdateUserStatus "expired" id) d).

(** A request that gets as far as the query for the user [uid]: its path
    is not exempt, it carries a header, and its token verifies. *)
Definition reaches_evaluation (jwt_verify : string -> Exn + option string)
    (req : Req) (uid : string) : Prop :=
  skipped (req_path req) = false
  /\ no_header (req_authorization req) = false
  /\ jwt_verify (bearer_token (default "" (req_authorization req))) = inr (Some uid).

(** The write to [users] of [POST /api/subscription/upgrade]. *)
Definition upgrade_user (planName userId : string) : Prog unit :=
  _ <- await! UpgradeUser planName userId ;; Ret tt.

(** The two refusals of the expiry path. *)
Definition trial_expired_response (FRONTEND_URL : string) (endDate : Z) : Outcome :=
  Respond 402 (mkBody (Some "TRIAL_EXPIRED")
                 (TrialExpiredData endDate (upgrade_url FRONTEND_URL))).

Definition inactive_response (FRONTEND_URL : string) (st : option string) : Outcome :=
  Respond 402 (mkBody (Some "SUBSCRIPTION_INACTIVE")
                 (InactiveData st (upgrade_url FRONTEND_URL))).

(** What [requireFeature] answers when the feature is not there. *)
Definition feature_refused (FRONTEND_URL featureName : string) (s : Subscription)
    : Outcome :=
  Respond 403 (mkBody (Some "FEATURE_NOT_AVAILABLE")
                 (FeatureData featureName (planName s) (upgrade_url FRONTEND_URL))).

(** An evaluation suspended at the write of the expiry path: it has read
    a trial that is over and has not yet stored [expired]. *)
Definition pending_write (FRONTEND_URL uid : string) (endDate : Z) : Prog Outcome :=
  try_catch
    (_ <- await! UpdateUserStatus "expired" uid ;;
     Ret (trial_expired_response FRONTEND_URL endDate))
    checkSubscriptionStatus_catch.

(** Where an evaluation of an expired trial can be while another one
    runs: not started, suspended at its write, or done, which happens
    only once the tables are [d1], the tables with [expired] stored. *)
Inductive thread_state (jwt_verify : string -> Exn + option string)
    (FRONTEND_URL : string) (builtin_member : string -> string -> JsVal)
    (uid : string) (endDate : Z) (d1 : Db) (req : Req) (now : Z)
    : Prog Outcome -> Db -> Prop :=
| ts_start (d : Db) :
    thread_state jwt_verify FRONTEND_URL builtin_member uid endDate d1 req now
      (checkSubscriptionStatus jwt_verify FRONTEND_URL builtin_member req now) d
| ts_pending (d : Db) :
    thread_state jwt_verify FRONTEND_URL builtin_member uid endDate d1 req now
      (pending_write FRONTEND_URL uid endDate) d
| ts_expired :
    thread_state jwt_verify FRONTEND_URL builtin_member uid endDate d1 req now
      (Ret (trial_expired_response FRONTEND_URL endDate)) d1
| ts_inactive :
    thread_state jwt_verify FRONTEND_URL builtin_member uid endDate d1 req now
      (Ret (inactive_response FRONTEND_URL (Some "expired"))) d1.

(** The stored status of the user [id], row by row. *)
Definition stored_status (d : Db) (id : string) : list (option string) :=
  map u_subscription_status (find_user d id).

(** ** A small agency, for concrete runs *)

Module Demo.

(** A verifier that knows one token, that of user [u1]. *)
Definition jwt (token : string) : Exn + option string :=
  if bool_decide (token = "t-u1") then inr (Some "u1")
  else inl (mkExn "JsonWebTokenError" "invalid token").

Definition url : string := "https://app.example".

(** The built-ins asked for a key of the catalogue: none of them has a
    member [max_leads], [max_users], [max_properties] or one named after
    a feature, so the answer is [undefined]. *)
Definition members (b k : string) : JsVal := JUndefined.

Definition req : Req :=
  mkReq "/api/leads" (Some "Bearer t-u1") None ∅ None.

Definition user (id : string) (st : option string) (trial_end : option Z)
    (plan : option string) : UserRow :=
  mkUser id (id ++ "@example.com") "hash" "Ann" "Lee" "manager" "active"
         (Some "a1") st trial_end plan.

Definition world (us : list UserRow) (fs : list (option Exn)) : World :=
  mkWorld (mkDb us [] [] [] []) fs.

(** 1 January 2025, 00:00 UTC. *)
Definition t0 : Z := 1735689600000.

Definition outage : Exn := mkExn "Error" "connect ECONNREFUSED".

Definition body : SignupBody :=
  mkSignupBody "bo@example.com" "secret1" "Bo" "Ek" None.

(** A server whose clock is UTC. *)
Definition utc : Zone := fun _ _ => 0.

(** The two changes of the clock of [America/New_York] in 2025, as UTC
    time values: 9 March, 07:00 UTC, and 2 November, 06:00 UTC. *)
Definition spring_forward : Z := 1741503600000.
Definition fall_back : Z := 1762063200000.

(** A server in [America/New_York] during 2025: four hours behind UTC
    between the two changes, five hours otherwise.  A local time that
    the clock skips or shows twice takes the offset in force before the
    change. *)
Definition eastern : Zone := fun t isUTC =>
  if isUTC then
    if (spring_forward <=? t) && (t <? fall_back)
    then - 4 * MS_PER_HOUR else - 5 * MS_PER_HOUR
  else
    if (spring_forward - 4 * MS_PER_HOUR <=? t) && (t <? fall_back - 4 * MS_PER_HOUR)
    then - 4 * MS_PER_HOUR else - 5 * MS_PER_HOUR.

End Demo.

(** ** [GET /api/auth/trial-status] *)

(** The [data] block of the answer. *)
Record TrialStatus : Type := mkTrialStatus {
  tst_userId : string;
  tst_email : string;
  tst_subscriptionStatus : option string;
  tst_planName : option string;
  tst_isTrial : bool;
  tst_trialEndDate : option Z;
  tst_daysRemaining : Z;
  tst_trialExpired : bool;
  tst_needsUpgrade : bool
}.

Inductive TrialStatusResponse : Type :=
| TrialStatusOk (d : TrialStatus)
| TrialStatusRefused (http_status : Z).

(** [let daysRemaining = 0; let trialExpired = false;
     if (trialEndDate && isTrialActive) { ... }]: the two variables after
    the [if]. *)
Definition trial_countdown (st : option string) (trial_end : option Z) (now : Z)
    : Z * bool :=
  match trial_end with
  | Some endDate =>
      if bool_decide (st = Some "trial") then
        let daysRemaining := ceil_div (endDate - now) MS_PER_DAY in
        (daysRemaining, daysRemaining <=? 0)
      else (0, false)
  | None => (0, false)
  end.

(** The handler; [authorization] is [req.header('Authorization')] and
    [now] what [new Date()] reads. *)
Definition trial_status (jwt_verify : string -> Exn + option string)
    (authorization : option string) (now : Z) : Prog TrialStatusResponse :=
  try_catch
    (if no_header authorization then Ret (TrialStatusRefused 401)
     else
       match jwt_verify (bearer_token (default "" authorization)) with
       | inl e => Throw e
       | inr decoded_userId =>
           userQuery <- await! SelectUserById decoded_userId ;;
           match userQuery with
           | [] => Ret (TrialStatusRefused 404)
           | user :: _ =>
               let isTrialActive :=
                 bool_decide (u_subscription_status user = Some "trial") in
               let '(daysRemaining, trialExpired) :=
                 trial_countdown (u_subscription_status user)
                                 (u_trial_end_date user) now in
               Ret (TrialStatusOk
                      (mkTrialStatus (u_id user) (u_email user)
                         (u_subscription_status user) (u_plan_name user)
                         isTrialActive (u_trial_end_date user)
                         (Z.max 0 daysRemaining) trialExpired
                         (trialExpired && isTrialActive)))
           end
       end)
    (fun error =>
       if is_token_error error then Ret (TrialStatusRefused 401)
       else Ret (TrialStatusRefused 500)).

(** ** The plan table of [SubscriptionPlan] *)

Module Plans.

(** A row of [subscription_plans]; prices in cents, a limit that is NULL
    is unlimited, [features] the entries of the JSONB object in the order
    [for ... in] visits them. *)
Record PlanRow : Type := mkPlanRow {
  p_id : string;
  p_name : string;
  p_display_name : string;
  p_monthly_price : Z;
  p_quarterly_price : option Z;
  p_semi_annual_price : option Z;
  p_annual_price : option Z;
  p_max_leads : option Z;
  p_max_users : option Z;
  p_max_properties : option Z;
  p_features : list (string * JsVal);
  p_is_active : bool;
  p_sort_order : Z
}.

Definition validFeatures : list string :=
  [ "whatsapp"; "analytics"; "branding"; "api_access";
    "google_sheets"; "white_label"; "custom_domain" ].

(** The validator [isValidFeatures(value)]: it throws at the first key
    that is not a known feature, and looks at no value. *)
Fixpoint isValidFeatures (value : list (string * JsVal)) : Exn + unit :=
  match value with
  | [] => inr tt
  | (feature, _) :: rest =>
      if bool_decide (feature ∈ validFeatures) then isValidFeatures rest
      else inl (mkExn "Error" ("Invalid feature: " ++ feature))
  end.

(** [validate: { min: n }] on a column that may be NULL. *)
Definition at_least (n : Z) (v : option Z) : bool :=
  match v with
  | Some x => n <=? x
  | None => true
  end.

(** The validations of the model that a new row goes through. *)
Definition validate (r : PlanRow) : Exn + unit :=
  if bool_decide (p_name r ∈ ["starter"; "pro"; "agency"])
     && at_least 0 (p_max_leads r) && at_least 1 (p_max_users r)
     && at_least 0 (p_max_properties r)
  then isValidFeatures (p_features r)
  else inl (mkExn "SequelizeValidationError" "Validation error").

(** [this.findOrCreate({ where: { name }, defaults })]: a row of that
    name is left as it is; otherwise the defaults are validated and
    stored. *)
Definition findOrCreate (defaults : PlanRow) (t : list PlanRow) : Exn + list PlanRow :=
  match List.find (fun r => bool_decide (p_name r = p_name defaults)) t with
  | Some _ => inr t
  | None =>
      match validate defaults with
      | inl e => inl e
      | inr _ => inr (t ++ [defaults])%list
      end
  end.

(** The three [plans] of [seedDefaultPlans]; [new_id] is the id that
    [UUIDV4] draws for the plan of a given name. *)
Definition seeds (new_id : string -> string) : list PlanRow :=
  [ mkPlanRow (new_id "starter") "starter" "Starter Plan"
      9900 (Some 26700) (Some 49500) (Some 95000)
      (Some 1000) (Some 3) (Some 100)
      [ ("whatsapp", JBool false); ("analytics", JStr "basic");
        ("branding", JStr "none"); ("api_access", JBool false);
        ("google_sheets", JBool false); ("white_label", JBool false);
        ("custom_domain", JBool false) ]
      true 1;
    mkPlanRow (new_id "pro") "pro" "Pro Plan"
      19900 (Some 53700) (Some 99500) (Some 190000)
      (Some 5000) (Some 10) (Some 500)
      [ ("whatsapp", JBool true); ("analytics", JStr "advanced");
        ("branding", JStr "basic"); ("api_access", JBool true);
        ("google_sheets", JBool true); ("white_label", JBool false);
        ("custom_domain", JBool false) ]
      true 2;
    mkPlanRow (new_id "agency") "agency" "Agency Plan"
      39900 (Some 107700) (Some 199500) (Some 380000)
      None None None
      [ ("whatsapp", JBool true); ("analytics", JStr "enterprise");
        ("branding", JStr "full"); ("api_access", JBool true);
        ("google_sheets", JBool true); ("white_label", JBool true);
        ("custom_domain", JBool true) ]
      true 3 ].

(** [for (const planData of plans) await this.findOrCreate(...)] *)
Fixpoint seed_all (plans : list PlanRow) (t : list PlanRow) : Exn + list PlanRow :=
  match plans with
  | [] => inr t
  | planData :: rest =>
      match findOrCreate planData t with
      | inl e => inl e
      | inr t' => seed_all rest t'
      end
  end.

Definition seedDefaultPlans (new_id : string -> string) (t : list PlanRow)
    : Exn + list PlanRow :=
  seed_all (seeds new_id) t.

(** [this.findOne({ where: { name, is_active: true } })] *)
Definition getByName (name : string) (t : list PlanRow) : option PlanRow :=
  List.find (fun r => bool_decide (p_name r = name) && p_is_active r) t.

Definition getStarterPlan (t : list PlanRow) : option PlanRow :=
  getByName "starter" t.

(** [SubscriptionPlan.findOne({ where: { name: 'starter' } })] of
    [Subscription.createTrial], which does not look at [is_active]. *)
Definition findStarter (t : list PlanRow) : option PlanRow :=
  List.find (fun r => bool_decide (p_name r = "starter")) t.

(** The JSONB object as [requireFeature] reads it. *)
Definition features_object (r : PlanRow) : gmap string JsVal :=
  list_to_map (p_features r).

End Plans.

(** ** The checks of [subscriptionService] *)

Module ServiceChecks.

Section Columns.

(** The two JSON columns of a subscription, which [SubRow] does not
    keep, as [getUserSubscription] hands them on after [JSON.parse]:
    [None] for a column that is NULL. *)
Variable row_features : SubRow -> option (list string).
Variable row_limits : SubRow -> option (gmap string JsVal).

(** [hasFeatureAccess(userId, feature)]; [now] is the reading of the
    clock in [getUserSubscription]. *)
Definition hasFeatureAccess (userId feature : string) (now : Z) : Prog bool :=
  try_catch
    (bind (SubscriptionService.getUserSubscription userId now) (fun found =>
       match found with
       | None => Ret false
       | Some subscription =>
           if bool_decide (s_status subscription = "expired")
              || bool_decide (s_status subscription = "cancelled")
           then Ret false
           else Ret (bool_decide (feature ∈ default [] (row_features subscription)))
       end))
    (fun _ => Ret false).

(** [hasReachedLimit(userId, limitType, currentCount)] *)
Definition hasReachedLimit (userId limitType : string) (currentCount now : Z)
    : Prog bool :=
  try_catch
    (bind (SubscriptionService.getUserSubscription userId now) (fun found =>
       match found with
       | None => Ret true
       | Some subscription =>
           if bool_decide (s_status subscription = "expired")
              || bool_decide (s_status subscription = "cancelled")
           then Ret true
           else
             let limit := js_get (default ∅ (row_limits subscription)) limitType in
             if bool_decide (limit = JNum (-1)) then Ret false
             else Ret (js_ge currentCount limit)
       end))
    (fun _ => Ret true).

End Columns.

(** [GET /api/subscription/current]: the subscription, then the days
    remaining, each through its own [getUserSubscription]; [None] is the
    404 answer, and an exception is what the [catch] of the route turns
    into the 500 answer.  [now1], [now2] and [today] are the readings of
    the clock. *)
Definition current (userId : string) (now1 now2 today : Z)
    : Prog (option (SubRow * Z)) :=
  bind (SubscriptionService.getUserSubscription userId now1) (fun found =>
    match found with
    | None => Ret None
    | Some subscription =>
        bind (SubscriptionService.getDaysRemaining userId now2 today)
             (fun daysRemaining => Ret (Some (subscription, daysRemaining)))
    end).

End ServiceChecks.

(** ** The join variant of the gate, after its query *)

Module JoinedGate.

(** A row of the query of the join variant: the columns of [users], and
    those of the live subscription and of its plan, all NULL when the
    [LEFT JOIN] finds none. *)
Record JoinedRow : Type := mkJoinedRow {
  j_id : string;
  j_subscription_status : option string;
  j_trial_end_date : option Z;
  j_plan_name : option string;
  j_subscription_id : option string;
  j_sub_status : option string;
  j_sub_trial_end : option Z;
  j_features : option (gmap string JsVal);
  j_max_leads : option Z;
  j_max_users : option Z;
  j_max_properties : option Z
}.

(** [user.sub_status || user.subscription_status] *)
Definition subscriptionStatus (user : JoinedRow) : option string :=
  match j_sub_status user with
  | Some s => if bool_decide (s = "") then j_subscription_status user else Some s
  | None => j_subscription_status user
  end.

(** [user.sub_trial_end || user.trial_end_date] *)
Definition trialEndDate (user : JoinedRow) : option Z :=
  match j_sub_trial_end user with
  | Some e => Some e
  | None => j_trial_end_date user
  end.

(** An INTEGER column as JavaScript sees it. *)
Definition column (v : option Z) : JsVal :=
  match v with
  | Some n => JNum n
  | None => JNull
  end.

(** The object bound to [req.subscription]; it has no [agencyId]. *)
Definition subscription_of (user : JoinedRow) : Subscription :=
  mkSubscription (j_id user) None (subscriptionStatus user) (j_plan_name user)
    (PlanObject (default ∅ (j_features user)))
    (mkLimits (column (j_max_leads user)) (column (j_max_users user))
              (column (j_max_properties user)))
    (trialEndDate user)
    (includes ["trial"; "active"] (subscriptionStatus user)).

(** The [try] block from [const user = userQuery.rows[0]] on. *)
Definition evaluate (FRONTEND_URL : string) (req : Req) (now : Z) (user : JoinedRow)
    : Prog Outcome :=
  let authorize :=
    if negb (includes ["trial"; "active"] (subscriptionStatus user)) then
      Ret (inactive_response FRONTEND_URL (subscriptionStatus user))
    else
      Ret (Next (mkReq (req_path req) (req_authorization req)
                       (Some (subscription_of user)) (req_usage req)
                       (req_trialInfo req))) in
  if bool_decide (subscriptionStatus user = Some "trial") then
    match trialEndDate user with
    | Some endDate =>
        if endDate <? now then
          bind (Joined.expire (j_id user) (j_subscription_id user))
               (fun _ => Ret (trial_expired_response FRONTEND_URL endDate))
        else authorize
    | None => authorize
    end
  else authorize.

End JoinedGate.

(** ** Reading the subscriptions table *)

(** The rows [createSubscription] looks for before it creates one: those
    of the user whose status is [active] or [trial]. *)
Definition live_subscriptions (d : Db) (uid : string) : list SubRow :=
  List.filter (fun s => bool_decide (s_user_id s = uid)
                        && bool_decide (s_status s ∈ ["active"; "trial"]))
              (subscriptions d).

(** The rows [getUserSubscription] chooses from. *)
Definition current_subscriptions (d : Db) (uid : string) : list SubRow :=
  List.filter (fun s => bool_decide (s_user_id s = uid)
                        && bool_decide (s_status s ∈ ["active"; "trial"; "past_due"]))
              (subscriptions d).

(** ** Reading outcomes *)

(** The first rejection the store gave while [p] ran, whatever [p] did
    with it. *)
Fixpoint first_rejection {A : Type} (p : Prog A) (w : World) : option Exn :=
  match p with
  | Await q k _ =>
      match pool_query q w with
      | (inl e, _) => Some e
      | (inr r, w') => first_rejection (k r) w'
      end
  | _ => None
  end.

(** The middleware called [next()]. *)
Definition lets_through (r : Exn + Outcome) : bool :=
  match r with
  | inr (Next _) => true
  | _ => false
  end.

(** The verdict of the gate on the stored status and end of trial of a
    user, as a truth value: the status is [trial] or [active], and a
    trial with an end date is not past it. *)
Definition gate_verdict (st : option string) (trial_end : option Z) (now : Z) : bool :=
  includes ["trial"; "active"] st
  && negb (bool_decide (st = Some "trial")
           && match trial_end with
              | Some endDate => endDate <? now
              | None => false
              end).

Lemma run_try_catch {A : Type} (p : Prog A) (h : Exn -> Prog A) (w : World) :
  run (try_catch p h) w =
  match run p w with
  | (inr a, w') => (inr a, w')
  | (inl e, w') => run (h e) w'
  end.
Proof.
  revert w. induction p as [a | e | R q k IHk h' IHh]; intros w; simpl.
  - reflexivity.
  - reflexivity.
  - destruct (pool_query q w) as [[e | r] w']; [apply IHh | apply IHk].
Qed.

Lemma run_bind {A B : Type} (p : Prog A) (f : A -> Prog B) (w : World) :
  run (bind p f) w =
  match run p w with
  | (inr a, w') => run (f a) w'
  | (inl e, w') => (inl e, w')
  end.
Proof.
  revert w. induction p as [a | e | R q k IHk h' IHh]; intros w; simpl.
  - reflexivity.
  - reflexivity.
  - destruct (pool_query q w) as [[e | r] w']; [apply IHh | apply IHk].
Qed.

Lemma pool_query_healthy {R : Type} (q : Sql R) (w : World) :
  faults w = [] ->
  pool_query q w = (fst (exec q (db w)), mkWorld (snd (exec q (db w))) []).
Proof.
  intros Hf. unfold pool_query. rewrite Hf.
  destruct (exec q (db w)); reflexivity.
Qed.

Lemma pool_query_fault {R : Type} (q : Sql R) (w : World) (e : Exn) (fs : list (option Exn)) :
  faults w = Some e :: fs ->
  pool_query q w = (inl e, mkWorld (db w) fs).
Proof. intros Hf. unfold pool_query. rewrite Hf. reflexivity. Qed.

Lemma healthy_world (w : World) : faults w = [] -> mkWorld (db w) [] = w.
Proof. destruct w as [d fs]; simpl; intros ->; reflexivity. Qed.

Lemma pool_query_answers {R : Type} (q : Sql R) (w : World) (fs : list (option Exn)) :
  faults w = None :: fs ->
  pool_query q w = (fst (exec q (db w)), mkWorld (snd (exec q (db w))) fs).
Proof.
  intros Hf. unfold pool_query. rewrite Hf.
  destruct (exec q (db w)); reflexivity.
Qed.

(** What one query can do to the tables: nothing when it is rejected,
    its own effect otherwise. *)
Lemma pool_query_db {R : Type} (q : Sql R) (w : World) :
  (exists e, fst (pool_query q w) = inl e /\ db (snd (pool_query q w)) = db w)
  \/ (fst (pool_query q w) = fst (exec q (db w))
      /\ db (snd (pool_query q w)) = snd (exec q (db w))).
Proof.
  unfold pool_query. destruct (faults w) as [| [e |] fs].
  - right. destruct (exec q (db w)); split; reflexivity.
  - left. exists e. split; reflexivity.
  - right. destruct (exec q (db w)); split; reflexivity.
Qed.

Lemma exec_select (d : Db) (id : string) :
  exec (SelectUserById (Some id)) d = (inr (find_user d id), d).
Proof. reflexivity. Qed.

Lemma find_user_id (d : Db) (id : string) (u : UserRow) :
  In u (find_user d id) -> u_id u = id.
Proof.
  unfold find_user. rewrite List.filter_In. intros [_ H].
  unfold sql_eq in H. apply bool_decide_eq_true in H. congruence.
Qed.

(** After the write every row of the user reads [expired]; the other
    columns are as before. *)
Lemma find_user_expired (d : Db) (id : string) :
  find_user (expired_db d id) id
  = map (set_subscription_status (Some "expired")) (find_user d id).
Proof.
  unfold find_user, expired_db. simpl.
  induction (users d) as [| u l IH]; [reflexivity |].
  simpl. destruct (bool_decide (u_id u = id)) eqn:E; simpl; rewrite E, IH; reflexivity.
Qed.


Section GateFacts.

Variable jwt_verify : string -> Exn + option string.
Variable FRONTEND_URL : string.
Variable builtin_member : string -> string -> JsVal.

Abbreviation gate := (checkSubscriptionStatus jwt_verify FRONTEND_URL builtin_member).

(** With a store that answers, the gate on a request that reaches
    evaluation is the check of the first row found. *)
Lemma gate_on_user (req : Req) (now : Z) (w : World) (uid : string)
    (user : UserRow) (rest : list UserRow) :
  reaches_evaluation jwt_verify req uid ->
  faults w = [] ->
  find_user (db w) uid = user :: rest ->
  run (gate req now) w
  = run (try_catch (check_trial FRONTEND_URL builtin_member req now user)
                   checkSubscriptionStatus_catch) w.
Proof.
  intros (Hskip & Hhdr & Hjwt) Hf Hrows.
  unfold checkSubscriptionStatus, checkSubscriptionStatus_try.
  rewrite Hskip, Hhdr, Hjwt. simpl.
  rewrite pool_query_healthy by exact Hf.
  rewrite exec_select, Hrows. cbn [fst snd].
  rewrite healthy_world by exact Hf. reflexivity.
Qed.

(** A stored status outside [trial] and [active] is refused with
    [SUBSCRIPTION_INACTIVE], the status in the [data] block, and no
    write. *)
Lemma gate_inactive (req : Req) (now : Z) (w : World) (uid : string)
    (user : UserRow) (rest : list UserRow) :
  reaches_evaluation jwt_verify req uid ->
  faults w = [] ->
  find_user (db w) uid = user :: rest ->
  includes ["trial"; "active"] (u_subscription_status user) = false ->
  run (gate req now) w
  = (inr (Respond 402 (mkBody (Some "SUBSCRIPTION_INACTIVE")
                         (InactiveData (u_subscription_status user)
                                       (upgrade_url FRONTEND_URL)))), w).
Proof.
  intros Hreach Hf Hrows Hinact.
  rewrite (gate_on_user req now w uid user rest) by assumption.
  unfold check_trial.
  destruct (bool_decide (u_subscription_status user = Some "trial")) eqn:Etrial.
  - apply bool_decide_eq_true in Etrial. rewrite Etrial in Hinact. discriminate.
  - unfold check_active. rewrite Hinact. reflexivity.
Qed.

(** An expired trial: the write, then [TRIAL_EXPIRED]. *)
Lemma gate_trial_expired (req : Req) (now : Z) (w : World) (uid : string)
    (user : UserRow) (rest : list UserRow) (endDate : Z) :
  reaches_evaluation jwt_verify req uid ->
  faults w = [] ->
  find_user (db w) uid = user :: rest ->
  u_subscription_status user = Some "trial" ->
  u_trial_end_date user = Some endDate ->
  endDate < now ->
  run (gate req now) w
  = (inr (Respond 402 (mkBody (Some "TRIAL_EXPIRED")
                         (TrialExpiredData endDate (upgrade_url FRONTEND_URL)))),
     mkWorld (expired_db (db w) uid) []).
Proof.
  intros Hreach Hf Hrows Hst Hend Hlt.
  rewrite (gate_on_user req now w uid user rest) by assumption.
  unfold check_trial. rewrite Hst, Hend.
  rewrite bool_decide_eq_true_2 by reflexivity.
  apply Z.ltb_lt in Hlt. rewrite Hlt. simpl.
  rewrite pool_query_healthy by exact Hf.
  assert (Hid : u_id user = uid).
  { apply (find_user_id (db w)). rewrite Hrows. left; reflexivity. }
  rewrite Hid. reflexivity.
Qed.

End GateFacts.

(** ** The lazy trial expiry *)

(** C1.  A tenant whose stored status is [trial] and whose trial ended
    strictly before now is refused with [TRIAL_EXPIRED] at the first
    evaluation, which stores [expired]; any later evaluation is refused
    with [SUBSCRIPTION_INACTIVE], the stored status being [expired]. *)
Theorem trial_expired_then_inactive
    (jwt_verify : string -> Exn + option string) (FRONTEND_URL : string)
    (builtin_member : string -> string -> JsVal)
    (req1 req2 : Req) (now1 now2 : Z) (w : World) (uid : string)
    (user : UserRow) (rest : list UserRow) (endDate : Z) :
  reaches_evaluation jwt_verify req1 uid ->
  reaches_evaluation jwt_verify req2 uid ->
  faults w = [] ->
  find_user (db w) uid = user :: rest ->
  u_subscription_status user = Some "trial" ->
  u_trial_end_date user = Some endDate ->
  endDate < now1 ->
  let w1 := mkWorld (expired_db (db w) uid) [] in
  run (checkSubscriptionStatus jwt_verify FRONTEND_URL builtin_member req1 now1) w
  = (inr (Respond 402 (mkBody (Some "TRIAL_EXPIRED")
                         (TrialExpiredData endDate (upgrade_url FRONTEND_URL)))), w1)
  /\ stored_status (db w1) uid
     = map (fun _ => Some "expired") (user :: rest)
  /\ run (checkSubscriptionStatus jwt_verify FRONTEND_URL builtin_member req2 now2) w1
     = (inr (Respond 402 (mkBody (Some "SUBSCRIPTION_INACTIVE")
                            (InactiveData (Some "expired") (upgrade_url FRONTEND_URL)))),
        w1).
Proof.
  intros Hr1 Hr2 Hf Hrows Hst Hend Hlt w1.
  assert (Hrows1 : find_user (db w1) uid
                   = set_subscription_status (Some "expired") user
                     :: map (set_subscription_status (Some "expired")) rest).
  { unfold w1. cbn [db]. rewrite find_user_expired, Hrows. reflexivity. }
  split; [| split].
  - apply (gate_trial_expired _ _ _ req1 now1 w uid user rest endDate); assumption.
  - unfold stored_status. rewrite Hrows1. cbn [map]. f_equal.
    rewrite map_map. apply map_ext. reflexivity.
  - apply (gate_inactive _ _ _ req2 now2 w1 uid _ _ Hr2 eq_refl Hrows1).
    reflexivity.
Qed.

Lemma trial_expired_then_inactive_witness :
  let w := Demo.world [Demo.user "u1" (Some "trial") (Some Demo.t0) (Some "starter")] [] in
  let w1 := mkWorld (expired_db (db w) "u1") [] in
  run (checkSubscriptionStatus Demo.jwt Demo.url Demo.members Demo.req
         (Demo.t0 + 15 * MS_PER_DAY)) w
  = (inr (Respond 402 (mkBody (Some "TRIAL_EXPIRED")
                         (TrialExpiredData Demo.t0 (upgrade_url Demo.url)))), w1)
  /\ stored_status (db w1) "u1" = [Some "expired"]
  /\ run (checkSubscriptionStatus Demo.jwt Demo.url Demo.members Demo.req
            (Demo.t0 + 15 * MS_PER_DAY + 1)) w1
     = (inr (Respond 402 (mkBody (Some "SUBSCRIPTION_INACTIVE")
                            (InactiveData (Some "expired") (upgrade_url Demo.url)))),
        w1).
Proof.
  apply (trial_expired_then_inactive Demo.jwt Demo.url Demo.members
           Demo.req Demo.req (Demo.t0 + 15 * MS_PER_DAY)
           (Demo.t0 + 15 * MS_PER_DAY + 1)
           (Demo.world [Demo.user "u1" (Some "trial") (Some Demo.t0) (Some "starter")] [])
           "u1" (Demo.user "u1" (Some "trial") (Some Demo.t0) (Some "starter")) []
           Demo.t0).
  - repeat split.
  - repeat split.
  - reflexivity.
  - reflexivity.
  - reflexivity.
  - reflexivity.
  - reflexivity.
Defined.

(** C10.  A tenant whose stored status is [trial] and whose
    [trial_end_date] is NULL is let through whatever the clock reads: the
    comparison and the write are skipped, and the world after the
    evaluation is the world before it.  [isTrialExpired] of the model
    agrees: without an end date a trial is never expired. *)
Theorem trial_without_end_date_never_expires
    (jwt_verify : string -> Exn + option string) (FRONTEND_URL : string)
    (builtin_member : string -> string -> JsVal)
    (req : Req) (w : World) (uid : string) (user : UserRow) (rest : list UserRow) :
  reaches_evaluation jwt_verify req uid ->
  faults w = [] ->
  find_user (db w) uid = user :: rest ->
  u_subscription_status user = Some "trial" ->
  u_trial_end_date user = None ->
  forall now : Z,
    run (checkSubscriptionStatus jwt_verify FRONTEND_URL builtin_member req now) w
    = (inr (Next (attach req (subscription_of builtin_member user))), w)
    /\ (forall s : SubscriptionModel.t,
          SubscriptionModel.status s = "trial" ->
          SubscriptionModel.trial_end_date s = None ->
          SubscriptionModel.isTrialExpired s now = false
          /\ SubscriptionModel.canAccess s now = true).
Proof.
  intros Hreach Hf Hrows Hst Hend now. split.
  - rewrite (gate_on_user _ _ _ req now w uid user rest) by assumption.
    unfold check_trial, check_active. rewrite Hst, Hend. reflexivity.
  - intros s Hs Hnone.
    unfold SubscriptionModel.canAccess, SubscriptionModel.isActive,
      SubscriptionModel.isTrialExpired.
    rewrite Hs, Hnone. split; reflexivity.
Qed.

Lemma trial_without_end_date_never_expires_witness :
  let u := Demo.user "u1" (Some "trial") None (Some "starter") in
  run (checkSubscriptionStatus Demo.jwt Demo.url Demo.members Demo.req
         (Demo.t0 + 36500 * MS_PER_DAY))
      (Demo.world [u] [])
  = (inr (Next (attach Demo.req (subscription_of Demo.members u))), Demo.world [u] []).
Proof.
  intros u.
  apply (proj1 (trial_without_end_date_never_expires Demo.jwt Demo.url Demo.members
                  Demo.req (Demo.world [u] []) "u1" u []
                  (conj eq_refl (conj eq_refl eq_refl)) eq_refl eq_refl eq_refl eq_refl
                  (Demo.t0 + 36500 * MS_PER_DAY))).
Defined.

(** ** Refused statuses *)

(** C6, as the code has it.  A stored status [past_due] is refused with
    HTTP 402 and the code [SUBSCRIPTION_INACTIVE], the code that
    [expired], [cancelled] and [suspended] get as well; the status is
    told apart only by [data.status]. *)
Theorem past_due_is_subscription_inactive
    (jwt_verify : string -> Exn + option string) (FRONTEND_URL : string)
    (builtin_member : string -> string -> JsVal)
    (req : Req) (now : Z) (w : World) (uid : string)
    (user : UserRow) (rest : list UserRow) (st : string) :
  reaches_evaluation jwt_verify req uid ->
  faults w = [] ->
  find_user (db w) uid = user :: rest ->
  u_subscription_status user = Some st ->
  In st ["past_due"; "expired"; "cancelled"; "suspended"] ->
  run (checkSubscriptionStatus jwt_verify FRONTEND_URL builtin_member req now) w
  = (inr (Respond 402 (mkBody (Some "SUBSCRIPTION_INACTIVE")
                         (InactiveData (Some st) (upgrade_url FRONTEND_URL)))), w).
Proof.
  intros Hreach Hf Hrows Hst Hin.
  rewrite <- Hst.
  apply (gate_inactive _ _ _ req now w uid user rest); try assumption.
  rewrite Hst.
  simpl in Hin. destruct Hin as [<- | [<- | [<- | [<- | []]]]]; reflexivity.
Qed.

Lemma past_due_is_subscription_inactive_witness :
  let w := Demo.world [Demo.user "u1" (Some "past_due") None (Some "pro")] [] in
  run (checkSubscriptionStatus Demo.jwt Demo.url Demo.members Demo.req Demo.t0) w
  = (inr (Respond 402 (mkBody (Some "SUBSCRIPTION_INACTIVE")
                         (InactiveData (Some "past_due") (upgrade_url Demo.url)))), w).
Proof.
  apply (past_due_is_subscription_inactive Demo.jwt Demo.url Demo.members
           Demo.req Demo.t0
           (Demo.world [Demo.user "u1" (Some "past_due") None (Some "pro")] [])
           "u1" (Demo.user "u1" (Some "past_due") None (Some "pro")) [] "past_due").
  - repeat split.
  - reflexivity.
  - reflexivity.
  - reflexivity.
  - left; reflexivity.
Defined.

(** C6 as the specification states it fails: for a [past_due] user the
    gate does not answer with the code the specification names. *)
Lemma past_due_not_payment_required :
  let w := Demo.world [Demo.user "u1" (Some "past_due") None (Some "pro")] [] in
  exists (st : Z) (b : Body) (w' : World),
    run (checkSubscriptionStatus Demo.jwt Demo.url Demo.members Demo.req Demo.t0) w
    = (inr (Respond st b), w')
    /\ denial_code_spec (Some "past_due") = "PAYMENT_REQUIRED"
    /\ code b <> Some (denial_code_spec (Some "past_due"))
    /\ code b = Some (denial_code_spec (Some "expired")).
Proof.
  intros w. eexists _, _, _. split; [reflexivity |].
  split; [reflexivity |]. split; [discriminate | reflexivity].
Qed.

(** ** Usage limits *)

Lemma limits_get_resource (l : Limits) (r : Resource) :
  limits_get l ("max" ++ capitalize (resource_name r)) = limit_of l r.
Proof. destruct l, r; vm_compute; reflexivity. Qed.

Lemma tableMap_resource (r : Resource) :
  tableMap (resource_name r) = Some (table_of r).
Proof. destruct r; vm_compute; reflexivity. Qed.

Lemma exec_count (d : Db) (r : Resource) (agency : option string) :
  exec (CountByAgency (table_of r) agency) d = (inr (usage_count d r agency), d).
Proof. destruct r; reflexivity. Qed.

(** The usage check against a bounded limit [m] counts the rows of the
    agency and compares: refused from [m] rows on, let through below. *)
Lemma checkUsageLimit_bounded (FRONTEND_URL : string) (r : Resource) (m : Z)
    (req : Req) (s : Subscription) (w : World) :
  req_subscription req = Some s ->
  limit_of (limits s) r = JNum m ->
  faults w = [] ->
  run (checkUsageLimit FRONTEND_URL (resource_name r) req) w
  = (inr (let c := usage_count (db w) r (agencyId s) in
          if m <=? c then
            Respond 403 (mkBody (Some "USAGE_LIMIT_EXCEEDED")
                           (UsageData (resource_name r) c (JNum m)
                                      (upgrade_url FRONTEND_URL)))
          else
            Next (set_usage req (resource_name r)
                    (mkUsage c (JNum m) (Some (m - c))))), w).
Proof.
  intros Hsub Hlim Hf.
  unfold checkUsageLimit. rewrite run_try_catch.
  unfold checkUsageLimit_try. rewrite Hsub. cbv zeta.
  rewrite limits_get_resource, Hlim, tableMap_resource.
  rewrite bool_decide_eq_false_2 by discriminate.
  cbn [run await]. rewrite pool_query_healthy by exact Hf.
  rewrite exec_count. cbn [fst snd].
  rewrite healthy_world by exact Hf.
  unfold js_ge, js_minus. cbn [to_number].
  destruct (m <=? usage_count (db w) r (agencyId s)); reflexivity.
Qed.

(** C3.  For each of the three resource types and each bounded limit
    [m]: with exactly [m] rows counted the request is refused with
    [USAGE_LIMIT_EXCEEDED], the count and the limit in the [data] block;
    with [m - 1] rows it is let through, one row remaining. *)
Theorem usage_limit_boundary_is_exclusive (FRONTEND_URL : string) (r : Resource)
    (m : Z) (req : Req) (s : Subscription) (w : World) :
  req_subscription req = Some s ->
  limit_of (limits s) r = JNum m ->
  faults w = [] ->
  (usage_count (db w) r (agencyId s) = m ->
   run (checkUsageLimit FRONTEND_URL (resource_name r) req) w
   = (inr (Respond 403 (mkBody (Some "USAGE_LIMIT_EXCEEDED")
                          (UsageData (resource_name r) m (JNum m)
                                     (upgrade_url FRONTEND_URL)))), w))
  /\ (usage_count (db w) r (agencyId s) = m - 1 ->
      run (checkUsageLimit FRONTEND_URL (resource_name r) req) w
      = (inr (Next (set_usage req (resource_name r)
                      (mkUsage (m - 1) (JNum m) (Some 1)))), w)).
Proof.
  intros Hsub Hlim Hf.
  rewrite (checkUsageLimit_bounded FRONTEND_URL r m req s w Hsub Hlim Hf).
  cbv zeta. split; intros ->.
  - rewrite Z.leb_refl. reflexivity.
  - replace (m <=? m - 1) with false by (symmetry; apply Z.leb_gt; lia).
    repeat f_equal. lia.
Qed.

Lemma usage_limit_boundary_is_exclusive_witness :
  let u := Demo.user "u1" (Some "active") None (Some "starter") in
  let s := subscription_of Demo.members u in
  let req := attach Demo.req s in
  let full := Demo.world [u; Demo.user "u2" None None None; Demo.user "u3" None None None] [] in
  let room := Demo.world [u; Demo.user "u2" None None None] [] in
  run (checkUsageLimit Demo.url "users" req) full
  = (inr (Respond 403 (mkBody (Some "USAGE_LIMIT_EXCEEDED")
                         (UsageData "users" 3 (JNum 3) (upgrade_url Demo.url)))), full)
  /\ run (checkUsageLimit Demo.url "users" req) room
     = (inr (Next (set_usage req "users" (mkUsage 2 (JNum 3) (Some 1)))), room).
Proof.
  intros u s req full room. split.
  - apply (proj1 (usage_limit_boundary_is_exclusive Demo.url Users 3 req s full
                    eq_refl eq_refl eq_refl)).
    reflexivity.
  - apply (proj2 (usage_limit_boundary_is_exclusive Demo.url Users 3 req s room
                    eq_refl eq_refl eq_refl)).
    reflexivity.
Defined.

(** C4.  When the limit of the resource is [null], the unlimited
    sentinel, the usage check calls [next()] at once: no row is counted,
    so neither the count nor the state of the store matters. *)
Theorem unlimited_is_never_refused (FRONTEND_URL : string) (r : Resource)
    (req : Req) (s : Subscription) (w : World) :
  req_subscription req = Some s ->
  limit_of (limits s) r = JNull ->
  run (checkUsageLimit FRONTEND_URL (resource_name r) req) w = (inr (Next req), w).
Proof.
  intros Hsub Hlim.
  unfold checkUsageLimit. rewrite run_try_catch.
  unfold checkUsageLimit_try. rewrite Hsub. cbv zeta.
  rewrite limits_get_resource, Hlim. reflexivity.
Qed.

Lemma unlimited_is_never_refused_witness :
  let u := Demo.user "u1" (Some "active") None (Some "agency") in
  let req := attach Demo.req (subscription_of Demo.members u) in
  let w := Demo.world [u] [Some Demo.outage] in
  run (checkUsageLimit Demo.url "leads" req) w = (inr (Next req), w).
Proof.
  intros u req w.
  apply (unlimited_is_never_refused Demo.url Leads req
           (subscription_of Demo.members u) w eq_refl eq_refl).
Defined.

(** ** Feature resolution *)

Lemma hasFeature_plan (builtin_member : string -> string -> JsVal)
    (o : gmap string JsVal) (name : string) :
  hasFeature builtin_member (PlanObject o) name = true
  <-> js_get o name = JBool true
      \/ exists str : string, js_get o name = JStr str /\ str <> "none".
Proof.
  unfold hasFeature. cbn [features_get].
  destruct (js_get o name) as [| | [|] | n | str | b] eqn:E; cbn [is_string];
    try (rewrite bool_decide_eq_false_2 by discriminate; cbn;
         split; [discriminate | intros [H | (x & H & _)]; discriminate]).
  - rewrite bool_decide_eq_true_2 by reflexivity. cbn. split; [left; reflexivity | reflexivity].
  - rewrite (bool_decide_eq_false_2 (JStr str = JBool true)) by discriminate. cbn.
    destruct (decide (str = "none")) as [-> | Hne].
    + rewrite bool_decide_eq_true_2 by reflexivity. cbn.
      split; [discriminate | intros [H | (x & H & Hx)]; [discriminate | congruence]].
    + rewrite bool_decide_eq_false_2 by congruence. cbn.
      split; [intros _; right; exists str; split; [reflexivity | exact Hne] | reflexivity].
Qed.

Lemma hasFeature_absent (builtin_member : string -> string -> JsVal)
    (o : gmap string JsVal) (name : string) :
  o !! name = None -> hasFeature builtin_member (PlanObject o) name = false.
Proof.
  intros Habs. unfold hasFeature, features_get, js_get. rewrite Habs.
  destruct (inherited name); reflexivity.
Qed.

(** [SubscriptionPlan.prototype.hasFeature] is narrower than the gate:
    only the boolean [true] counts, so a tier string such as
    [analytics: 'basic'] is a feature for [requireFeature] and not for
    the model. *)
Lemma model_hasFeature_only_true (o : gmap string JsVal) (name : string) :
  SubscriptionPlan.hasFeature (Some o) name = true <-> js_get o name = JBool true.
Proof.
  unfold SubscriptionPlan.hasFeature. apply bool_decide_eq_true.
Qed.

(** C5, as the code has it.  [requireFeature] takes a feature of a plan
    as available exactly when [features[name]] is the boolean [true] or
    is a string other than ["none"], the empty string included.  A name
    that is not a key of the plan's feature map is not available, and
    the request is then refused with [FEATURE_NOT_AVAILABLE].
    [SubscriptionPlan.prototype.hasFeature], the accessor of the model,
    counts the boolean [true] only. *)
Theorem feature_available_iff_true_or_tier
    (FRONTEND_URL : string) (builtin_member : string -> string -> JsVal)
    (o : gmap string JsVal) (name : string) (req : Req) (s : Subscription)
    (w : World) :
  req_subscription req = Some s ->
  features s = PlanObject o ->
  (hasFeature builtin_member (features s) name = true
   <-> js_get o name = JBool true
       \/ exists str : string, js_get o name = JStr str /\ str <> "none")
  /\ (o !! name = None ->
      hasFeature builtin_member (features s) name = false
      /\ run (requireFeature FRONTEND_URL builtin_member name req) w
         = (inr (feature_refused FRONTEND_URL name s), w))
  /\ (SubscriptionPlan.hasFeature (Some o) name = true <-> js_get o name = JBool true).
Proof.
  intros Hsub Hfs. rewrite Hfs. split; [| split].
  - apply hasFeature_plan.
  - intros Habs. split; [apply hasFeature_absent; exact Habs |].
    unfold requireFeature. rewrite run_try_catch, Hsub, Hfs.
    rewrite (hasFeature_absent builtin_member o name Habs). reflexivity.
  - apply model_hasFeature_only_true.
Qed.

Lemma feature_available_iff_true_or_tier_witness :
  let u := Demo.user "u1" (Some "active") None (Some "starter") in
  let s := subscription_of Demo.members u in
  let req := attach Demo.req s in
  let w := Demo.world [u] [] in
  (hasFeature Demo.members (features s) "sso" = true
   <-> js_get starter_plan "sso" = JBool true
       \/ exists str : string, js_get starter_plan "sso" = JStr str /\ str <> "none")
  /\ (starter_plan !! "sso" = None ->
      hasFeature Demo.members (features s) "sso" = false
      /\ run (requireFeature Demo.url Demo.members "sso" req) w
         = (inr (feature_refused Demo.url "sso" s), w))
  /\ (SubscriptionPlan.hasFeature (Some starter_plan) "sso" = true
      <-> js_get starter_plan "sso" = JBool true).
Proof.
  intros u s req w.
  apply (feature_available_iff_true_or_tier Demo.url Demo.members starter_plan
           "sso" req s w eq_refl eq_refl).
Defined.

(** C5 as the specification states it fails on the empty string: a plan
    whose [analytics] is [""] has the feature according to
    [requireFeature], which lets the request through, and has not
    according to the specification's "non-empty string"; and the tier
    [analytics: 'basic'] of [starter], a feature for the specification,
    is none for [SubscriptionPlan.prototype.hasFeature]. *)
Lemma empty_tier_is_available :
  let o : gmap string JsVal := {[ "analytics" := JStr "" ]} in
  let s := mkSubscription "u1" (Some "a1") (Some "active") (Some "custom")
             (PlanObject o) (mkLimits JNull JNull JNull) None true in
  let req := attach Demo.req s in
  hasFeature Demo.members (PlanObject o) "analytics" = true
  /\ available_spec o "analytics" = false
  /\ run (requireFeature Demo.url Demo.members "analytics" req) (Demo.world [] [])
     = (inr (Next req), Demo.world [] [])
  /\ available_spec starter_plan "analytics" = true
  /\ SubscriptionPlan.hasFeature (Some starter_plan) "analytics" = false.
Proof. vm_compute. repeat split. Qed.

Lemma model_hasFeature_misses_tiers :
  hasFeature Demo.members (PlanObject starter_plan) "analytics" = true
  /\ SubscriptionPlan.hasFeature (Some starter_plan) "analytics" = false.
Proof. vm_compute. split; reflexivity. Qed.

(** ** Failing closed *)

Lemma store_read_rejected
    (jwt_verify : string -> Exn + option string) (FRONTEND_URL : string)
    (builtin_member : string -> string -> JsVal)
    (req : Req) (now : Z) (w : World) (uid : string) (e : Exn)
    (fs : list (option Exn)) :
  reaches_evaluation jwt_verify req uid ->
  faults w = Some e :: fs ->
  run (checkSubscriptionStatus_try jwt_verify FRONTEND_URL builtin_member req now) w
  = (inl e, mkWorld (db w) fs).
Proof.
  intros (Hskip & Hhdr & Hjwt) Hf.
  unfold checkSubscriptionStatus_try. rewrite Hskip, Hhdr, Hjwt.
  cbn [run await]. rewrite (pool_query_fault _ w e fs Hf). reflexivity.
Qed.

Lemma verify_throws
    (jwt_verify : string -> Exn + option string) (FRONTEND_URL : string)
    (builtin_member : string -> string -> JsVal)
    (req : Req) (now : Z) (w : World) (e : Exn) :
  skipped (req_path req) = false ->
  no_header (req_authorization req) = false ->
  jwt_verify (bearer_token (default "" (req_authorization req))) = inl e ->
  run (checkSubscriptionStatus_try jwt_verify FRONTEND_URL builtin_member req now) w
  = (inl e, w).
Proof.
  intros Hskip Hhdr Hjwt.
  unfold checkSubscriptionStatus_try. rewrite Hskip, Hhdr, Hjwt. reflexivity.
Qed.

Lemma count_rejected (FRONTEND_URL : string) (r : Resource) (m : Z) (req : Req)
    (s : Subscription) (w : World) (e : Exn) (fs : list (option Exn)) :
  req_subscription req = Some s ->
  limit_of (limits s) r = JNum m ->
  faults w = Some e :: fs ->
  run (checkUsageLimit_try FRONTEND_URL (resource_name r) req) w
  = (inl e, mkWorld (db w) fs).
Proof.
  intros Hsub Hlim Hf.
  unfold checkUsageLimit_try. rewrite Hsub. cbv zeta.
  rewrite limits_get_resource, Hlim, tableMap_resource.
  rewrite bool_decide_eq_false_2 by discriminate.
  cbn [run await]. rewrite (pool_query_fault _ w e fs Hf). reflexivity.
Qed.

(** The gate never lets an exception out. *)
Lemma gate_always_answers
    (jwt_verify : string -> Exn + option string) (FRONTEND_URL : string)
    (builtin_member : string -> string -> JsVal) (req : Req) (now : Z) (w : World) :
  exists (o : Outcome) (w' : World),
    run (checkSubscriptionStatus jwt_verify FRONTEND_URL builtin_member req now) w
    = (inr o, w').
Proof.
  unfold checkSubscriptionStatus. rewrite run_try_catch.
  destruct (run _ w) as [[e | o] w'].
  - unfold checkSubscriptionStatus_catch. destruct (is_token_error e); eexists _, _; reflexivity.
  - eexists _, _; reflexivity.
Qed.

(** A rejection of the store during the [try] block of the gate is
    thrown out of it, with the tables as they were: the block has no
    [catch] of its own around either query. *)
Lemma gate_rejection_thrown
    (jwt_verify : string -> Exn + option string) (FRONTEND_URL : string)
    (builtin_member : string -> string -> JsVal)
    (req : Req) (now : Z) (w : World) (e : Exn) :
  first_rejection
    (checkSubscriptionStatus_try jwt_verify FRONTEND_URL builtin_member req now) w
  = Some e ->
  exists w' : World,
    run (checkSubscriptionStatus_try jwt_verify FRONTEND_URL builtin_member req now) w
    = (inl e, w')
    /\ db w' = db w.
Proof.
  unfold checkSubscriptionStatus_try.
  destruct (skipped (req_path req)); [discriminate |].
  destruct (no_header (req_authorization req)); [discriminate |].
  destruct (jwt_verify (bearer_token (default "" (req_authorization req))))
    as [e' | decoded]; [discriminate |].
  cbn [first_rejection run await].
  destruct (pool_query_db (SelectUserById decoded) w) as [(e1 & Hr & Hd) | (Hr & Hd)];
    destruct (pool_query (SelectUserById decoded) w) as [[e' | rows] w1];
    cbn [fst snd exec] in *; try discriminate.
  - intros H. injection H as ->. exists w1. split; [reflexivity | exact Hd].
  - destruct rows as [| user rows']; [discriminate |].
    unfold check_trial, check_active.
    destruct (bool_decide (u_subscription_status user = Some "trial"));
      [destruct (u_trial_end_date user) as [endDate |];
       [destruct (endDate <? now) |] |];
      try (destruct (negb (includes ["trial"; "active"] (u_subscription_status user)));
           discriminate).
    cbn [first_rejection run await].
    destruct (pool_query_db (UpdateUserStatus "expired" (u_id user)) w1)
      as [(e2 & Hr2 & Hd2) | (Hr2 & Hd2)];
      destruct (pool_query (UpdateUserStatus "expired" (u_id user)) w1)
        as [[e' | r] w2];
      cbn [fst snd exec] in *; try discriminate.
    intros H. injection H as ->. exists w2.
    split; [reflexivity | rewrite Hd2; exact Hd].
Qed.

Lemma usage_rejection_thrown (FRONTEND_URL resourceType : string) (req : Req)
    (w : World) (e : Exn) :
  first_rejection (checkUsageLimit_try FRONTEND_URL resourceType req) w = Some e ->
  exists w' : World,
    run (checkUsageLimit_try FRONTEND_URL resourceType req) w = (inl e, w')
    /\ db w' = db w.
Proof.
  unfold checkUsageLimit_try.
  destruct (req_subscription req) as [s |]; [| discriminate].
  cbv zeta.
  destruct (bool_decide (limits_get (limits s) ("max" ++ capitalize resourceType) = JNull));
    [discriminate |].
  destruct (tableMap resourceType) as [table |]; [| discriminate].
  cbn [first_rejection run await].
  destruct (pool_query_db (CountByAgency table (agencyId s)) w)
    as [(e1 & Hr & Hd) | (Hr & Hd)];
    destruct (pool_query (CountByAgency table (agencyId s)) w) as [[e' | c] w1];
    cbn [fst snd] in *; try discriminate.
  - intros H. injection H as ->. exists w1. split; [reflexivity | exact Hd].
  - intros H. injection H as ->. exists w1. split; [reflexivity |].
    rewrite Hd. destruct table; reflexivity.
  - destruct (js_ge c (limits_get (limits s) ("max" ++ capitalize resourceType)));
      discriminate.
Qed.

(** C8.  When a step of the evaluation throws an error that is not a
    token error, the gate answers 500 and the next handler is not
    called; the same holds for the usage check, whatever the error.  An
    outcome that calls the next handler only ever comes from a [try]
    block that returned normally.  The steps that can throw are shown
    one by one: [jwt.verify] throwing another error than the two token
    errors, the read of the user rejected, and the write of the expiry
    path rejected after a read that answered; each is answered 500 with
    the tables untouched.  In general, whenever the store rejects a
    query of the gate or of the usage check, the next handler is not
    called and nothing is stored; the answer is 500, unless the error of
    the store bears the name of a token error, which the gate answers
    401. *)
Theorem evaluation_fails_closed
    (jwt_verify : string -> Exn + option string) (FRONTEND_URL : string)
    (builtin_member : string -> string -> JsVal)
    (req : Req) (now : Z) (resourceType : string) (w : World) :
  (forall (e : Exn) (w' : World),
      run (checkSubscriptionStatus_try jwt_verify FRONTEND_URL builtin_member req now) w
      = (inl e, w') ->
      is_token_error e = false ->
      run (checkSubscriptionStatus jwt_verify FRONTEND_URL builtin_member req now) w
      = (inr (Respond 500 (mkBody None NoData)), w'))
  /\ (forall (e : Exn) (w' : World),
      run (checkUsageLimit_try FRONTEND_URL resourceType req) w = (inl e, w') ->
      run (checkUsageLimit FRONTEND_URL resourceType req) w
      = (inr (Respond 500 (mkBody None NoData)), w'))
  /\ (forall (r : Req) (w' : World),
      run (checkSubscriptionStatus jwt_verify FRONTEND_URL builtin_member req now) w
      = (inr (Next r), w') ->
      run (checkSubscriptionStatus_try jwt_verify FRONTEND_URL builtin_member req now) w
      = (inr (Next r), w'))
  /\ (forall (r : Req) (w' : World),
      run (checkUsageLimit FRONTEND_URL resourceType req) w = (inr (Next r), w') ->
      run (checkUsageLimit_try FRONTEND_URL resourceType req) w = (inr (Next r), w'))
  /\ (forall (uid : string) (e : Exn) (fs : list (option Exn)),
      reaches_evaluation jwt_verify req uid ->
      faults w = Some e :: fs ->
      is_token_error e = false ->
      run (checkSubscriptionStatus jwt_verify FRONTEND_URL builtin_member req now) w
      = (inr (Respond 500 (mkBody None NoData)), mkWorld (db w) fs))
  /\ (forall (uid : string) (user : UserRow) (rest : list UserRow) (endDate : Z)
             (e : Exn) (fs : list (option Exn)),
      reaches_evaluation jwt_verify req uid ->
      faults w = None :: Some e :: fs ->
      find_user (db w) uid = user :: rest ->
      u_subscription_status user = Some "trial" ->
      u_trial_end_date user = Some endDate ->
      endDate < now ->
      is_token_error e = false ->
      run (checkSubscriptionStatus jwt_verify FRONTEND_URL builtin_member req now) w
      = (inr (Respond 500 (mkBody None NoData)), mkWorld (db w) fs))
  /\ (forall e : Exn,
      skipped (req_path req) = false ->
      no_header (req_authorization req) = false ->
      jwt_verify (bearer_token (default "" (req_authorization req))) = inl e ->
      is_token_error e = false ->
      run (checkSubscriptionStatus jwt_verify FRONTEND_URL builtin_member req now) w
      = (inr (Respond 500 (mkBody None NoData)), w))
  /\ (forall e : Exn,
      first_rejection
        (checkSubscriptionStatus_try jwt_verify FRONTEND_URL builtin_member req now) w
      = Some e ->
      exists w' : World,
        run (checkSubscriptionStatus jwt_verify FRONTEND_URL builtin_member req now) w
        = (inr (Respond (if is_token_error e then 401 else 500)
                  (mkBody (if is_token_error e then Some "INVALID_TOKEN" else None)
                          NoData)), w')
        /\ db w' = db w)
  /\ (forall e : Exn,
      first_rejection (checkUsageLimit_try FRONTEND_URL resourceType req) w = Some e ->
      exists w' : World,
        run (checkUsageLimit FRONTEND_URL resourceType req) w
        = (inr (Respond 500 (mkBody None NoData)), w')
        /\ db w' = db w).
Proof.
  split; [| split; [| split; [| split; [| split; [| split; [| split; [| split]]]]]]].
  - unfold checkSubscriptionStatus. rewrite run_try_catch.
    intros e w' -> Hne. unfold checkSubscriptionStatus_catch. rewrite Hne. reflexivity.
  - unfold checkUsageLimit. rewrite run_try_catch. intros e w' ->. reflexivity.
  - unfold checkSubscriptionStatus. rewrite run_try_catch.
    intros r w'. destruct (run _ w) as [[e | o] w1]; [| congruence].
    unfold checkSubscriptionStatus_catch. destruct (is_token_error e); discriminate.
  - unfold checkUsageLimit. rewrite run_try_catch.
    intros r w'. destruct (run _ w) as [[e | o] w1]; [discriminate | congruence].
  - unfold checkSubscriptionStatus. rewrite run_try_catch.
    intros uid e fs Hreach Hf Hne.
    rewrite (store_read_rejected _ _ _ req now w uid e fs Hreach Hf).
    unfold checkSubscriptionStatus_catch. rewrite Hne. reflexivity.
  - intros uid user rest endDate e fs (Hskip & Hhdr & Hjwt) Hf Hrows Hst Hend Hpast Hne.
    unfold checkSubscriptionStatus. rewrite run_try_catch.
    unfold checkSubscriptionStatus_try. rewrite Hskip, Hhdr, Hjwt.
    cbn [run await]. rewrite (pool_query_answers _ w (Some e :: fs)) by exact Hf.
    rewrite exec_select, Hrows. cbn [fst snd].
    unfold check_trial. rewrite Hst, Hend.
    rewrite bool_decide_eq_true_2 by reflexivity.
    replace (endDate <? now) with true by (symmetry; apply Z.ltb_lt; exact Hpast).
    cbn [run await]. rewrite (pool_query_fault _ _ e fs) by reflexivity.
    cbn [run db]. unfold checkSubscriptionStatus_catch. rewrite Hne. reflexivity.
  - intros e Hskip Hhdr Hjwt Hne.
    unfold checkSubscriptionStatus. rewrite run_try_catch.
    rewrite (verify_throws _ _ _ req now w e Hskip Hhdr Hjwt).
    unfold checkSubscriptionStatus_catch. rewrite Hne. reflexivity.
  - intros e Hrej.
    destruct (gate_rejection_thrown _ _ _ req now w e Hrej) as (w' & Hrun & Hdb).
    exists w'. split; [| exact Hdb].
    unfold checkSubscriptionStatus. rewrite run_try_catch, Hrun.
    unfold checkSubscriptionStatus_catch. destruct (is_token_error e); reflexivity.
  - intros e Hrej.
    destruct (usage_rejection_thrown _ _ req w e Hrej) as (w' & Hrun & Hdb).
    exists w'. split; [| exact Hdb].
    unfold checkUsageLimit. rewrite run_try_catch, Hrun. reflexivity.
Qed.

Lemma evaluation_fails_closed_witness :
  let u := Demo.user "u1" (Some "active") None (Some "starter") in
  let w := Demo.world [u] [Some Demo.outage] in
  let req := attach Demo.req (subscription_of Demo.members u) in
  let over := Demo.user "u1" (Some "trial") (Some 0) (Some "starter") in
  run (checkSubscriptionStatus Demo.jwt Demo.url Demo.members Demo.req Demo.t0) w
  = (inr (Respond 500 (mkBody None NoData)), Demo.world [u] [])
  /\ run (checkUsageLimit Demo.url "leads" req) w
     = (inr (Respond 500 (mkBody None NoData)), Demo.world [u] [])
  /\ run (checkSubscriptionStatus Demo.jwt Demo.url Demo.members Demo.req Demo.t0)
         (Demo.world [over] [None; Some Demo.outage])
     = (inr (Respond 500 (mkBody None NoData)), Demo.world [over] []).
Proof.
  intros u w req over. split; [| split].
  - apply (proj1 (proj2 (proj2 (proj2 (proj2
             (evaluation_fails_closed Demo.jwt Demo.url Demo.members
                Demo.req Demo.t0 "leads" w))))) "u1" Demo.outage []).
    + repeat split.
    + reflexivity.
    + reflexivity.
  - apply (proj1 (proj2 (evaluation_fails_closed Demo.jwt Demo.url Demo.members
                           req Demo.t0 "leads" w)) Demo.outage (Demo.world [u] [])).
    reflexivity.
  - apply (proj1 (proj2 (proj2 (proj2 (proj2 (proj2
             (evaluation_fails_closed Demo.jwt Demo.url Demo.members
                Demo.req Demo.t0 "leads"
                (Demo.world [over] [None; Some Demo.outage])))))))
             "u1" over [] 0 Demo.outage []).
    + repeat split.
    + reflexivity.
    + reflexivity.
    + reflexivity.
    + reflexivity.
    + unfold Demo.t0. lia.
    + reflexivity.
Defined.

(** ** Plans outside the catalogue *)

Lemma planFeatures_unknown (k : string) :
  k <> "starter" -> k <> "pro" -> k <> "agency" -> planFeatures !! k = None.
Proof.
  intros H1 H2 H3. unfold planFeatures.
  rewrite !lookup_insert_ne by congruence.
  apply lookup_singleton_ne. congruence.
Qed.

(** A stored plan name that is NULL, or that is neither a plan of the
    catalogue nor the name of a member of [Object.prototype], resolves to
    the features and the limits of [starter]. *)
Lemma unknown_plan_resolves_to_starter (plan_name : option string) :
  property_key plan_name <> "starter" ->
  property_key plan_name <> "pro" ->
  property_key plan_name <> "agency" ->
  inherited (property_key plan_name) = false ->
  resolve_features plan_name = PlanObject starter_plan.
Proof.
  intros H1 H2 H3 Hinh. unfold resolve_features. cbv zeta.
  rewrite planFeatures_unknown by assumption. rewrite Hinh. reflexivity.
Qed.

Lemma null_plan_resolves_to_starter :
  resolve_features None = PlanObject starter_plan.
Proof. apply unknown_plan_resolves_to_starter; vm_compute; congruence. Qed.

Lemma starter_limits (builtin_member : string -> string -> JsVal) (u : UserRow) :
  resolve_features (u_plan_name u) = PlanObject starter_plan ->
  limits (subscription_of builtin_member u) = mkLimits (JNum 1000) (JNum 3) (JNum 100).
Proof.
  intros H. unfold subscription_of. cbn [limits]. rewrite H. vm_compute. reflexivity.
Qed.

(** C9 at the plan name ["constructor"].  The lookup
    [planFeatures["constructor"]] finds the [Object] function that every
    object literal inherits; it is truthy, so the fallback to [starter]
    is not taken.  The request is let through with that function as its
    features and [undefined] limits, and the usage check then lets any
    number of rows pass. *)
Theorem inherited_plan_name_skips_starter :
  let u := Demo.user "u1" (Some "active") None (Some "constructor") in
  let w := mkWorld (mkDb [u] [] (repeat (Some "a1") 5000) [] []) [] in
  let s := subscription_of Demo.members u in
  resolve_features (u_plan_name u) = Builtin "constructor"
  /\ resolve_features (u_plan_name u) <> PlanObject starter_plan
  /\ run (checkSubscriptionStatus Demo.jwt Demo.url Demo.members Demo.req Demo.t0) w
     = (inr (Next (attach Demo.req s)), w)
  /\ limits s = mkLimits JUndefined JUndefined JUndefined
  /\ run (checkUsageLimit Demo.url "leads" (attach Demo.req s)) w
     = (inr (Next (set_usage (attach Demo.req s) "leads"
                     (mkUsage 5000 JUndefined None))), w).
Proof.
  intros u w s.
  split; [reflexivity |]. split; [discriminate |].
  split; [vm_compute; reflexivity |]. split; [reflexivity |].
  vm_compute; reflexivity.
Qed.

(** ** Trial signup *)

Lemma ceil_div_within_day (a n t : Z) :
  a <= t < a + MS_PER_DAY ->
  ceil_div (a + n * MS_PER_DAY - t) MS_PER_DAY = n.
Proof.
  intros Ht. unfold ceil_div.
  replace (- (a + n * MS_PER_DAY - t)) with ((t - a) + (- n) * MS_PER_DAY) by ring.
  rewrite Z.div_add by (unfold MS_PER_DAY; lia).
  rewrite Z.div_small by lia. lia.
Qed.

Lemma find_user_fresh (us : list UserRow) (row : UserRow) :
  existsb (fun u => bool_decide (u_id u = u_id row)) us = false ->
  List.filter (fun u => sql_eq (Some (u_id u)) (Some (u_id row))) (us ++ [row]) = [row].
Proof.
  intros Hfresh. rewrite List.filter_app.
  replace (List.filter (fun u => sql_eq (Some (u_id u)) (Some (u_id row))) us) with (@nil UserRow).
  - cbn. rewrite bool_decide_eq_true_2 by reflexivity. reflexivity.
  - symmetry. induction us as [| u us IH]; [reflexivity |].
    cbn in Hfresh |- *. apply orb_false_elim in Hfresh as [Hu Hus].
    rewrite Hu. apply IH. exact Hus.
Qed.

(** The first subscription of a user is the one [findOne] finds. *)
Lemma latest_first_of_user (uid : string) (statuses : list string)
    (rows : list SubRow) (r : SubRow) :
  List.filter (fun s => bool_decide (s_user_id s = uid)) rows = [] ->
  latest (fun s => bool_decide (s_user_id s = uid)
                   && bool_decide (s_status s ∈ statuses)) (rows ++ [r])
  = if bool_decide (s_user_id r = uid) && bool_decide (s_status r ∈ statuses)
    then Some r else None.
Proof.
  induction rows as [| s rows IH]; intros Hnone.
  - cbn. destruct (bool_decide (s_user_id r = uid) && bool_decide (s_status r ∈ statuses));
      reflexivity.
  - cbn in Hnone. cbn [app latest].
    destruct (bool_decide (s_user_id s = uid)); [discriminate |].
    cbn [andb]. apply IH. exact Hnone.
Qed.

(** What [subscriptionService] does with a first trial: the period ends
    13 days after the reading of the clock, and 13 days are counted
    during the first day. *)
Lemma service_trial_period (w : World) (userId : string) (agencyId : option string)
    (planId : string) (plan : SubscriptionService.Plan)
    (now1 now2 now3 now today : Z) (new_id : string) (created_at : Z) :
  faults w = [] ->
  SubscriptionService.getPlan planId = Some plan ->
  List.filter (fun s => bool_decide (s_user_id s = userId)) (subscriptions (db w)) = [] ->
  now3 <= now < now3 + MS_PER_DAY ->
  now3 <= today < now3 + MS_PER_DAY ->
  let created := mkSub new_id userId agencyId planId (SubscriptionService.name plan)
                       "trial" "trial" now1 (now3 + 13 * MS_PER_DAY) created_at in
  let w1 := mkWorld (with_subscriptions (db w) (subscriptions (db w) ++ [created])) [] in
  run (SubscriptionService.createSubscription userId agencyId planId "trial"
         now1 now2 now3 new_id created_at) w
  = (inr created, w1)
  /\ run (SubscriptionService.getDaysRemaining userId now today) w1 = (inr 13, w1).
Proof.
  intros Hf Hplan Hnone Hnow Htoday created w1.
  assert (Hfirst : forall statuses : list string,
             latest (fun s => bool_decide (s_user_id s = userId)
                              && bool_decide (s_status s ∈ statuses))
                    (subscriptions (db w)) = None).
  { intros statuses.
    clear - Hnone. induction (subscriptions (db w)) as [| s rows IH]; [reflexivity |].
    cbn in Hnone |- *. destruct (bool_decide (s_user_id s = userId)); [discriminate |].
    cbn [andb]. apply IH. exact Hnone. }
  split.
  - unfold SubscriptionService.createSubscription. rewrite Hplan.
    cbn [run await]. rewrite pool_query_healthy by exact Hf.
    cbn [exec fst snd]. rewrite Hfirst. cbn [run await].
    rewrite pool_query_healthy by reflexivity.
    reflexivity.
  - unfold SubscriptionService.getDaysRemaining. rewrite run_try_catch, run_bind.
    unfold SubscriptionService.getUserSubscription. cbn [run await].
    rewrite pool_query_healthy by reflexivity.
    cbn [exec fst snd db w1 with_subscriptions subscriptions].
    rewrite (latest_first_of_user userId _ (subscriptions (db w)) created Hnone).
    assert (Hkeep : bool_decide (s_user_id created = userId)
                    && bool_decide (s_status created ∈ ["active"; "trial"; "past_due"])
                    = true).
    { unfold created. cbn [s_user_id s_status].
      rewrite bool_decide_eq_true_2 by reflexivity. reflexivity. }
    rewrite Hkeep.
    assert (Hlive : bool_decide (s_status created = "trial")
                    && (s_current_period_end created <? now) = false).
    { unfold created. cbn [s_status s_current_period_end].
      apply andb_false_intro2. apply Z.ltb_ge. unfold MS_PER_DAY in *. lia. }
    rewrite Hlive. cbn [run].
    assert (Hopen : bool_decide (s_status created = "expired")
                    || bool_decide (s_status created = "cancelled") = false)
      by reflexivity.
    rewrite Hopen. cbn [run].
    change (1000 * 3600 * 24) with MS_PER_DAY.
    unfold created at 1. cbn [s_current_period_end].
    rewrite (ceil_div_within_day now3 13 today Htoday). reflexivity.
Qed.

(** [setDate] moves the local time by whole calendar days; the time
    elapsed is that many times 24 hours exactly when the offset from
    UTC at the local time reached is the offset at the start. *)
Lemma setDate_plus_same_offset (LocalTZA : Zone) (t n : Z) :
  LocalTZA (t + LocalTZA t true + n * MS_PER_DAY) false = LocalTZA t true ->
  setDate_plus LocalTZA t n = t + n * MS_PER_DAY.
Proof. intros H. unfold setDate_plus. cbv zeta. rewrite H. lia. Qed.

(** C7, as the code has it.  Take a server whose offset from UTC, 14
    calendar days after the creation at the same local hour, is its
    offset at the creation: any server on UTC or another fixed offset,
    and any other when no change of the clock falls within the trial.
    Then a signup through [POST /api/auth/trial-signup] stores a user
    whose status is [trial], whose trial ends 14 days to the millisecond
    after the reading of the clock at creation, and whose plan is
    [starter]; the answer counts 14 days.  An evaluation within the
    first day lets the request through with the features of [starter]
    and [trialInfo.daysRemaining = 14].  [Subscription.createTrial]
    builds a row with the same status and the same 14 days, counted as
    14 by [getDaysRemaining].  A trial created through
    [subscriptionService.createSubscription] is the exception, whatever
    the zone: its period ends 13 days after creation, under the plan the
    caller names, and 13 days are counted. *)
Theorem trial_is_fourteen_days_except_service
    (jwt_verify : string -> Exn + option string) (FRONTEND_URL : string)
    (builtin_member : string -> string -> JsVal) (LocalTZA : Zone)
    (b : SignupBody) (hashedPassword agencyId userId token : string)
    (now now' t : Z) (w : World) (req : Req) :
  LocalTZA (now + LocalTZA now true + 14 * MS_PER_DAY) false = LocalTZA now true ->
  faults w = [] ->
  List.filter (fun u => bool_decide (u_email u = email b)) (users (db w)) = [] ->
  existsb (fun u => bool_decide (u_id u = userId)) (users (db w)) = false ->
  existsb (fun a => bool_decide (a_id a = agencyId)) (agencies (db w)) = false ->
  List.filter (fun s => bool_decide (s_user_id s = userId)) (subscriptions (db w)) = [] ->
  reaches_evaluation jwt_verify req userId ->
  now <= now' < now + MS_PER_DAY ->
  now <= t < now + MS_PER_DAY ->
  let trialEnd := now + 14 * MS_PER_DAY in
  let row := mkUser userId (email b) hashedPassword (firstName b) (lastName b)
                    "manager" "active" (Some agencyId)
                    (Some "trial") (Some trialEnd) (Some "starter") in
  (exists w1 : World,
      run (trial_signup LocalTZA true b hashedPassword agencyId userId token now now') w
      = (inr (Created row "trial" "starter" trialEnd 14 token), w1)
      /\ find_user (db w1) userId = [row]
      /\ run (and_then
                (checkSubscriptionStatus jwt_verify FRONTEND_URL builtin_member req t)
                (addTrialInfo FRONTEND_URL t)) w1
         = (inr (Next (set_trialInfo
                         (attach req (subscription_of builtin_member row))
                         (mkTrialInfo 14 trialEnd false (upgrade_url FRONTEND_URL)))),
            w1)
      /\ features (subscription_of builtin_member row) = PlanObject starter_plan)
  /\ (forall (starterPlan : string) (start : Z),
        let sub := SubscriptionModel.mk userId starterPlan "trial" true (Some start)
                     (Some trialEnd) start trialEnd 0 in
        SubscriptionModel.createTrial LocalTZA userId None (Some starterPlan) start now
        = inr sub
        /\ SubscriptionModel.getDaysRemaining sub t = 14
        /\ SubscriptionModel.canAccess sub t = true)
  /\ (forall (planId : string) (plan : SubscriptionService.Plan) (new_id : string),
        SubscriptionService.getPlan planId = Some plan ->
        let created := mkSub new_id userId (Some agencyId) planId
                             (SubscriptionService.name plan) "trial" "trial"
                             now (now + 13 * MS_PER_DAY) now in
        let w2 := mkWorld (with_subscriptions (db w)
                             (subscriptions (db w) ++ [created])) [] in
        run (SubscriptionService.createSubscription userId (Some agencyId) planId
               "trial" now now now new_id now) w
        = (inr created, w2)
        /\ run (SubscriptionService.getDaysRemaining userId t t) w2 = (inr 13, w2)).
Proof.
  intros Hzone Hf Hemail Hfresh Hagency Hnosub Hreach Hnow' Ht trialEnd row.
  assert (Hday : 0 < MS_PER_DAY) by (unfold MS_PER_DAY; lia).
  pose proof (setDate_plus_same_offset LocalTZA now 14 Hzone) as Hend.
  split; [| split].
  - set (w1 := mkWorld
                 (with_agencies
                    (with_users (db w) (users (db w) ++ [row]))
                    (agencies (db w)
                     ++ [mkAgency agencyId (agency_name b) (email b) "active" true
                                  "starter"]))
                 []).
    exists w1. split; [| split; [| split]].
    + unfold trial_signup. rewrite run_try_catch. cbn [negb run await].
      rewrite pool_query_healthy by exact Hf.
      cbn [exec fst snd]. rewrite Hemail. cbn [run await].
      rewrite pool_query_healthy by reflexivity.
      cbn [exec db u_id]. rewrite Hfresh. cbn [fst snd run await].
      rewrite pool_query_healthy by reflexivity.
      cbn [exec db a_id with_users agencies]. rewrite Hagency. cbn [fst snd run].
      rewrite Hend. rewrite (ceil_div_within_day now 14 now' Hnow').
      reflexivity.
    + unfold find_user. cbn [db with_agencies with_users users].
      apply (find_user_fresh (users (db w)) row). exact Hfresh.
    + unfold and_then. rewrite run_bind.
      rewrite (gate_on_user jwt_verify FRONTEND_URL builtin_member req t w1 userId row []
                 Hreach eq_refl).
      * unfold check_trial, check_active. cbn [u_subscription_status u_trial_end_date row].
        rewrite bool_decide_eq_true_2 by reflexivity.
        replace (trialEnd <? t) with false
          by (symmetry; apply Z.ltb_ge; unfold trialEnd; lia).
        replace (includes ["trial"; "active"] (Some "trial")) with true by reflexivity.
        cbn [negb try_catch run addTrialInfo attach req_subscription subscription_of
                  trialEndDate status u_trial_end_date u_subscription_status row].
        rewrite bool_decide_eq_true_2 by reflexivity.
        replace (ceil_div (trialEnd - t) MS_PER_DAY) with 14
          by (symmetry; apply ceil_div_within_day; exact Ht).
        reflexivity.
      * unfold find_user. cbn [db with_agencies with_users users].
        apply (find_user_fresh (users (db w)) row). exact Hfresh.
    + reflexivity.
  - intros starterPlan start sub.
    split; [unfold SubscriptionModel.createTrial; rewrite Hend; reflexivity |]. split.
    + unfold SubscriptionModel.getDaysRemaining, sub.
      cbn [SubscriptionModel.trial_end_date SubscriptionModel.is_trial].
      replace (ceil_div (trialEnd - t) MS_PER_DAY) with 14
        by (symmetry; apply ceil_div_within_day; exact Ht).
      reflexivity.
    + unfold SubscriptionModel.canAccess, SubscriptionModel.isActive,
        SubscriptionModel.isTrialExpired, sub.
      cbn [SubscriptionModel.trial_end_date SubscriptionModel.is_trial
           SubscriptionModel.status].
      replace (trialEnd <? t) with false
        by (symmetry; apply Z.ltb_ge; unfold trialEnd; lia).
      reflexivity.
  - intros planId plan new_id Hplan.
    apply (service_trial_period w userId (Some agencyId) planId plan now now now t t
             new_id now Hf Hplan Hnosub Ht Ht).
Qed.

Lemma trial_is_fourteen_days_except_service_witness :
  let trialEnd := Demo.t0 + 14 * MS_PER_DAY in
  let row := mkUser "u1" "bo@example.com" "hash" "Bo" "Ek" "manager" "active"
                    (Some "a9") (Some "trial") (Some trialEnd) (Some "starter") in
  (exists w1 : World,
      run (trial_signup Demo.utc true Demo.body "hash" "a9" "u1" "t-u1" Demo.t0
             (Demo.t0 + 5))
          (Demo.world [] [])
      = (inr (Created row "trial" "starter" trialEnd 14 "t-u1"), w1)
      /\ find_user (db w1) "u1" = [row]
      /\ run (and_then
                (checkSubscriptionStatus Demo.jwt Demo.url Demo.members Demo.req
                   (Demo.t0 + 1000))
                (addTrialInfo Demo.url (Demo.t0 + 1000))) w1
         = (inr (Next (set_trialInfo
                         (attach Demo.req (subscription_of Demo.members row))
                         (mkTrialInfo 14 trialEnd false (upgrade_url Demo.url)))),
            w1)
      /\ features (subscription_of Demo.members row) = PlanObject starter_plan)
  /\ SubscriptionModel.getDaysRemaining
       (SubscriptionModel.mk "u1" "plan-1" "trial" true (Some Demo.t0)
          (Some trialEnd) Demo.t0 trialEnd 0) (Demo.t0 + 1000) = 14.
Proof.
  pose proof (trial_is_fourteen_days_except_service Demo.jwt Demo.url Demo.members
                Demo.utc
                Demo.body "hash" "a9" "u1" "t-u1" Demo.t0 (Demo.t0 + 5) (Demo.t0 + 1000)
                (Demo.world [] []) Demo.req
                eq_refl eq_refl eq_refl eq_refl eq_refl eq_refl
                (conj eq_refl (conj eq_refl eq_refl))) as H.
  cbv zeta in H.
  assert (H1 : Demo.t0 <= Demo.t0 + 5 < Demo.t0 + MS_PER_DAY)
    by (unfold MS_PER_DAY, Demo.t0; lia).
  assert (H2 : Demo.t0 <= Demo.t0 + 1000 < Demo.t0 + MS_PER_DAY)
    by (unfold MS_PER_DAY, Demo.t0; lia).
  destruct (H H1 H2) as (Hsignup & Hmodel & _).
  intros trialEnd row. split; [exact Hsignup |].
  exact (proj1 (proj2 (Hmodel "plan-1" Demo.t0))).
Defined.

(** C7 as the specification states it fails, in two ways.  On a server
    in [America/New_York] the trial of a signup ends 14 calendar days
    later at the same local hour: signed up on 1 March 2025, 12:00 UTC,
    it ends 14 days less one hour later, the clock having moved forward
    in between; signed up on 25 October 2025, 12:00 UTC, it ends 14 days
    and one hour later, the answer counts 15 days remaining, and so does
    [trialInfo] on an evaluation right after.  And a trial of
    [subscriptionService.createSubscription], created with the payment
    method [trial], ends 13 days after creation, not 14, under the plan
    the caller named, not [starter], and [getDaysRemaining] counts 13
    right away. *)
Lemma trial_is_not_always_fourteen_days :
  let march := 1740830400000 in
  let october := 1761393600000 in
  let row (trialEnd : Z) :=
    mkUser "u1" "bo@example.com" "hash" "Bo" "Ek" "manager" "active"
           (Some "a9") (Some "trial") (Some trialEnd) (Some "starter") in
  let stored (trialEnd : Z) :=
    mkWorld (mkDb [row trialEnd]
                  [mkAgency "a9" "Bo Ek's Agency" "bo@example.com" "active" true "starter"]
                  [] [] []) [] in
  let w := Demo.world [] [] in
  let created := mkSub "s1" "u1" (Some "a1") "professional" "Professional Plan"
                       "trial" "trial" Demo.t0 (Demo.t0 + 13 * MS_PER_DAY) Demo.t0 in
  let w1 := mkWorld (with_subscriptions (db w) [created]) [] in
  (let trialEnd := march + 14 * MS_PER_DAY - MS_PER_HOUR in
   run (trial_signup Demo.eastern true Demo.body "hash" "a9" "u1" "t-u1" march march) w
   = (inr (Created (row trialEnd) "trial" "starter" trialEnd 14 "t-u1"), stored trialEnd))
  /\ (let trialEnd := october + 14 * MS_PER_DAY + MS_PER_HOUR in
      run (trial_signup Demo.eastern true Demo.body "hash" "a9" "u1" "t-u1"
             october october) w
      = (inr (Created (row trialEnd) "trial" "starter" trialEnd 15 "t-u1"),
         stored trialEnd)
      /\ run (and_then
                (checkSubscriptionStatus Demo.jwt Demo.url Demo.members Demo.req october)
                (addTrialInfo Demo.url october)) (stored trialEnd)
         = (inr (Next (set_trialInfo
                         (attach Demo.req (subscription_of Demo.members (row trialEnd)))
                         (mkTrialInfo 15 trialEnd false (upgrade_url Demo.url)))),
            stored trialEnd))
  /\ run (SubscriptionService.createSubscription "u1" (Some "a1") "professional" "trial"
            Demo.t0 Demo.t0 Demo.t0 "s1" Demo.t0) w
     = (inr created, w1)
  /\ s_status created = "trial"
  /\ s_current_period_end created <> Demo.t0 + 14 * MS_PER_DAY
  /\ s_plan_id created <> "starter"
  /\ run (SubscriptionService.getDaysRemaining "u1" (Demo.t0 + 1000) (Demo.t0 + 1000)) w1
     = (inr 13, w1).
Proof.
  intros march october row stored w created w1.
  split; [vm_compute; reflexivity |].
  split; [split; vm_compute; reflexivity |].
  split; [reflexivity |]. split; [reflexivity |].
  split; [vm_compute; discriminate |]. split; [discriminate |].
  vm_compute. reflexivity.
Qed.

(** ** The expiry write under concurrent evaluations *)



Lemma pool_query_expire (w : World) (id : string) :
  faults w = [] ->
  pool_query (UpdateUserStatus "expired" id) w
  = (inr tt, mkWorld (expired_db (db w) id) []).
Proof. intros Hf. rewrite pool_query_healthy by exact Hf. reflexivity. Qed.

Lemma pool_query_expire_subscription (w : World) (sid : string) :
  faults w = [] ->
  pool_query (UpdateSubscription "expired" sid) w
  = (inr tt, mkWorld (snd (exec (UpdateSubscription "expired" sid) (db w))) []).
Proof. intros Hf. rewrite pool_query_healthy by exact Hf. reflexivity. Qed.


Section Concurrent.

Variable jwt_verify : string -> Exn + option string.
Variable FRONTEND_URL : string.
Variable builtin_member : string -> string -> JsVal.

Variable uid : string.
Variable user : UserRow.
Variable rest : list UserRow.
Variable endDate : Z.
Variable d0 : Db.

Hypothesis Hrows : find_user d0 uid = user :: rest.
Hypothesis Hstatus : u_subscription_status user = Some "trial".
Hypothesis Hend : u_trial_end_date user = Some endDate.

Abbreviation d1 := (expired_db d0 uid).
Abbreviation state :=
  (thread_state jwt_verify FRONTEND_URL builtin_member uid endDate d1).






End Concurrent.




(** * Further properties of the code *)

(** ** The gate, case by case *)

Lemma prefix_app (p rest : string) : String.prefix p (p ++ rest) = true.
Proof.
  induction p as [| c p IH]; simpl.
  - destruct rest; reflexivity.
  - destruct (Ascii.ascii_dec c c) as [_ | Hne]; [exact IH | contradiction].
Qed.

(** X1.  A request whose [req.path] begins with one of the three exempt
    prefixes, whatever follows the prefix, is handed on as it is: no
    token is asked for and the store is not queried, so a missing
    header, a bad token or a store that is down change nothing. *)
Theorem exempt_prefix_bypasses_gate
    (jwt_verify : string -> Exn + option string) (FRONTEND_URL : string)
    (builtin_member : string -> string -> JsVal)
    (route rest : string) (req : Req) (now : Z) (w : World) :
  In route skipRoutes ->
  req_path req = route ++ rest ->
  run (checkSubscriptionStatus jwt_verify FRONTEND_URL builtin_member req now) w
  = (inr (Next req), w).
Proof.
  intros Hin Hpath.
  assert (Hskip : skipped (req_path req) = true).
  { unfold skipped. apply existsb_exists. exists route. split; [exact Hin |].
    rewrite Hpath. apply prefix_app. }
  unfold checkSubscriptionStatus, checkSubscriptionStatus_try.
  rewrite Hskip. reflexivity.
Qed.

Lemma exempt_prefix_bypasses_gate_witness :
  let req := mkReq "/api/subscription/status-of-anyone" None None ∅ None in
  let w := Demo.world [] [Some Demo.outage] in
  run (checkSubscriptionStatus Demo.jwt Demo.url Demo.members req Demo.t0) w
  = (inr (Next req), w).
Proof.
  intros req w.
  apply (exempt_prefix_bypasses_gate Demo.jwt Demo.url Demo.members
           "/api/subscription/status" "-of-anyone" req Demo.t0 w).
  - right; right; left; reflexivity.
  - reflexivity.
Defined.

(** X2.  Outside the exempt routes a request without an
    [Authorization] header, or with an empty one, is answered 401
    [NO_TOKEN], and one whose token makes [jwt.verify] throw a
    [JsonWebTokenError] or a [TokenExpiredError] is answered 401
    [INVALID_TOKEN]; in both cases the store is not queried. *)
Theorem bad_credentials_never_reach_store
    (jwt_verify : string -> Exn + option string) (FRONTEND_URL : string)
    (builtin_member : string -> string -> JsVal)
    (req : Req) (now : Z) (w : World) :
  skipped (req_path req) = false ->
  (no_header (req_authorization req) = true ->
   run (checkSubscriptionStatus jwt_verify FRONTEND_URL builtin_member req now) w
   = (inr (Respond 401 (mkBody (Some "NO_TOKEN") NoData)), w))
  /\ (forall e : Exn,
      no_header (req_authorization req) = false ->
      jwt_verify (bearer_token (default "" (req_authorization req))) = inl e ->
      is_token_error e = true ->
      run (checkSubscriptionStatus jwt_verify FRONTEND_URL builtin_member req now) w
      = (inr (Respond 401 (mkBody (Some "INVALID_TOKEN") NoData)), w)).
Proof.
  intros Hskip. unfold checkSubscriptionStatus, checkSubscriptionStatus_try.
  rewrite Hskip. split.
  - intros ->. reflexivity.
  - intros e -> -> Htok. cbn [try_catch run].
    unfold checkSubscriptionStatus_catch. rewrite Htok. reflexivity.
Qed.

Lemma bad_credentials_never_reach_store_witness :
  let w := Demo.world [] [Some Demo.outage] in
  run (checkSubscriptionStatus Demo.jwt Demo.url Demo.members
         (mkReq "/api/leads" (Some "") None ∅ None) Demo.t0) w
  = (inr (Respond 401 (mkBody (Some "NO_TOKEN") NoData)), w)
  /\ run (checkSubscriptionStatus Demo.jwt Demo.url Demo.members
            (mkReq "/api/leads" (Some "Bearer forged") None ∅ None) Demo.t0) w
     = (inr (Respond 401 (mkBody (Some "INVALID_TOKEN") NoData)), w).
Proof.
  intros w. split.
  - apply (proj1 (bad_credentials_never_reach_store Demo.jwt Demo.url Demo.members
                    (mkReq "/api/leads" (Some "") None ∅ None) Demo.t0 w eq_refl)).
    reflexivity.
  - apply (proj2 (bad_credentials_never_reach_store Demo.jwt Demo.url Demo.members
                    (mkReq "/api/leads" (Some "Bearer forged") None ∅ None)
                    Demo.t0 w eq_refl)
                 (mkExn "JsonWebTokenError" "invalid token")).
    + reflexivity.
    + reflexivity.
    + reflexivity.
Defined.

(** X3.  A token that verifies but names no stored user is answered 404
    [USER_NOT_FOUND] and nothing is written; so is every token whose
    payload has no [userId], whoever is stored, since [id = NULL]
    selects no row. *)
Theorem unknown_user_is_not_found
    (jwt_verify : string -> Exn + option string) (FRONTEND_URL : string)
    (builtin_member : string -> string -> JsVal)
    (req : Req) (now : Z) (w : World) (decoded : option string) :
  skipped (req_path req) = false ->
  no_header (req_authorization req) = false ->
  jwt_verify (bearer_token (default "" (req_authorization req))) = inr decoded ->
  faults w = [] ->
  match decoded with
  | Some uid => find_user (db w) uid = []
  | None => True
  end ->
  run (checkSubscriptionStatus jwt_verify FRONTEND_URL builtin_member req now) w
  = (inr (Respond 404 (mkBody (Some "USER_NOT_FOUND") NoData)), w).
Proof.
  intros Hskip Hhdr Hjwt Hf Hnone.
  unfold checkSubscriptionStatus, checkSubscriptionStatus_try.
  rewrite Hskip, Hhdr, Hjwt. cbn [try_catch await run].
  rewrite pool_query_healthy by exact Hf.
  assert (Hrows : fst (exec (SelectUserById decoded) (db w)) = inr []).
  { destruct decoded as [uid |].
    - rewrite exec_select, Hnone. reflexivity.
    - cbn [exec fst]. f_equal.
      induction (users (db w)) as [| u l IH]; [reflexivity | exact IH]. }
  rewrite Hrows.
  assert (Hdb : snd (exec (SelectUserById decoded) (db w)) = db w) by reflexivity.
  rewrite Hdb, healthy_world by exact Hf. reflexivity.
Qed.

Lemma unknown_user_is_not_found_witness :
  let jwt := fun _ : string => @inr Exn (option string) None in
  let w := Demo.world [Demo.user "u1" (Some "active") None (Some "pro")] [] in
  run (checkSubscriptionStatus jwt Demo.url Demo.members Demo.req Demo.t0) w
  = (inr (Respond 404 (mkBody (Some "USER_NOT_FOUND") NoData)), w).
Proof.
  intros jwt w.
  apply (unknown_user_is_not_found jwt Demo.url Demo.members Demo.req Demo.t0 w None
           eq_refl eq_refl eq_refl eq_refl I).
Defined.

(** X4.  On a store that answers, the gate lets the user found through
    exactly when the stored status is [trial] or [active] and, for a
    trial with an end date, now is not past it; an [active] user passes
    whatever the trial dates are.  When it lets through, the request
    carries the subscription of that user and nothing is written. *)
Theorem gate_lets_through_iff
    (jwt_verify : string -> Exn + option string) (FRONTEND_URL : string)
    (builtin_member : string -> string -> JsVal)
    (req : Req) (now : Z) (w : World) (uid : string)
    (user : UserRow) (rest : list UserRow) :
  reaches_evaluation jwt_verify req uid ->
  faults w = [] ->
  find_user (db w) uid = user :: rest ->
  let out := run (checkSubscriptionStatus jwt_verify FRONTEND_URL builtin_member req now) w in
  lets_through (fst out)
  = gate_verdict (u_subscription_status user) (u_trial_end_date user) now
  /\ (lets_through (fst out) = true ->
      out = (inr (Next (attach req (subscription_of builtin_member user))), w))
  /\ (u_subscription_status user = Some "active" -> lets_through (fst out) = true).
Proof.
  intros Hreach Hf Hrows out.
  assert (Hout : out = run (try_catch (check_trial FRONTEND_URL builtin_member req now user)
                              checkSubscriptionStatus_catch) w).
  { unfold out. apply (gate_on_user _ _ _ req now w uid user rest); assumption. }
  rewrite Hout. clear Hout out.
  unfold check_trial, check_active, gate_verdict.
  destruct (bool_decide (u_subscription_status user = Some "trial")) eqn:Etrial.
  - apply bool_decide_eq_true in Etrial. rewrite Etrial.
    replace (includes ["trial"; "active"] (Some "trial")) with true by reflexivity.
    destruct (u_trial_end_date user) as [endDate |].
    + destruct (endDate <? now) eqn:Elt.
      * cbn [try_catch await run]. rewrite pool_query_healthy by exact Hf.
        cbn. repeat split; discriminate.
      * cbn. repeat split; reflexivity.
    + cbn. repeat split; reflexivity.
  - cbn [andb negb]. rewrite andb_true_r.
    destruct (includes ["trial"; "active"] (u_subscription_status user)) eqn:Einc.
    + cbn. repeat split; reflexivity.
    + cbn. split; [reflexivity |]. split; [discriminate |].
      intros Hact. rewrite Hact in Einc. discriminate.
Qed.

Lemma gate_lets_through_iff_witness :
  let u := Demo.user "u1" (Some "active") (Some 0) (Some "pro") in
  let w := Demo.world [u] [] in
  run (checkSubscriptionStatus Demo.jwt Demo.url Demo.members Demo.req Demo.t0) w
  = (inr (Next (attach Demo.req (subscription_of Demo.members u))), w).
Proof.
  intros u w.
  apply (proj1 (proj2 (gate_lets_through_iff Demo.jwt Demo.url Demo.members
                         Demo.req Demo.t0 w "u1" u []
                         (conj eq_refl (conj eq_refl eq_refl)) eq_refl eq_refl))).
  reflexivity.
Defined.

Lemma exec_select_null (d : Db) : exec (SelectUserById None) d = (inr [], d).
Proof.
  cbn [exec]. f_equal. f_equal.
  induction (users d) as [| u l IH]; [reflexivity | exact IH].
Qed.

Lemma catch_keeps_world (p : Prog Outcome) (w : World) :
  snd (run (try_catch p checkSubscriptionStatus_catch) w) = snd (run p w).
Proof.
  rewrite run_try_catch. destruct (run p w) as [[e | o] w']; [| reflexivity].
  unfold checkSubscriptionStatus_catch. destruct (is_token_error e); reflexivity.
Qed.

Lemma check_trial_db (FRONTEND_URL : string)
    (builtin_member : string -> string -> JsVal)
    (req : Req) (now : Z) (user : UserRow) (w : World) :
  let w' := snd (run (check_trial FRONTEND_URL builtin_member req now user) w) in
  db w' = db w \/ db w' = expired_db (db w) (u_id user).
Proof.
  unfold check_trial, check_active.
  destruct (bool_decide (u_subscription_status user = Some "trial"));
    [destruct (u_trial_end_date user) as [endDate |];
     [destruct (endDate <? now) |] |];
    try (destruct (negb (includes ["trial"; "active"] (u_subscription_status user)));
         left; reflexivity).
  cbn [run await].
  destruct (pool_query_db (UpdateUserStatus "expired" (u_id user)) w)
    as [(e & Hr & Hd) | (Hr & Hd)];
    destruct (pool_query (UpdateUserStatus "expired" (u_id user)) w) as [[e' | r] w'];
    cbn [fst snd] in *; try discriminate.
  - left. exact Hd.
  - right. exact Hd.
Qed.

(** X5.  Whatever the request, the clock and the faults of the store,
    the gate leaves the tables as they were, or as they are after
    storing [expired] for the user named by the token: it writes no
    other row, no other column and no other table. *)
Theorem gate_writes_nothing_but_expiry
    (jwt_verify : string -> Exn + option string) (FRONTEND_URL : string)
    (builtin_member : string -> string -> JsVal)
    (req : Req) (now : Z) (w : World) :
  let w' := snd (run (checkSubscriptionStatus jwt_verify FRONTEND_URL builtin_member
                        req now) w) in
  db w' = db w
  \/ exists uid : string,
       jwt_verify (bearer_token (default "" (req_authorization req))) = inr (Some uid)
       /\ db w' = expired_db (db w) uid.
Proof.
  cbv zeta. unfold checkSubscriptionStatus. rewrite catch_keeps_world.
  unfold checkSubscriptionStatus_try.
  destruct (skipped (req_path req)); [left; reflexivity |].
  destruct (no_header (req_authorization req)); [left; reflexivity |].
  destruct (jwt_verify (bearer_token (default "" (req_authorization req))))
    as [e | decoded] eqn:Hjwt; [left; reflexivity |].
  cbn [run await].
  destruct (pool_query_db (SelectUserById decoded) w) as [(e & Hr & Hd) | (Hr & Hd)];
    destruct (pool_query (SelectUserById decoded) w) as [[e' | rows] w1];
    cbn [fst snd] in *; try discriminate.
  - left. exact Hd.
  - destruct decoded as [uid |].
    + rewrite exec_select in Hr, Hd. cbn [fst snd] in Hr, Hd.
      destruct rows as [| user rows']; [left; exact Hd |].
      assert (Hid : u_id user = uid).
      { apply (find_user_id (db w) uid). injection Hr as <-. left. reflexivity. }
      destruct (check_trial_db FRONTEND_URL builtin_member req now user w1) as [H | H].
      * left. rewrite H. exact Hd.
      * right. exists uid. split; [reflexivity |]. rewrite H, Hd, Hid. reflexivity.
    + rewrite exec_select_null in Hr, Hd. cbn [fst snd] in Hr, Hd.
      injection Hr as ->. left. exact Hd.
Qed.

Lemma gate_passes
    (jwt_verify : string -> Exn + option string) (FRONTEND_URL : string)
    (builtin_member : string -> string -> JsVal)
    (req : Req) (now : Z) (w : World) (uid : string)
    (user : UserRow) (rest : list UserRow) :
  reaches_evaluation jwt_verify req uid ->
  faults w = [] ->
  find_user (db w) uid = user :: rest ->
  gate_verdict (u_subscription_status user) (u_trial_end_date user) now = true ->
  run (checkSubscriptionStatus jwt_verify FRONTEND_URL builtin_member req now) w
  = (inr (Next (attach req (subscription_of builtin_member user))), w).
Proof.
  intros Hreach Hf Hrows Hv.
  rewrite (gate_on_user _ _ _ req now w uid user rest) by assumption.
  unfold gate_verdict in Hv. apply andb_prop in Hv as [Hinc Hnot].
  unfold check_trial, check_active. rewrite Hinc.
  destruct (bool_decide (u_subscription_status user = Some "trial")); [| reflexivity].
  destruct (u_trial_end_date user) as [endDate |]; [| reflexivity].
  cbn [andb] in Hnot. apply negb_true_iff in Hnot. rewrite Hnot. reflexivity.
Qed.

Lemma ceil_div_bounds (a b : Z) :
  0 < b -> (ceil_div a b - 1) * b < a <= ceil_div a b * b.
Proof.
  intros Hb. unfold ceil_div.
  pose proof (Z.div_mod (- a) b ltac:(lia)) as Hdm.
  pose proof (Z.mod_pos_bound (- a) b Hb) as Hm.
  nia.
Qed.

(** X6.  On the listing of leads ([checkSubscriptionStatus], then
    [addTrialInfo]) a trial user whose end date is not yet passed gets
    [req.trialInfo]: the days remaining are the time left at the second
    reading of the clock, rounded up to whole days and never negative,
    and the trial counts as expiring soon exactly when at most three
    days are left.  At the very instant of the end date the request is
    still let through, with zero days remaining. *)
Theorem listing_carries_trial_countdown
    (jwt_verify : string -> Exn + option string) (FRONTEND_URL : string)
    (builtin_member : string -> string -> JsVal)
    (req : Req) (now now' : Z) (w : World) (uid : string)
    (user : UserRow) (rest : list UserRow) (trialEnd : Z) :
  reaches_evaluation jwt_verify req uid ->
  faults w = [] ->
  find_user (db w) uid = user :: rest ->
  u_subscription_status user = Some "trial" ->
  u_trial_end_date user = Some trialEnd ->
  now <= trialEnd ->
  exists ti : TrialInfo,
    run (and_then (checkSubscriptionStatus jwt_verify FRONTEND_URL builtin_member req now)
                  (addTrialInfo FRONTEND_URL now')) w
    = (inr (Next (set_trialInfo (attach req (subscription_of builtin_member user)) ti)), w)
    /\ endDate ti = trialEnd
    /\ 0 <= daysRemaining ti
    /\ (trialEnd <= now' -> daysRemaining ti = 0)
    /\ (now' < trialEnd ->
        (daysRemaining ti - 1) * MS_PER_DAY < trialEnd - now'
        <= daysRemaining ti * MS_PER_DAY)
    /\ (isExpiringSoon ti = true <-> trialEnd - now' <= 3 * MS_PER_DAY).
Proof.
  intros Hreach Hf Hrows Hst Hend Hnow.
  assert (Hday : 0 < MS_PER_DAY) by (unfold MS_PER_DAY; lia).
  pose proof (ceil_div_bounds (trialEnd - now') MS_PER_DAY Hday) as Hb.
  set (days := ceil_div (trialEnd - now') MS_PER_DAY) in *.
  exists (mkTrialInfo (Z.max 0 days) trialEnd (days <=? 3) (upgrade_url FRONTEND_URL)).
  split; [| cbn [endDate daysRemaining isExpiringSoon]; repeat split].
  - unfold and_then. rewrite run_bind.
    rewrite (gate_passes _ _ _ req now w uid user rest Hreach Hf Hrows).
    + unfold addTrialInfo.
      cbn [attach req_subscription subscription_of trialEndDate status].
      rewrite Hend, Hst. rewrite bool_decide_eq_true_2 by reflexivity.
      reflexivity.
    + unfold gate_verdict. rewrite Hst, Hend.
      replace (trialEnd <? now) with false by (symmetry; apply Z.ltb_ge; exact Hnow).
      reflexivity.
  - lia.
  - intros Hover. nia.
  - nia.
  - nia.
  - intros Hsoon. apply Z.leb_le in Hsoon. nia.
  - intros Hleft. apply Z.leb_le. nia.
Qed.

Lemma listing_carries_trial_countdown_witness :
  let u := Demo.user "u1" (Some "trial") (Some Demo.t0) (Some "starter") in
  let w := Demo.world [u] [] in
  exists ti : TrialInfo,
    run (and_then (checkSubscriptionStatus Demo.jwt Demo.url Demo.members Demo.req Demo.t0)
                  (addTrialInfo Demo.url Demo.t0)) w
    = (inr (Next (set_trialInfo (attach Demo.req (subscription_of Demo.members u)) ti)), w)
    /\ endDate ti = Demo.t0
    /\ 0 <= daysRemaining ti
    /\ (Demo.t0 <= Demo.t0 -> daysRemaining ti = 0)
    /\ (Demo.t0 < Demo.t0 ->
        (daysRemaining ti - 1) * MS_PER_DAY < Demo.t0 - Demo.t0
        <= daysRemaining ti * MS_PER_DAY)
    /\ (isExpiringSoon ti = true <-> Demo.t0 - Demo.t0 <= 3 * MS_PER_DAY).
Proof.
  intros u w.
  apply (listing_carries_trial_countdown Demo.jwt Demo.url Demo.members Demo.req
           Demo.t0 Demo.t0 w "u1" u [] Demo.t0
           (conj eq_refl (conj eq_refl eq_refl)) eq_refl eq_refl eq_refl eq_refl).
  unfold Demo.t0. lia.
Defined.

Lemma resolve_features_pro : resolve_features (Some "pro") = PlanObject pro_plan.
Proof. reflexivity. Qed.

Lemma resolve_features_agency : resolve_features (Some "agency") = PlanObject agency_plan.
Proof. reflexivity. Qed.

Lemma resolve_features_starter : resolve_features (Some "starter") = PlanObject starter_plan.
Proof. reflexivity. Qed.

Lemma requireFeature_run (FRONTEND_URL : string)
    (builtin_member : string -> string -> JsVal)
    (featureName : string) (req : Req) (s : Subscription) (w : World) :
  req_subscription req = Some s ->
  run (requireFeature FRONTEND_URL builtin_member featureName req) w
  = (inr (if hasFeature builtin_member (features s) featureName
          then Next req
          else feature_refused FRONTEND_URL featureName s), w).
Proof.
  intros Hsub. unfold requireFeature. rewrite Hsub.
  destruct (hasFeature builtin_member (features s) featureName); reflexivity.
Qed.

(** X7.  On the WhatsApp integration route ([checkSubscriptionStatus],
    then [requireFeature('whatsapp')]) a user whom the gate lets through
    reaches the handler when the stored plan is [pro] or [agency], and
    is answered 403 [FEATURE_NOT_AVAILABLE], with the stored plan name
    in the body, when the plan is [starter], NULL or a name the
    catalogue does not know. *)
Theorem whatsapp_needs_pro_or_agency
    (jwt_verify : string -> Exn + option string) (FRONTEND_URL : string)
    (builtin_member : string -> string -> JsVal)
    (req : Req) (now : Z) (w : World) (uid : string)
    (user : UserRow) (rest : list UserRow) :
  reaches_evaluation jwt_verify req uid ->
  faults w = [] ->
  find_user (db w) uid = user :: rest ->
  gate_verdict (u_subscription_status user) (u_trial_end_date user) now = true ->
  let out :=
    run (and_then (checkSubscriptionStatus jwt_verify FRONTEND_URL builtin_member req now)
                  (requireFeature FRONTEND_URL builtin_member "whatsapp")) w in
  (u_plan_name user = Some "pro" \/ u_plan_name user = Some "agency" ->
   out = (inr (Next (attach req (subscription_of builtin_member user))), w))
  /\ (property_key (u_plan_name user) <> "pro" ->
      property_key (u_plan_name user) <> "agency" ->
      inherited (property_key (u_plan_name user)) = false ->
      out = (inr (feature_refused FRONTEND_URL "whatsapp"
                    (subscription_of builtin_member user)), w)).
Proof.
  intros Hreach Hf Hrows Hv out.
  assert (Hout : out = run (requireFeature FRONTEND_URL builtin_member "whatsapp"
                              (attach req (subscription_of builtin_member user))) w).
  { unfold out, and_then. rewrite run_bind.
    rewrite (gate_passes _ _ _ req now w uid user rest Hreach Hf Hrows Hv).
    reflexivity. }
  rewrite Hout.
  rewrite (requireFeature_run _ _ _ _ (subscription_of builtin_member user)) by reflexivity.
  replace (features (subscription_of builtin_member user))
    with (resolve_features (u_plan_name user)) by reflexivity.
  split.
  - intros [Hp | Hp]; rewrite Hp; reflexivity.
  - intros Hpro Hag Hinh.
    destruct (decide (property_key (u_plan_name user) = "starter")) as [Hs | Hs].
    + unfold resolve_features. cbv zeta. rewrite Hs. reflexivity.
    + rewrite unknown_plan_resolves_to_starter by assumption. reflexivity.
Qed.

Lemma whatsapp_needs_pro_or_agency_witness :
  let u := Demo.user "u1" (Some "active") None (Some "enterprise") in
  let w := Demo.world [u] [] in
  run (and_then (checkSubscriptionStatus Demo.jwt Demo.url Demo.members Demo.req Demo.t0)
                (requireFeature Demo.url Demo.members "whatsapp")) w
  = (inr (feature_refused Demo.url "whatsapp" (subscription_of Demo.members u)), w).
Proof.
  intros u w.
  apply (proj2 (whatsapp_needs_pro_or_agency Demo.jwt Demo.url Demo.members
                  Demo.req Demo.t0 w "u1" u []
                  (conj eq_refl (conj eq_refl eq_refl)) eq_refl eq_refl eq_refl)).
  - vm_compute. congruence.
  - vm_compute. congruence.
  - reflexivity.
Defined.

Lemma count_where_null (rows : list (option string)) : count_where rows None = 0.
Proof.
  unfold count_where.
  induction rows as [| [a |] rows IH]; [reflexivity | exact IH | exact IH].
Qed.

(** X8.  On the creation of a lead ([checkSubscriptionStatus], then
    [checkUsageLimit('leads')]) a user whom the gate lets through, on a
    plan whose [max_leads] is the number [m], is answered 403
    [USAGE_LIMIT_EXCEEDED] once the agency of the user row owns [m]
    leads or more, and otherwise goes on with the count, the limit and
    the rest in [req.usage.leads]; nothing is written.  A user row with
    no agency counts no lead and is never refused under a positive
    limit. *)
Theorem lead_creation_capped_by_plan
    (jwt_verify : string -> Exn + option string) (FRONTEND_URL : string)
    (builtin_member : string -> string -> JsVal)
    (req : Req) (now : Z) (w : World) (uid : string)
    (user : UserRow) (rest : list UserRow) (o : gmap string JsVal) (m : Z) :
  reaches_evaluation jwt_verify req uid ->
  faults w = [] ->
  find_user (db w) uid = user :: rest ->
  gate_verdict (u_subscription_status user) (u_trial_end_date user) now = true ->
  resolve_features (u_plan_name user) = PlanObject o ->
  js_get o "max_leads" = JNum m ->
  let out :=
    run (and_then (checkSubscriptionStatus jwt_verify FRONTEND_URL builtin_member req now)
                  (checkUsageLimit FRONTEND_URL "leads")) w in
  let c := count_where (leads (db w)) (u_agency_id user) in
  out = (inr (if m <=? c then
                Respond 403 (mkBody (Some "USAGE_LIMIT_EXCEEDED")
                               (UsageData "leads" c (JNum m) (upgrade_url FRONTEND_URL)))
              else
                Next (set_usage (attach req (subscription_of builtin_member user)) "leads"
                        (mkUsage c (JNum m) (Some (m - c))))), w)
  /\ (u_agency_id user = None -> 0 < m -> lets_through (fst out) = true).
Proof.
  intros Hreach Hf Hrows Hv Hplan Hmax out c.
  assert (Hout : out = (inr (if m <=? c then
                Respond 403 (mkBody (Some "USAGE_LIMIT_EXCEEDED")
                               (UsageData "leads" c (JNum m) (upgrade_url FRONTEND_URL)))
              else
                Next (set_usage (attach req (subscription_of builtin_member user)) "leads"
                        (mkUsage c (JNum m) (Some (m - c))))), w)).
  { unfold out, and_then. rewrite run_bind.
    rewrite (gate_passes _ _ _ req now w uid user rest Hreach Hf Hrows Hv).
    apply (checkUsageLimit_bounded FRONTEND_URL Leads m
             (attach req (subscription_of builtin_member user))
             (subscription_of builtin_member user) w).
    - reflexivity.
    - unfold subscription_of. cbn [limits limit_of maxLeads]. rewrite Hplan. exact Hmax.
    - exact Hf. }
  split; [exact Hout |].
  intros Hnone Hpos. rewrite Hout. cbn [fst].
  unfold c. rewrite Hnone, count_where_null.
  replace (m <=? 0) with false by (symmetry; apply Z.leb_gt; exact Hpos).
  reflexivity.
Qed.

Lemma lead_creation_capped_by_plan_witness :
  let u := Demo.user "u1" (Some "active") None (Some "starter") in
  let w := mkWorld (mkDb [u] [] [Some "a1"; Some "a2"; Some "a1"] [] []) [] in
  run (and_then (checkSubscriptionStatus Demo.jwt Demo.url Demo.members Demo.req Demo.t0)
                (checkUsageLimit Demo.url "leads")) w
  = (inr (Next (set_usage (attach Demo.req (subscription_of Demo.members u)) "leads"
                  (mkUsage 2 (JNum 1000) (Some 998)))), w).
Proof.
  intros u w.
  apply (proj1 (lead_creation_capped_by_plan Demo.jwt Demo.url Demo.members
                  Demo.req Demo.t0 w "u1" u [] starter_plan 1000
                  (conj eq_refl (conj eq_refl eq_refl)) eq_refl eq_refl eq_refl
                  eq_refl eq_refl)).
Defined.

(** X9.  The guards rely on the gate having bound [req.subscription].
    On an exempt path the gate binds nothing, so a guard mounted behind
    it there refuses every request, whatever the token, the plan and
    the store: [requireFeature] with 401 [NO_SUBSCRIPTION_INFO],
    [checkUsageLimit] with 401, and [addTrialInfo] adds nothing. *)
Theorem guards_refuse_on_exempt_paths
    (jwt_verify : string -> Exn + option string) (FRONTEND_URL : string)
    (builtin_member : string -> string -> JsVal)
    (req : Req) (now now' : Z) (w : World) (name : string) :
  skipped (req_path req) = true ->
  req_subscription req = None ->
  let gate := checkSubscriptionStatus jwt_verify FRONTEND_URL builtin_member req now in
  run (and_then gate (requireFeature FRONTEND_URL builtin_member name)) w
  = (inr (Respond 401 (mkBody (Some "NO_SUBSCRIPTION_INFO") NoData)), w)
  /\ run (and_then gate (checkUsageLimit FRONTEND_URL name)) w
     = (inr (Respond 401 (mkBody None NoData)), w)
  /\ run (and_then gate (addTrialInfo FRONTEND_URL now')) w = (inr (Next req), w).
Proof.
  intros Hskip Hsub gate.
  assert (Hgate : run gate w = (inr (Next req), w)).
  { unfold gate, checkSubscriptionStatus, checkSubscriptionStatus_try.
    rewrite Hskip. reflexivity. }
  unfold and_then. rewrite !run_bind, Hgate.
  unfold requireFeature, checkUsageLimit, checkUsageLimit_try, addTrialInfo.
  rewrite Hsub. repeat split; reflexivity.
Qed.

Lemma guards_refuse_on_exempt_paths_witness :
  let req := mkReq "/api/auth/whatsapp" (Some "Bearer t-u1") None ∅ None in
  let w := Demo.world [Demo.user "u1" (Some "active") None (Some "agency")] [] in
  run (and_then (checkSubscriptionStatus Demo.jwt Demo.url Demo.members req Demo.t0)
                (requireFeature Demo.url Demo.members "whatsapp")) w
  = (inr (Respond 401 (mkBody (Some "NO_SUBSCRIPTION_INFO") NoData)), w).
Proof.
  intros req w.
  apply (proj1 (guards_refuse_on_exempt_paths Demo.jwt Demo.url Demo.members
                  req Demo.t0 Demo.t0 w "whatsapp" eq_refl eq_refl)).
Defined.

Lemma plan_lookup_other (name : string) (v1 v2 v3 v4 v5 v6 v7 : JsVal) :
  name <> "whatsapp" -> name <> "analytics" -> name <> "branding" ->
  name <> "api_access" -> name <> "max_leads" -> name <> "max_users" ->
  name <> "max_properties" ->
  ({[ "whatsapp" := v1; "analytics" := v2; "branding" := v3; "api_access" := v4;
      "max_leads" := v5; "max_users" := v6; "max_properties" := v7 ]}
     : gmap string JsVal) !! name = None.
Proof.
  intros H1 H2 H3 H4 H5 H6 H7.
  rewrite !lookup_insert_ne by congruence.
  apply lookup_singleton_ne. congruence.
Qed.

(** X10.  What the plans of the catalogue unlock, as [requireFeature]
    sees it, for every feature name: [starter] unlocks [analytics] and
    nothing else; [pro] unlocks [whatsapp], [analytics], [branding] and
    [api_access] and nothing else; [agency] unlocks exactly what [pro]
    does.  The limits ([max_leads] and the like) are no features. *)
Theorem catalogue_unlocks
    (builtin_member : string -> string -> JsVal) (name : string) :
  (hasFeature builtin_member (PlanObject starter_plan) name = true
   <-> name = "analytics")
  /\ (hasFeature builtin_member (PlanObject pro_plan) name = true
      <-> In name ["whatsapp"; "analytics"; "branding"; "api_access"])
  /\ hasFeature builtin_member (PlanObject agency_plan) name
     = hasFeature builtin_member (PlanObject pro_plan) name.
Proof.
  destruct (decide (name = "whatsapp")) as [-> | H1];
    [vm_compute; intuition congruence |].
  destruct (decide (name = "analytics")) as [-> | H2];
    [vm_compute; intuition congruence |].
  destruct (decide (name = "branding")) as [-> | H3];
    [vm_compute; intuition congruence |].
  destruct (decide (name = "api_access")) as [-> | H4];
    [vm_compute; intuition congruence |].
  destruct (decide (name = "max_leads")) as [-> | H5];
    [vm_compute; intuition congruence |].
  destruct (decide (name = "max_users")) as [-> | H6];
    [vm_compute; intuition congruence |].
  destruct (decide (name = "max_properties")) as [-> | H7];
    [vm_compute; intuition congruence |].
  rewrite !hasFeature_absent by (apply plan_lookup_other; assumption).
  repeat split; try discriminate.
  - intros ->. contradiction.
  - cbn [In]. intuition congruence.
Qed.

(** ** Trial signup *)

Lemma by_email_fresh (us : list UserRow) (row : UserRow) (mail : string) :
  List.filter (fun u => bool_decide (u_email u = mail)) us = [] ->
  u_email row = mail ->
  List.filter (fun u => bool_decide (u_email u = mail)) (us ++ [row]) = [row].
Proof.
  intros Hnone Hrow. rewrite List.filter_app, Hnone. cbn [List.filter app].
  rewrite bool_decide_eq_true_2 by exact Hrow. reflexivity.
Qed.


(** A signup with an email that is already stored answers 409 and
    leaves the store alone. *)
Lemma signup_known_email (LocalTZA : Zone) (b : SignupBody)
    (hashedPassword agencyId userId token : string) (now now' : Z) (w : World)
    (existing : UserRow) (others : list UserRow) :
  faults w = [] ->
  List.filter (fun u => bool_decide (u_email u = email b)) (users (db w))
  = existing :: others ->
  run (trial_signup LocalTZA true b hashedPassword agencyId userId token now now') w
  = (inr (Rejected 409
            (Some (if bool_decide (u_subscription_status existing = Some "expired")
                   then "TRIAL_EXPIRED" else "EMAIL_EXISTS"))), w).
Proof.
  intros Hf Hrows. unfold trial_signup. rewrite run_try_catch. cbn [negb run await].
  rewrite pool_query_healthy by exact Hf.
  cbn [exec fst snd]. rewrite Hrows, healthy_world by exact Hf.
  destruct (bool_decide (u_subscription_status existing = Some "expired")); reflexivity.
Qed.



(** X12.  The signup is not one transaction.  When the store rejects
    the insertion of the agency, the answer is 500, yet the user row
    inserted just before stays, with no agency row beside it: the email
    is taken, and signing up again with it is answered 409
    [EMAIL_EXISTS]. *)
Theorem signup_is_not_atomic
    (LocalTZA : Zone) (b b' : SignupBody) (hashedPassword agencyId userId token : string)
    (hashedPassword' agencyId' userId' token' : string)
    (now now' t t' : Z) (w : World) (e : Exn) :
  faults w = [None; None; Some e] ->
  List.filter (fun u => bool_decide (u_email u = email b)) (users (db w)) = [] ->
  existsb (fun u => bool_decide (u_id u = userId)) (users (db w)) = false ->
  email b' = email b ->
  let row := mkUser userId (email b) hashedPassword (firstName b) (lastName b)
                    "manager" "active" (Some agencyId)
                    (Some "trial") (Some (setDate_plus LocalTZA now 14)) (Some "starter") in
  let w1 := mkWorld (with_users (db w) (users (db w) ++ [row])) [] in
  run (trial_signup LocalTZA true b hashedPassword agencyId userId token now now') w
  = (inr (Rejected 500 None), w1)
  /\ agencies (db w1) = agencies (db w)
  /\ run (trial_signup LocalTZA true b' hashedPassword' agencyId' userId' token' t t') w1
     = (inr (Rejected 409 (Some "EMAIL_EXISTS")), w1).
Proof.
  intros Hf Hemail Hfresh Hsame row w1. split; [| split].
  - unfold trial_signup. rewrite run_try_catch. cbn [negb run await].
    rewrite (pool_query_answers _ w [None; Some e]) by exact Hf.
    cbn [exec fst snd]. rewrite Hemail. cbn [run await].
    rewrite (pool_query_answers _ _ [Some e]) by reflexivity.
    cbn [exec db u_id]. rewrite Hfresh. cbn [fst snd run await].
    rewrite (pool_query_fault _ _ e []) by reflexivity.
    reflexivity.
  - reflexivity.
  - rewrite (signup_known_email LocalTZA b' _ _ _ _ t t' w1 row []); [reflexivity | reflexivity |].
    rewrite Hsame. cbn [w1 db with_users users].
    apply by_email_fresh; [exact Hemail | reflexivity].
Qed.

Lemma signup_is_not_atomic_witness :
  let b := mkSignupBody "ann@example.org" "secret1" "Ann" "Lee" None in
  let w := Demo.world [] [None; None; Some Demo.outage] in
  let row := mkUser "u9" "ann@example.org" "h1" "Ann" "Lee" "manager" "active"
                    (Some "a9") (Some "trial") (Some (setDate_plus Demo.utc Demo.t0 14))
                    (Some "starter") in
  let w1 := mkWorld (with_users (db w) (users (db w) ++ [row])) [] in
  run (trial_signup Demo.utc true b "h1" "a9" "u9" "tok" Demo.t0 Demo.t0) w
  = (inr (Rejected 500 None), w1)
  /\ agencies (db w1) = agencies (db w)
  /\ run (trial_signup Demo.utc true b "h2" "a10" "u10" "tok2" Demo.t0 Demo.t0) w1
     = (inr (Rejected 409 (Some "EMAIL_EXISTS")), w1).
Proof.
  intros b w.
  apply (signup_is_not_atomic Demo.utc b b "h1" "a9" "u9" "tok" "h2" "a10" "u10" "tok2"
           Demo.t0 Demo.t0 Demo.t0 Demo.t0 w Demo.outage
           eq_refl eq_refl eq_refl eq_refl).
Defined.

(** ** The trial status route *)

Lemma ceil_div_nonpositive (a b : Z) : 0 < b -> (ceil_div a b <=? 0) = (a <=? 0).
Proof.
  intros Hb. pose proof (ceil_div_bounds a b Hb) as Hc.
  destruct (a <=? 0) eqn:Ea.
  - apply Z.leb_le in Ea. apply Z.leb_le. nia.
  - apply Z.leb_gt in Ea. apply Z.leb_gt. nia.
Qed.

Lemma trial_status_on_user (jwt_verify : string -> Exn + option string)
    (authorization : option string) (now : Z) (w : World) (uid : string)
    (user : UserRow) (rest : list UserRow) :
  no_header authorization = false ->
  jwt_verify (bearer_token (default "" authorization)) = inr (Some uid) ->
  faults w = [] ->
  find_user (db w) uid = user :: rest ->
  run (trial_status jwt_verify authorization now) w
  = (inr (let isTrialActive := bool_decide (u_subscription_status user = Some "trial") in
          let c := trial_countdown (u_subscription_status user)
                                   (u_trial_end_date user) now in
          TrialStatusOk
            (mkTrialStatus (u_id user) (u_email user) (u_subscription_status user)
               (u_plan_name user) isTrialActive (u_trial_end_date user)
               (Z.max 0 (fst c)) (snd c) (snd c && isTrialActive))), w).
Proof.
  intros Hhdr Hjwt Hf Hrows. unfold trial_status. rewrite run_try_catch.
  rewrite Hhdr, Hjwt. cbn [run await].
  rewrite pool_query_healthy by exact Hf.
  rewrite exec_select, Hrows. cbn [fst snd]. rewrite healthy_world by exact Hf.
  destruct (trial_countdown (u_subscription_status user) (u_trial_end_date user) now).
  reflexivity.
Qed.

(** X13.  [GET /trial-status] and the gate do not tell the same story.
    For a stored trial with an end date the route reports
    [trialExpired] and [needsUpgrade] from the end instant on, one
    instant before the gate starts refusing, and stores nothing.  Once
    the gate has refused and stored [expired], the route reports the
    status [expired] with [trialExpired] and [needsUpgrade] both false
    and zero days remaining. *)
Theorem trial_status_forgets_expiry
    (jwt_verify : string -> Exn + option string) (FRONTEND_URL : string)
    (builtin_member : string -> string -> JsVal)
    (req : Req) (now : Z) (w : World) (uid : string)
    (user : UserRow) (rest : list UserRow) (trialEnd : Z) :
  reaches_evaluation jwt_verify req uid ->
  faults w = [] ->
  find_user (db w) uid = user :: rest ->
  u_subscription_status user = Some "trial" ->
  u_trial_end_date user = Some trialEnd ->
  (exists d : TrialStatus,
      run (trial_status jwt_verify (req_authorization req) now) w
      = (inr (TrialStatusOk d), w)
      /\ tst_trialExpired d = (trialEnd <=? now)
      /\ tst_needsUpgrade d = (trialEnd <=? now)
      /\ lets_through
           (fst (run (checkSubscriptionStatus jwt_verify FRONTEND_URL builtin_member
                        req now) w))
         = negb (trialEnd <? now))
  /\ (trialEnd < now ->
      let w2 := snd (run (checkSubscriptionStatus jwt_verify FRONTEND_URL builtin_member
                            req now) w) in
      exists d' : TrialStatus,
        run (trial_status jwt_verify (req_authorization req) now) w2
        = (inr (TrialStatusOk d'), w2)
        /\ tst_subscriptionStatus d' = Some "expired"
        /\ tst_trialExpired d' = false
        /\ tst_needsUpgrade d' = false
        /\ tst_daysRemaining d' = 0).
Proof.
  intros Hreach Hf Hrows Hst Hend.
  assert (Hday : 0 < MS_PER_DAY) by (unfold MS_PER_DAY; lia).
  pose proof Hreach as (Hskip & Hhdr & Hjwt).
  split.
  - eexists. split; [| split; [| split]].
    + apply (trial_status_on_user jwt_verify _ now w uid user rest Hhdr Hjwt Hf Hrows).
    + cbn [tst_trialExpired]. unfold trial_countdown. rewrite Hst, Hend.
      rewrite bool_decide_eq_true_2 by reflexivity. cbn [snd].
      rewrite ceil_div_nonpositive by exact Hday.
      destruct (trialEnd <=? now) eqn:E.
      * apply Z.leb_le in E. apply Z.leb_le. lia.
      * apply Z.leb_gt in E. apply Z.leb_gt. lia.
    + cbn [tst_needsUpgrade]. unfold trial_countdown. rewrite Hst, Hend.
      rewrite bool_decide_eq_true_2 by reflexivity. cbn [snd].
      rewrite andb_true_r. rewrite ceil_div_nonpositive by exact Hday.
      destruct (trialEnd <=? now) eqn:E.
      * apply Z.leb_le in E. apply Z.leb_le. lia.
      * apply Z.leb_gt in E. apply Z.leb_gt. lia.
    + destruct (trialEnd <? now) eqn:E.
      * apply Z.ltb_lt in E.
        rewrite (gate_trial_expired _ _ _ req now w uid user rest trialEnd) by assumption.
        reflexivity.
      * rewrite (gate_passes _ _ _ req now w uid user rest Hreach Hf Hrows).
        -- reflexivity.
        -- unfold gate_verdict. rewrite Hst, Hend, E. reflexivity.
  - intros Hpast. cbv zeta.
    rewrite (gate_trial_expired _ _ _ req now w uid user rest trialEnd) by assumption.
    cbn [snd]. eexists. split; [| split; [| split; [| split]]].
    + apply (trial_status_on_user jwt_verify _ now
               (mkWorld (expired_db (db w) uid) []) uid
               (set_subscription_status (Some "expired") user)
               (map (set_subscription_status (Some "expired")) rest) Hhdr Hjwt eq_refl).
      cbn [db]. rewrite find_user_expired, Hrows. reflexivity.
    + reflexivity.
    + cbn [tst_trialExpired set_subscription_status u_subscription_status
             u_trial_end_date].
      unfold trial_countdown. rewrite Hend. reflexivity.
    + cbn [tst_needsUpgrade set_subscription_status u_subscription_status
             u_trial_end_date].
      unfold trial_countdown. rewrite Hend. reflexivity.
    + cbn [tst_daysRemaining set_subscription_status u_subscription_status
             u_trial_end_date].
      unfold trial_countdown. rewrite Hend. reflexivity.
Qed.

Lemma trial_status_forgets_expiry_witness :
  let u := Demo.user "u1" (Some "trial") (Some Demo.t0) (Some "starter") in
  let w := Demo.world [u] [] in
  exists d : TrialStatus,
    run (trial_status Demo.jwt (req_authorization Demo.req) Demo.t0) w
    = (inr (TrialStatusOk d), w)
    /\ tst_trialExpired d = (Demo.t0 <=? Demo.t0)
    /\ tst_needsUpgrade d = (Demo.t0 <=? Demo.t0)
    /\ lets_through
         (fst (run (checkSubscriptionStatus Demo.jwt Demo.url Demo.members
                      Demo.req Demo.t0) w))
       = negb (Demo.t0 <? Demo.t0).
Proof.
  intros u w.
  apply (proj1 (trial_status_forgets_expiry Demo.jwt Demo.url Demo.members
                  Demo.req Demo.t0 w "u1" u [] Demo.t0
                  (conj eq_refl (conj eq_refl eq_refl)) eq_refl eq_refl eq_refl eq_refl)).
Defined.

(** ** The Sequelize models *)

(** X14.  [Subscription.prototype.canAccess] and the gate.  The model
    decides on the flag [is_trial], the gate on the status [trial]: as
    long as the flag is set exactly on the rows whose status is [trial],
    [canAccess] is the verdict of the gate on the same status and end
    date.  A row whose status is [active] and whose flag is still set
    shows the difference: past its trial end the model refuses it and
    the gate does not.  The days the model counts are zero exactly from
    the end instant on, one instant before [isTrialExpired]. *)
Theorem model_access_is_gate_verdict (s : SubscriptionModel.t) (now : Z) :
  (SubscriptionModel.is_trial s = bool_decide (SubscriptionModel.status s = "trial") ->
   SubscriptionModel.canAccess s now
   = gate_verdict (Some (SubscriptionModel.status s))
                  (SubscriptionModel.trial_end_date s) now)
  /\ (forall trialEnd : Z,
        SubscriptionModel.status s = "active" ->
        SubscriptionModel.is_trial s = true ->
        SubscriptionModel.trial_end_date s = Some trialEnd ->
        trialEnd < now ->
        SubscriptionModel.canAccess s now = false
        /\ gate_verdict (Some (SubscriptionModel.status s))
                        (SubscriptionModel.trial_end_date s) now = true)
  /\ (forall trialEnd : Z,
        SubscriptionModel.is_trial s = true ->
        SubscriptionModel.trial_end_date s = Some trialEnd ->
        (SubscriptionModel.getDaysRemaining s now = 0 <-> trialEnd <= now)
        /\ (SubscriptionModel.isTrialExpired s now = true <-> trialEnd < now)).
Proof.
  assert (Hday : 0 < MS_PER_DAY) by (unfold MS_PER_DAY; lia).
  unfold SubscriptionModel.canAccess, SubscriptionModel.isActive,
    SubscriptionModel.isTrialExpired, SubscriptionModel.getDaysRemaining, gate_verdict.
  cbn [includes].
  split; [| split].
  - intros Hflag. rewrite Hflag.
    replace (bool_decide (Some (SubscriptionModel.status s) = Some "trial"))
      with (bool_decide (SubscriptionModel.status s = "trial"))
      by (apply bool_decide_ext; split; congruence).
    destruct (SubscriptionModel.trial_end_date s) as [e |];
      destruct (bool_decide (SubscriptionModel.status s = "trial")); reflexivity.
  - intros trialEnd Hst Hflag Hend Hpast. rewrite Hst, Hflag, Hend.
    replace (trialEnd <? now) with true by (symmetry; apply Z.ltb_lt; exact Hpast).
    split; reflexivity.
  - intros trialEnd Hflag Hend. rewrite Hflag, Hend.
    pose proof (ceil_div_bounds (trialEnd - now) MS_PER_DAY Hday) as Hb.
    split.
    + split; intros H; nia.
    + apply Z.ltb_lt.
Qed.

Lemma model_access_is_gate_verdict_witness :
  let s := SubscriptionModel.mk "u1" "p1" "active" true (Some 0) (Some Demo.t0)
                                0 Demo.t0 0 in
  SubscriptionModel.canAccess s (Demo.t0 + 1) = false
  /\ gate_verdict (Some (SubscriptionModel.status s))
                  (SubscriptionModel.trial_end_date s) (Demo.t0 + 1) = true.
Proof.
  intros s.
  apply (proj1 (proj2 (model_access_is_gate_verdict s (Demo.t0 + 1))) Demo.t0
           eq_refl eq_refl eq_refl).
  unfold Demo.t0. lia.
Defined.

Lemma find_app_none {A : Type} (f : A -> bool) (l l' : list A) :
  List.find f l = None -> List.find f (l ++ l') = List.find f l'.
Proof.
  induction l as [| a l IH]; [reflexivity |].
  cbn [List.find app]. destruct (f a); [discriminate | exact IH].
Qed.

Lemma find_app_some {A : Type} (f : A -> bool) (l l' : list A) (a : A) :
  List.find f l = Some a -> List.find f (l ++ l') = Some a.
Proof.
  induction l as [| x l IH]; [discriminate |].
  cbn [List.find app]. destruct (f x); [intros H; exact H | exact IH].
Qed.

(** One [findOrCreate] of a seed: the table is left alone when a row of
    that name is there, and gets the seed at its end otherwise. *)
Lemma findOrCreate_seed (new_id : string -> string) (seed : Plans.PlanRow)
    (t : list Plans.PlanRow) :
  In seed (Plans.seeds new_id) ->
  Plans.findOrCreate seed t
  = inr (match List.find (fun r => bool_decide (Plans.p_name r = Plans.p_name seed)) t with
         | Some _ => t
         | None => (t ++ [seed])%list
         end).
Proof.
  intros Hin. unfold Plans.findOrCreate.
  destruct (List.find _ t); [reflexivity |].
  destruct Hin as [<- | [<- | [<- | []]]]; reflexivity.
Qed.

Lemma find_app_none_left {A : Type} (f : A -> bool) (l l' : list A) :
  List.find f (l ++ l') = None -> List.find f l = None.
Proof.
  induction l as [| a l IH]; [reflexivity |].
  cbn [List.find app]. destruct (f a); [discriminate | exact IH].
Qed.

(** The loop of [seedDefaultPlans] over plans that pass validation: it
    appends the plans whose name is missing, and afterwards every name
    is there. *)
Lemma seed_all_appends (plans t : list Plans.PlanRow) :
  (forall s, In s plans -> Plans.validate s = inr tt) ->
  exists added : list Plans.PlanRow,
    Plans.seed_all plans t = inr (t ++ added)%list
    /\ (forall r, In r added ->
          In r plans
          /\ List.find (fun x => bool_decide (Plans.p_name x = Plans.p_name r)) t = None)
    /\ (forall s, In s plans ->
          List.find (fun x => bool_decide (Plans.p_name x = Plans.p_name s))
                    (t ++ added)%list <> None).
Proof.
  revert t. induction plans as [| s rest IH]; intros t Hvalid.
  - exists []. rewrite app_nil_r. split; [reflexivity |]. split; intros ? [].
  - cbn [Plans.seed_all]. unfold Plans.findOrCreate.
    destruct (List.find (fun r => bool_decide (Plans.p_name r = Plans.p_name s)) t)
      as [found |] eqn:Efind.
    + destruct (IH t (fun x Hx => Hvalid x (or_intror Hx))) as (added & Hrun & Hadd & Hall).
      exists added. split; [exact Hrun |]. split.
      * intros r Hr. destruct (Hadd r Hr) as [Hin Hnone]. split; [right; exact Hin | exact Hnone].
      * intros s' [<- | Hs'].
        -- rewrite (find_app_some _ t added found Efind). discriminate.
        -- apply Hall. exact Hs'.
    + rewrite (Hvalid s (or_introl eq_refl)).
      destruct (IH (t ++ [s])%list (fun x Hx => Hvalid x (or_intror Hx)))
        as (added & Hrun & Hadd & Hall).
      exists (s :: added). rewrite Hrun, <- app_assoc. split; [reflexivity |]. split.
      * intros r [<- | Hr]; [split; [left; reflexivity | exact Efind] |].
        destruct (Hadd r Hr) as [Hin Hnone].
        split; [right; exact Hin | exact (find_app_none_left _ _ _ Hnone)].
      * intros s' [<- | Hs'].
        -- rewrite (find_app_none _ t (s :: added) Efind). cbn [List.find].
           rewrite bool_decide_eq_true_2 by reflexivity. discriminate.
        -- specialize (Hall s' Hs'). rewrite <- app_assoc in Hall. exact Hall.
Qed.

Lemma seed_all_present (plans t : list Plans.PlanRow) :
  (forall s, In s plans ->
     List.find (fun x => bool_decide (Plans.p_name x = Plans.p_name s)) t <> None) ->
  Plans.seed_all plans t = inr t.
Proof.
  induction plans as [| s rest IH]; intros Hall; [reflexivity |].
  cbn [Plans.seed_all]. unfold Plans.findOrCreate.
  destruct (List.find (fun r => bool_decide (Plans.p_name r = Plans.p_name s)) t) eqn:E.
  - apply IH. intros s' Hs'. apply Hall. right. exact Hs'.
  - exfalso. apply (Hall s (or_introl eq_refl)). exact E.
Qed.

Lemma seeds_validate (new_id : string -> string) (s : Plans.PlanRow) :
  In s (Plans.seeds new_id) -> Plans.validate s = inr tt.
Proof. intros [<- | [<- | [<- | []]]]; reflexivity. Qed.

Lemma seeds_names (new_id : string -> string) :
  map Plans.p_name (Plans.seeds new_id) = ["starter"; "pro"; "agency"].
Proof. reflexivity. Qed.

Lemma find_none_all {A : Type} (f : A -> bool) (l : list A) :
  (forall a, In a l -> f a = false) -> List.find f l = None.
Proof.
  induction l as [| a l IH]; intros H; [reflexivity |].
  cbn [List.find]. rewrite (H a (or_introl eq_refl)).
  apply IH. intros x Hx. apply H. right. exact Hx.
Qed.

(** X15.  [seedDefaultPlans] on any plan table succeeds; it keeps every
    row that was there, in place and unchanged, and appends only
    default plans whose name was missing, so that the three names are
    all there afterwards.  Running it again, with whatever new
    identifiers, changes nothing.  A [starter] row that was there, be it
    deactivated, is not replaced: [getStarterPlan] answers after the
    seeding what it answered before. *)
Theorem seeding_adds_missing_plans_only
    (new_id new_id' : string -> string) (t : list Plans.PlanRow) :
  exists added : list Plans.PlanRow,
    Plans.seedDefaultPlans new_id t = inr (t ++ added)%list
    /\ (forall r, In r added ->
          In r (Plans.seeds new_id)
          /\ List.find (fun x => bool_decide (Plans.p_name x = Plans.p_name r)) t = None)
    /\ (forall n, In n ["starter"; "pro"; "agency"] ->
          exists r, In r (t ++ added)%list /\ Plans.p_name r = n)
    /\ Plans.seedDefaultPlans new_id' (t ++ added)%list = inr (t ++ added)%list
    /\ (Plans.findStarter t <> None ->
        Plans.getStarterPlan (t ++ added)%list = Plans.getStarterPlan t).
Proof.
  destruct (seed_all_appends (Plans.seeds new_id) t (seeds_validate new_id))
    as (added & Hrun & Hadd & Hall).
  assert (Hnames : forall n, In n ["starter"; "pro"; "agency"] ->
            List.find (fun x => bool_decide (Plans.p_name x = n)) (t ++ added)%list
            <> None).
  { intros n Hn. rewrite <- (seeds_names new_id) in Hn.
    apply in_map_iff in Hn as (s & <- & Hs). apply Hall. exact Hs. }
  exists added. split; [exact Hrun |]. split; [exact Hadd |]. split; [| split].
  - intros n Hn. specialize (Hnames n Hn).
    destruct (List.find (fun x => bool_decide (Plans.p_name x = n)) (t ++ added)%list)
      as [r |] eqn:E; [| contradiction].
    apply List.find_some in E as [Hin Hname].
    exists r. split; [exact Hin | apply bool_decide_eq_true in Hname; exact Hname].
  - apply seed_all_present. intros s Hs. apply Hnames.
    rewrite <- (seeds_names new_id'). apply in_map. exact Hs.
  - intros Hthere. unfold Plans.getStarterPlan, Plans.getByName.
    destruct (List.find (fun r => bool_decide (Plans.p_name r = "starter")
                                  && Plans.p_is_active r) t) as [r |] eqn:E.
    + apply find_app_some. exact E.
    + rewrite (find_app_none _ t added E). apply find_none_all.
      intros r Hr. destruct (Hadd r Hr) as [_ Hnone].
      destruct (bool_decide (Plans.p_name r = "starter")) eqn:En; [| reflexivity].
      apply bool_decide_eq_true in En. rewrite En in Hnone.
      exfalso. apply Hthere. exact Hnone.
Qed.

(** X16.  After the seeding [Subscription.createTrial] called without a
    plan always finds one: the row it builds is a trial on the first
    plan named [starter], whether that plan is active or not.  Before
    any plan is stored the same call rejects with a [TypeError], the
    property [id] being read on [null]. *)
Theorem trial_plan_after_seeding
    (LocalTZA : Zone) (new_id : string -> string) (t : list Plans.PlanRow)
    (userId : string) (now now' : Z) :
  (exists (t' : list Plans.PlanRow) (r : Plans.PlanRow),
      Plans.seedDefaultPlans new_id t = inr t'
      /\ Plans.findStarter t' = Some r
      /\ Plans.p_name r = "starter"
      /\ SubscriptionModel.createTrial LocalTZA userId None
           (option_map Plans.p_id (Plans.findStarter t')) now now'
         = inr (SubscriptionModel.mk userId (Plans.p_id r) "trial" true (Some now)
                  (Some (setDate_plus LocalTZA now' 14)) now (setDate_plus LocalTZA now' 14) 0))
  /\ SubscriptionModel.createTrial LocalTZA userId None
       (option_map Plans.p_id (Plans.findStarter [])) now now'
     = inl (mkExn "TypeError" "Cannot read properties of null").
Proof.
  split; [| reflexivity].
  destruct (seed_all_appends (Plans.seeds new_id) t (seeds_validate new_id))
    as (added & Hrun & _ & Hall).
  specialize (Hall (nth 0 (Plans.seeds new_id) (Plans.mkPlanRow "" "" "" 0 None None None
                                                  None None None [] true 0))
                   (or_introl eq_refl)).
  cbn [nth Plans.seeds Plans.p_name] in Hall.
  destruct (List.find (fun x => bool_decide (Plans.p_name x = "starter"))
                      (t ++ added)%list) as [r |] eqn:E; [| contradiction].
  exists (t ++ added)%list, r. split; [exact Hrun |].
  unfold Plans.findStarter. rewrite E. split; [reflexivity |]. split.
  - apply List.find_some in E as [_ Hname]. apply bool_decide_eq_true in Hname. exact Hname.
  - reflexivity.
Qed.

Lemma valid_keys (fs : list (string * JsVal)) (k : string) (v : JsVal) :
  Plans.isValidFeatures fs = inr tt -> In (k, v) fs -> k ∈ Plans.validFeatures.
Proof.
  induction fs as [| [k' v'] fs IH]; intros Hvalid Hin; [destruct Hin |].
  cbn [Plans.isValidFeatures] in Hvalid.
  destruct (bool_decide (k' ∈ Plans.validFeatures)) eqn:Ek; [| discriminate].
  destruct Hin as [Heq | Hin].
  - injection Heq as <- _. apply bool_decide_eq_true in Ek. exact Ek.
  - apply IH; assumption.
Qed.

(** X17.  A plan whose [features] passed the validator of the model
    unlocks nothing outside the seven known feature names: for every
    other name, members of [Object.prototype] included, [requireFeature]
    refuses on that object and [hasFeature] of the model answers
    false.  The validator looks at the keys only: it accepts any value,
    and rejects the [starter] object of the gate's own catalogue, which
    carries [max_leads], in whatever order its keys come. *)
Theorem validated_features_are_closed
    (builtin_member : string -> string -> JsVal)
    (r : Plans.PlanRow) (name : string) :
  Plans.isValidFeatures (Plans.p_features r) = inr tt ->
  name ∉ Plans.validFeatures ->
  hasFeature builtin_member (PlanObject (Plans.features_object r)) name = false
  /\ SubscriptionPlan.hasFeature (Some (Plans.features_object r)) name = false
  /\ (forall v : JsVal, Plans.isValidFeatures (("whatsapp", v) :: Plans.p_features r) = inr tt)
  /\ (forall fs : list (string * JsVal),
        list_to_map fs = starter_plan -> Plans.isValidFeatures fs <> inr tt).
Proof.
  intros Hvalid Hname.
  assert (Habs : Plans.features_object r !! name = None).
  { unfold Plans.features_object. apply not_elem_of_list_to_map_1.
    intros Hin. apply list_elem_of_fmap in Hin as ([k v] & -> & Hkv).
    apply Hname. apply (valid_keys (Plans.p_features r) k v Hvalid).
    apply list_elem_of_In. exact Hkv. }
  split; [apply hasFeature_absent; exact Habs |]. split; [| split].
  - unfold SubscriptionPlan.hasFeature, js_get. rewrite Habs.
    destruct (inherited name); reflexivity.
  - intros v. cbn [Plans.isValidFeatures].
    replace (bool_decide ("whatsapp" ∈ Plans.validFeatures)) with true by reflexivity.
    exact Hvalid.
  - intros fs Hfs Hok.
    assert (Hkey : "max_leads" ∈ fs.*1).
    { destruct (decide ("max_leads" ∈ fs.*1)) as [Hin | Hout]; [exact Hin |].
      apply (not_elem_of_list_to_map_1 (M := gmap string)) in Hout.
      rewrite Hfs in Hout. vm_compute in Hout. discriminate. }
    apply list_elem_of_fmap in Hkey as ([k v] & Hk & Hkv). cbn in Hk. subst k.
    apply list_elem_of_In in Hkv.
    pose proof (valid_keys fs "max_leads" v Hok Hkv) as Hbad.
    revert Hbad. apply (bool_decide_eq_false_1 ("max_leads" ∈ Plans.validFeatures)).
    reflexivity.
Qed.

Lemma validated_features_are_closed_witness :
  let r := Plans.mkPlanRow "p2" "pro" "Pro Plan" 19900 None None None
             (Some 5000) (Some 10) (Some 500)
             [("whatsapp", JBool true); ("analytics", JStr "advanced")] true 2 in
  hasFeature Demo.members (PlanObject (Plans.features_object r)) "constructor" = false.
Proof.
  intros r.
  refine (proj1 (validated_features_are_closed Demo.members r "constructor" eq_refl _)).
  apply (bool_decide_eq_false_1 ("constructor" ∈ Plans.validFeatures)). reflexivity.
Defined.

(** ** The subscription service *)

Lemma latest_filter (keep : SubRow -> bool) (rows : list SubRow) :
  latest keep rows = latest (fun _ => true) (List.filter keep rows).
Proof.
  induction rows as [| r rows IH]; [reflexivity |].
  cbn [latest List.filter]. destruct (keep r); [| exact IH].
  cbn [latest]. rewrite IH. reflexivity.
Qed.

Lemma latest_none (keep : SubRow -> bool) (rows : list SubRow) :
  latest keep rows = None -> List.filter keep rows = [].
Proof.
  induction rows as [| r rows IH]; [reflexivity |].
  cbn [latest List.filter]. destruct (keep r); [| exact IH].
  destruct (latest keep rows) as [r' |];
    [destruct (s_created_at r <? s_created_at r') |]; discriminate.
Qed.

Lemma latest_in (keep : SubRow -> bool) (rows : list SubRow) (r : SubRow) :
  latest keep rows = Some r -> In r rows /\ keep r = true.
Proof.
  revert r. induction rows as [| x rows IH]; intros r; [discriminate |].
  cbn [latest]. destruct (keep x) eqn:Ex.
  - destruct (latest keep rows) as [r' |] eqn:El.
    + destruct (s_created_at x <? s_created_at r'); intros H; injection H as <-.
      * destruct (IH r' eq_refl) as [Hin Hk]. split; [right; exact Hin | exact Hk].
      * split; [left; reflexivity | exact Ex].
    + intros H; injection H as <-. split; [left; reflexivity | exact Ex].
  - intros H. destruct (IH r H) as [Hin Hk]. split; [right; exact Hin | exact Hk].
Qed.

(** [getUserSubscription] on a store that answers. *)
Lemma getUserSubscription_run (userId : string) (now : Z) (w : World) :
  faults w = [] ->
  run (SubscriptionService.getUserSubscription userId now) w
  = match latest (fun _ => true) (current_subscriptions (db w) userId) with
    | None => (inr None, w)
    | Some s =>
        if bool_decide (s_status s = "trial") && (s_current_period_end s <? now)
        then (inr (Some (set_sub_status "expired" s)),
              mkWorld (snd (exec (UpdateSubscription "expired" (s_id s)) (db w))) [])
        else (inr (Some s), w)
    end.
Proof.
  intros Hf. unfold SubscriptionService.getUserSubscription. cbn [run await].
  rewrite pool_query_healthy by exact Hf. cbn [exec fst snd].
  rewrite latest_filter. fold (current_subscriptions (db w) userId).
  rewrite healthy_world by exact Hf.
  destruct (latest (fun _ => true) (current_subscriptions (db w) userId)) as [s |];
    [| reflexivity].
  destruct (bool_decide (s_status s = "trial") && (s_current_period_end s <? now));
    [| reflexivity].
  cbn [run await]. rewrite pool_query_expire_subscription by exact Hf. reflexivity.
Qed.

Lemma createSubscription_db (userId : string) (agencyId : option string)
    (planId paymentMethod : string) (now1 now2 now3 : Z)
    (new_id : string) (created_at : Z) (w : World) :
  let w' := snd (run (SubscriptionService.createSubscription userId agencyId planId
                        paymentMethod now1 now2 now3 new_id created_at) w) in
  db w' = db w
  \/ (live_subscriptions (db w) userId = []
      /\ exists row : SubRow,
           s_user_id row = userId
           /\ db w' = with_subscriptions (db w) (subscriptions (db w) ++ [row])).
Proof.
  unfold SubscriptionService.createSubscription.
  destruct (SubscriptionService.getPlan planId) as [plan |]; [| left; reflexivity].
  cbn [run await].
  destruct (pool_query_db (FindSubscription userId ["active"; "trial"]) w)
    as [(e & Hr & Hd) | (Hr & Hd)];
    destruct (pool_query (FindSubscription userId ["active"; "trial"]) w)
      as [[e' | found] w1];
    cbn [fst snd exec] in *; try discriminate.
  - left. exact Hd.
  - injection Hr as ->.
    destruct (latest _ (subscriptions (db w))) as [existing |] eqn:Elatest;
      [left; exact Hd |].
    cbn [run await].
    match goal with
    | |- context [pool_query (CreateSubscription ?row) w1] =>
        destruct (pool_query_db (CreateSubscription row) w1)
          as [(e & Hr' & Hd') | (Hr' & Hd')];
        destruct (pool_query (CreateSubscription row) w1) as [[e' | created] w2];
        cbn [fst snd exec] in *; try discriminate;
        [left; rewrite Hd'; exact Hd |]
    end.
    right. split; [apply latest_none; exact Elatest |].
    eexists. split; [| cbn [run snd]; rewrite Hd', Hd; reflexivity].
    reflexivity.
Qed.

(** X18.  [createSubscription] never gives a user a second live
    subscription.  If no user has more than one subscription whose
    status is [active] or [trial], the same holds after the call,
    whatever its arguments, whether it returns or throws, and whatever
    queries the store rejects. *)
Theorem createSubscription_keeps_one_live
    (userId : string) (agencyId : option string)
    (planId paymentMethod : string) (now1 now2 now3 : Z)
    (new_id : string) (created_at : Z) (w : World) :
  (forall u : string, (length (live_subscriptions (db w) u) <= 1)%nat) ->
  forall u : string,
    (length (live_subscriptions
               (db (snd (run (SubscriptionService.createSubscription userId agencyId
                               planId paymentMethod now1 now2 now3 new_id created_at) w)))
               u) <= 1)%nat.
Proof.
  intros Hinv u.
  destruct (createSubscription_db userId agencyId planId paymentMethod
              now1 now2 now3 new_id created_at w) as [-> | (Hnone & row & Hrow & ->)];
    [apply Hinv |].
  unfold live_subscriptions in *. cbn [subscriptions with_subscriptions].
  rewrite List.filter_app, length_app. cbn [List.filter].
  destruct (decide (u = userId)) as [-> | Hne].
  - rewrite Hnone. cbn [length].
    destruct (bool_decide (s_user_id row = userId)
              && bool_decide (s_status row ∈ ["active"; "trial"])); cbn [length]; lia.
  - rewrite (bool_decide_eq_false_2 (s_user_id row = u)) by congruence.
    cbn [andb length]. specialize (Hinv u). lia.
Qed.

Lemma createSubscription_keeps_one_live_witness :
  let w := mkWorld (mkDb [] [] [] []
                      [mkSub "s1" "u1" (Some "a1") "professional" "Professional Plan"
                             "active" "card" 0 Demo.t0 0]) [] in
  (length (live_subscriptions
             (db (snd (run (SubscriptionService.createSubscription "u1" (Some "a1")
                             "starter" "trial" Demo.t0 Demo.t0 Demo.t0 "s2" Demo.t0) w)))
             "u1") <= 1)%nat.
Proof.
  intros w.
  apply (createSubscription_keeps_one_live "u1" (Some "a1") "starter" "trial"
           Demo.t0 Demo.t0 Demo.t0 "s2" Demo.t0 w).
  intros u. unfold live_subscriptions. cbn [w db subscriptions List.filter s_user_id].
  destruct (bool_decide ("u1" = u) && _); cbn [length]; lia.
Defined.

Lemma filter_andb {A : Type} (f g : A -> bool) (l : list A) :
  List.filter (fun a => f a && g a) l = List.filter g (List.filter f l).
Proof.
  induction l as [| a l IH]; [reflexivity |].
  cbn [List.filter]. destruct (f a); cbn [andb List.filter]; rewrite IH; reflexivity.
Qed.

Lemma filter_user_updated (uid st sid : string) (rows : list SubRow) :
  List.filter (fun s => bool_decide (s_user_id s = uid))
    (map (fun s => if bool_decide (s_id s = sid) then set_sub_status st s else s) rows)
  = map (fun s => if bool_decide (s_id s = sid) then set_sub_status st s else s)
        (List.filter (fun s => bool_decide (s_user_id s = uid)) rows).
Proof.
  induction rows as [| s rows IH]; [reflexivity |].
  cbn [map List.filter].
  replace (s_user_id (if bool_decide (s_id s = sid) then set_sub_status st s else s))
    with (s_user_id s) by (destruct (bool_decide (s_id s = sid)); reflexivity).
  destruct (bool_decide (s_user_id s = uid)); cbn [map]; rewrite IH; reflexivity.
Qed.

(** X19.  A service trial that is over is reported once.  For a user
    whose only subscription is a trial past the end of its period, the
    first [GET /current] stores [expired] and answers with that
    subscription, its status [expired] and zero days remaining; every
    later one finds no subscription at all (the 404 answer).  From then
    on [createSubscription] gives the same user a new trial: unlike the
    signup route, the service does not remember a used trial. *)
Theorem expired_service_trial_is_reported_once
    (userId : string) (agencyId : option string) (planId : string)
    (plan : SubscriptionService.Plan) (now1 now2 today t1 t2 t3 : Z)
    (new_id : string) (created_at : Z) (w : World) (r : SubRow) :
  faults w = [] ->
  List.filter (fun s => bool_decide (s_user_id s = userId)) (subscriptions (db w)) = [r] ->
  s_status r = "trial" ->
  s_current_period_end r < now1 ->
  SubscriptionService.getPlan planId = Some plan ->
  let w1 := mkWorld (snd (exec (UpdateSubscription "expired" (s_id r)) (db w))) [] in
  run (ServiceChecks.current userId now1 now2 today) w
  = (inr (Some (set_sub_status "expired" r, 0)), w1)
  /\ run (ServiceChecks.current userId t1 t2 t3) w1 = (inr None, w1)
  /\ exists w2 : World,
       run (SubscriptionService.createSubscription userId agencyId planId "trial"
              t1 t2 t3 new_id created_at) w1
       = (inr (mkSub new_id userId agencyId planId (SubscriptionService.name plan)
                     "trial" "trial" t1 (t3 + 13 * 24 * 60 * 60 * 1000) created_at), w2).
Proof.
  intros Hf Hrows Hst Hpast Hplan w1.
  assert (Hcur : current_subscriptions (db w) userId = [r]).
  { unfold current_subscriptions. rewrite filter_andb, Hrows. cbn [List.filter].
    rewrite Hst. reflexivity. }
  assert (Hrows1 : List.filter (fun s => bool_decide (s_user_id s = userId))
                     (subscriptions (db w1)) = [set_sub_status "expired" r]).
  { cbn [w1 db exec snd with_subscriptions subscriptions].
    rewrite filter_user_updated, Hrows. cbn [map].
    rewrite bool_decide_eq_true_2 by reflexivity. reflexivity. }
  assert (Hcur1 : current_subscriptions (db w1) userId = []).
  { unfold current_subscriptions. rewrite filter_andb, Hrows1. reflexivity. }
  assert (Hget1 : forall now, run (SubscriptionService.getUserSubscription userId now) w1
                              = (inr None, w1)).
  { intros now. rewrite getUserSubscription_run by reflexivity. rewrite Hcur1. reflexivity. }
  split; [| split].
  - unfold ServiceChecks.current. rewrite run_bind.
    rewrite getUserSubscription_run by exact Hf. rewrite Hcur. cbn [latest].
    rewrite Hst. rewrite bool_decide_eq_true_2 by reflexivity.
    replace (s_current_period_end r <? now1) with true
      by (symmetry; apply Z.ltb_lt; exact Hpast).
    cbn [andb]. fold w1. rewrite run_bind.
    unfold SubscriptionService.getDaysRemaining. rewrite run_try_catch, run_bind, Hget1.
    reflexivity.
  - unfold ServiceChecks.current. rewrite run_bind, Hget1. reflexivity.
  - eexists. unfold SubscriptionService.createSubscription. rewrite Hplan.
    cbn [run await]. rewrite pool_query_healthy by reflexivity.
    cbn [exec fst snd]. rewrite latest_filter, filter_andb, Hrows1.
    cbn [List.filter set_sub_status s_status latest].
    replace (bool_decide ("expired" ∈ ["active"; "trial"])) with false by reflexivity.
    cbn [latest run await]. rewrite pool_query_healthy by reflexivity.
    cbn [exec fst snd run]. rewrite bool_decide_eq_true_2 by reflexivity.
    reflexivity.
Qed.

Lemma expired_service_trial_is_reported_once_witness :
  let r := mkSub "s1" "u1" (Some "a1") "starter" "Starter Plan" "trial" "trial"
                 0 (13 * MS_PER_DAY) 0 in
  let w := mkWorld (mkDb [] [] [] [] [r]) [] in
  let w1 := mkWorld (snd (exec (UpdateSubscription "expired" "s1") (db w))) [] in
  run (ServiceChecks.current "u1" Demo.t0 Demo.t0 Demo.t0) w
  = (inr (Some (set_sub_status "expired" r, 0)), w1)
  /\ run (ServiceChecks.current "u1" Demo.t0 Demo.t0 Demo.t0) w1 = (inr None, w1)
  /\ exists w2 : World,
       run (SubscriptionService.createSubscription "u1" (Some "a1") "starter" "trial"
              Demo.t0 Demo.t0 Demo.t0 "s2" Demo.t0) w1
       = (inr (mkSub "s2" "u1" (Some "a1") "starter" "Starter Plan"
                     "trial" "trial" Demo.t0 (Demo.t0 + 13 * 24 * 60 * 60 * 1000)
                     Demo.t0), w2).
Proof.
  intros r w.
  apply (expired_service_trial_is_reported_once "u1" (Some "a1") "starter"
           (SubscriptionService.mkPlan "starter" "Starter Plan" 29 50 1 20)
           Demo.t0 Demo.t0 Demo.t0 Demo.t0 Demo.t0 Demo.t0 "s2" Demo.t0 w r
           eq_refl eq_refl eq_refl).
  - vm_compute. reflexivity.
  - reflexivity.
Defined.

Lemma getUserSubscription_rejected (userId : string) (now : Z) (w : World)
    (e : Exn) (fs : list (option Exn)) :
  faults w = Some e :: fs ->
  run (SubscriptionService.getUserSubscription userId now) w = (inl e, mkWorld (db w) fs).
Proof.
  intros Hf. unfold SubscriptionService.getUserSubscription. cbn [run await].
  rewrite (pool_query_fault _ w e fs Hf). reflexivity.
Qed.

(** X20.  The three checks of the service never throw and answer on the
    safe side when they cannot tell.  When the store rejects the query,
    and likewise when the user has no subscription whose status is
    [active], [trial] or [past_due], [hasFeatureAccess] answers false,
    [hasReachedLimit] answers true and [getDaysRemaining] answers 0;
    nothing is written. *)
Theorem service_checks_fail_closed
    (row_features : SubRow -> option (list string))
    (row_limits : SubRow -> option (gmap string JsVal))
    (userId feature limitType : string) (currentCount now today : Z)
    (w : World) :
  (exists e fs, faults w = Some e :: fs)
  \/ (faults w = [] /\ current_subscriptions (db w) userId = []) ->
  let access := run (ServiceChecks.hasFeatureAccess row_features userId feature now) w in
  let reached := run (ServiceChecks.hasReachedLimit row_limits userId limitType
                        currentCount now) w in
  let days := run (SubscriptionService.getDaysRemaining userId now today) w in
  fst access = inr false /\ db (snd access) = db w
  /\ fst reached = inr true /\ db (snd reached) = db w
  /\ fst days = inr 0 /\ db (snd days) = db w.
Proof.
  intros H. cbv zeta.
  unfold ServiceChecks.hasFeatureAccess, ServiceChecks.hasReachedLimit,
    SubscriptionService.getDaysRemaining.
  rewrite !run_try_catch, !run_bind.
  destruct H as [(e & fs & Hf) | (Hf & Hnone)].
  - rewrite (getUserSubscription_rejected userId now w e fs Hf).
    cbn [run fst snd db]. repeat split; reflexivity.
  - rewrite getUserSubscription_run by exact Hf. rewrite Hnone.
    cbn [latest run fst snd]. repeat split; reflexivity.
Qed.

Lemma service_checks_fail_closed_witness :
  let w := mkWorld (mkDb [] [] [] []
                      [mkSub "s1" "u1" (Some "a1") "enterprise" "Enterprise Plan"
                             "active" "card" 0 Demo.t0 0])
                   [Some Demo.outage] in
  fst (run (ServiceChecks.hasReachedLimit (fun _ => None) "u1" "leads" 0 0) w)
  = inr true.
Proof.
  intros w.
  apply (service_checks_fail_closed (fun _ => None) (fun _ => None)
           "u1" "integrations" "leads" 0 0 0 w).
  left. exists Demo.outage, []. reflexivity.
Defined.

(** X21.  [hasReachedLimit] for a user with a subscription in force,
    [past_due] included: a limit of -1 is never reached; any other
    number is reached exactly from that count on; a limit that the
    subscription does not name, or a subscription with no limits at all,
    is never reached.  Nothing is written. *)
Theorem service_limit_reached_iff
    (row_limits : SubRow -> option (gmap string JsVal))
    (userId limitType : string) (currentCount now : Z) (w : World) (s : SubRow) :
  faults w = [] ->
  latest (fun _ => true) (current_subscriptions (db w) userId) = Some s ->
  (s_status s = "trial" -> now <= s_current_period_end s) ->
  let out := run (ServiceChecks.hasReachedLimit row_limits userId limitType
                    currentCount now) w in
  snd out = w
  /\ (forall m : Z,
        js_get (default ∅ (row_limits s)) limitType = JNum m ->
        fst out = inr (if bool_decide (m = -1) then false else m <=? currentCount))
  /\ (default ∅ (row_limits s) !! limitType = None -> fst out = inr false).
Proof.
  intros Hf Hlatest Hlive out.
  assert (Hstatus : s_status s ∈ ["active"; "trial"; "past_due"]).
  { apply latest_in in Hlatest as [Hin _].
    unfold current_subscriptions in Hin. apply List.filter_In in Hin as [_ Hkeep].
    apply andb_prop in Hkeep as [_ Hkeep]. apply bool_decide_eq_true in Hkeep. exact Hkeep. }
  assert (Hout : out = (inr (let limit := js_get (default ∅ (row_limits s)) limitType in
                             if bool_decide (limit = JNum (-1)) then false
                             else js_ge currentCount limit), w)).
  { unfold out, ServiceChecks.hasReachedLimit. rewrite run_try_catch, run_bind.
    rewrite getUserSubscription_run by exact Hf. rewrite Hlatest.
    destruct (bool_decide (s_status s = "trial")) eqn:Etrial.
    - apply bool_decide_eq_true in Etrial.
      replace (s_current_period_end s <? now) with false
        by (symmetry; apply Z.ltb_ge; apply Hlive; exact Etrial).
      cbn [andb]. rewrite Etrial.
      replace (bool_decide ("trial" = "expired")) with false by reflexivity.
      replace (bool_decide ("trial" = "cancelled")) with false by reflexivity.
      cbn [orb]. cbv zeta.
      destruct (bool_decide (js_get (default ∅ (row_limits s)) limitType = JNum (-1)));
        reflexivity.
    - cbn [andb].
      rewrite (bool_decide_eq_false_2 (s_status s = "expired"))
        by (intros Heq; rewrite Heq in Hstatus; revert Hstatus;
            apply (bool_decide_eq_false_1 ("expired" ∈ ["active"; "trial"; "past_due"]));
            reflexivity).
      rewrite (bool_decide_eq_false_2 (s_status s = "cancelled"))
        by (intros Heq; rewrite Heq in Hstatus; revert Hstatus;
            apply (bool_decide_eq_false_1 ("cancelled" ∈ ["active"; "trial"; "past_due"]));
            reflexivity).
      cbn [orb]. cbv zeta.
      destruct (bool_decide (js_get (default ∅ (row_limits s)) limitType = JNum (-1)));
        reflexivity. }
  rewrite Hout. cbn [fst snd]. split; [reflexivity |]. split.
  - intros m Hm. rewrite Hm. f_equal.
    destruct (decide (m = -1)) as [-> | Hne].
    + reflexivity.
    + rewrite (bool_decide_eq_false_2 (JNum m = JNum (-1))) by congruence.
      rewrite (bool_decide_eq_false_2 (m = -1)) by exact Hne. reflexivity.
  - intros Habs. unfold js_get. rewrite Habs.
    destruct (inherited limitType); reflexivity.
Qed.

Lemma service_limit_reached_iff_witness :
  let s := mkSub "s1" "u1" (Some "a1") "starter" "Starter Plan" "past_due" "card"
                 0 Demo.t0 0 in
  let w := mkWorld (mkDb [] [] [] [] [s]) [] in
  fst (run (ServiceChecks.hasReachedLimit
              (fun _ => Some {[ "leads" := JNum 50 ]}) "u1" "properties" 1000000 Demo.t0) w)
  = inr false.
Proof.
  intros s w.
  apply (proj2 (proj2 (service_limit_reached_iff
                         (fun _ => Some {[ "leads" := JNum 50 ]})
                         "u1" "properties" 1000000 Demo.t0 w s eq_refl eq_refl
                         ltac:(discriminate)))).
  reflexivity.
Defined.

(** ** The join variant of the gate *)

Lemma joined_expire_run (w : World) (uid : string) (sid : option string) :
  faults w = [] ->
  run (Joined.expire uid sid) w
  = (inr tt,
     mkWorld (match sid with
              | Some id => if bool_decide (id = "") then expired_db (db w) uid
                           else snd (exec (UpdateSubscription "expired" id)
                                          (expired_db (db w) uid))
              | None => expired_db (db w) uid
              end) []).
Proof.
  intros Hf. unfold Joined.expire. cbn [run await].
  rewrite pool_query_expire by exact Hf.
  destruct sid as [id |]; [| reflexivity].
  destruct (bool_decide (id = "")); [reflexivity |].
  cbn [run await]. rewrite pool_query_expire_subscription by reflexivity. reflexivity.
Qed.

(** X22.  In the join variant the status and the end of trial of the
    joined subscription row come first, those of the user row second,
    and the verdict on them is that of the gate.  So a user whose own
    status is anything at all is let through when the joined
    subscription is [active].  When a trial is over, [expired] is
    stored for the user and, if a subscription row was joined, for that
    row too. *)
Theorem joined_gate_decides_on_subscription_row
    (FRONTEND_URL : string) (req : Req) (now : Z) (w : World)
    (user : JoinedGate.JoinedRow) :
  faults w = [] ->
  let out := run (JoinedGate.evaluate FRONTEND_URL req now user) w in
  lets_through (fst out)
  = gate_verdict (JoinedGate.subscriptionStatus user) (JoinedGate.trialEndDate user) now
  /\ (JoinedGate.j_sub_status user = Some "active" -> lets_through (fst out) = true)
  /\ (lets_through (fst out) = true -> snd out = w)
  /\ (forall trialEnd : Z,
        JoinedGate.subscriptionStatus user = Some "trial" ->
        JoinedGate.trialEndDate user = Some trialEnd ->
        trialEnd < now ->
        fst out = inr (trial_expired_response FRONTEND_URL trialEnd)
        /\ db (snd out)
           = match JoinedGate.j_subscription_id user with
             | Some id =>
                 if bool_decide (id = "") then expired_db (db w) (JoinedGate.j_id user)
                 else snd (exec (UpdateSubscription "expired" id)
                                (expired_db (db w) (JoinedGate.j_id user)))
             | None => expired_db (db w) (JoinedGate.j_id user)
             end).
Proof.
  intros Hf out.
  assert (Hexp : forall trialEnd : Z,
             JoinedGate.subscriptionStatus user = Some "trial" ->
             JoinedGate.trialEndDate user = Some trialEnd ->
             trialEnd < now ->
             out = (inr (trial_expired_response FRONTEND_URL trialEnd),
                    snd (run (Joined.expire (JoinedGate.j_id user)
                                (JoinedGate.j_subscription_id user)) w))).
  { intros trialEnd Hst Hend Hpast. unfold out, JoinedGate.evaluate. cbv zeta.
    rewrite Hst, Hend. rewrite bool_decide_eq_true_2 by reflexivity.
    replace (trialEnd <? now) with true by (symmetry; apply Z.ltb_lt; exact Hpast).
    rewrite run_bind, joined_expire_run by exact Hf. reflexivity. }
  assert (Hnext : gate_verdict (JoinedGate.subscriptionStatus user)
                               (JoinedGate.trialEndDate user) now = true ->
                  lets_through (fst out) = true /\ snd out = w).
  { intros Hv. unfold gate_verdict in Hv. apply andb_prop in Hv as [Hinc Hnot].
    unfold out, JoinedGate.evaluate. cbv zeta. rewrite Hinc. cbn [negb].
    destruct (bool_decide (JoinedGate.subscriptionStatus user = Some "trial"));
      [| split; reflexivity].
    destruct (JoinedGate.trialEndDate user) as [trialEnd |]; [| split; reflexivity].
    cbn [andb] in Hnot. apply negb_true_iff in Hnot. rewrite Hnot. split; reflexivity. }
  assert (Hverdict : lets_through (fst out)
                     = gate_verdict (JoinedGate.subscriptionStatus user)
                                    (JoinedGate.trialEndDate user) now).
  { destruct (gate_verdict (JoinedGate.subscriptionStatus user)
                           (JoinedGate.trialEndDate user) now) eqn:Ev.
    - apply Hnext. reflexivity.
    - unfold gate_verdict in Ev. unfold out, JoinedGate.evaluate. cbv zeta.
      destruct (includes ["trial"; "active"] (JoinedGate.subscriptionStatus user)) eqn:Einc.
      + cbn [andb] in Ev. apply negb_false_iff in Ev. apply andb_prop in Ev as [Et Ee].
        rewrite Et. destruct (JoinedGate.trialEndDate user) as [trialEnd |]; [| discriminate].
        rewrite Ee. rewrite run_bind, joined_expire_run by exact Hf. reflexivity.
      + cbn [negb].
        destruct (bool_decide (JoinedGate.subscriptionStatus user = Some "trial")) eqn:Et.
        * apply bool_decide_eq_true in Et. rewrite Et in Einc. discriminate.
        * reflexivity. }
  split; [exact Hverdict |]. split; [| split].
  - intros Hact. rewrite Hverdict. unfold gate_verdict, JoinedGate.subscriptionStatus.
    rewrite Hact. reflexivity.
  - intros Hthrough. apply Hnext. rewrite <- Hverdict. exact Hthrough.
  - intros trialEnd Hst Hend Hpast. rewrite (Hexp trialEnd Hst Hend Hpast).
    rewrite joined_expire_run by exact Hf. split; reflexivity.
Qed.

Lemma joined_gate_decides_on_subscription_row_witness :
  let user := JoinedGate.mkJoinedRow "u1" (Some "expired") None (Some "starter")
                (Some "s1") (Some "active") None None (Some 5000) (Some 10) (Some 500) in
  lets_through (fst (run (JoinedGate.evaluate Demo.url Demo.req Demo.t0 user)
                         (Demo.world [] [])))
  = true.
Proof.
  intros user.
  apply (proj1 (proj2 (joined_gate_decides_on_subscription_row Demo.url Demo.req
                         Demo.t0 (Demo.world [] []) user eq_refl))).
  reflexivity.
Defined.

(** X23.  In the join variant a user with no joined plan (no live
    subscription row, or a plan row that is gone) whom the gate lets
    through carries an empty feature object and [null] limits: behind
    the gate [requireFeature] then refuses every feature name, and
    [checkUsageLimit] lets every one of the three resources through
    without counting anything, store failures or not. *)
Theorem joined_user_without_plan
    (FRONTEND_URL : string) (builtin_member : string -> string -> JsVal)
    (req : Req) (now : Z) (w : World) (user : JoinedGate.JoinedRow)
    (name : string) (r : Resource) :
  JoinedGate.j_features user = None ->
  JoinedGate.j_max_leads user = None ->
  JoinedGate.j_max_users user = None ->
  JoinedGate.j_max_properties user = None ->
  gate_verdict (JoinedGate.subscriptionStatus user) (JoinedGate.trialEndDate user) now
  = true ->
  let gate := JoinedGate.evaluate FRONTEND_URL req now user in
  let req' := mkReq (req_path req) (req_authorization req)
                    (Some (JoinedGate.subscription_of user)) (req_usage req)
                    (req_trialInfo req) in
  run gate w = (inr (Next req'), w)
  /\ run (and_then gate (requireFeature FRONTEND_URL builtin_member name)) w
     = (inr (feature_refused FRONTEND_URL name (JoinedGate.subscription_of user)), w)
  /\ run (and_then gate (checkUsageLimit FRONTEND_URL (resource_name r))) w
     = (inr (Next req'), w).
Proof.
  intros Hfeat Hleads Husers Hprops Hv gate req'.
  assert (Hgate : run gate w = (inr (Next req'), w)).
  { unfold gate_verdict in Hv. apply andb_prop in Hv as [Hinc Hnot].
    unfold gate, JoinedGate.evaluate. cbv zeta. rewrite Hinc. cbn [negb].
    destruct (bool_decide (JoinedGate.subscriptionStatus user = Some "trial"));
      [| reflexivity].
    destruct (JoinedGate.trialEndDate user) as [trialEnd |]; [| reflexivity].
    cbn [andb] in Hnot. apply negb_true_iff in Hnot. rewrite Hnot. reflexivity. }
  split; [exact Hgate |]. unfold and_then. rewrite !run_bind, Hgate. split.
  - rewrite (requireFeature_run _ _ _ req' (JoinedGate.subscription_of user))
      by reflexivity.
    replace (features (JoinedGate.subscription_of user))
      with (PlanObject (default ∅ (JoinedGate.j_features user))) by reflexivity.
    rewrite Hfeat. cbn [default]. rewrite hasFeature_absent by apply lookup_empty.
    reflexivity.
  - unfold checkUsageLimit. rewrite run_try_catch.
    unfold checkUsageLimit_try. cbn [req' req_subscription]. cbv zeta.
    rewrite limits_get_resource.
    replace (limit_of (limits (JoinedGate.subscription_of user)) r) with JNull
      by (unfold JoinedGate.subscription_of; cbn [limits];
          rewrite Hleads, Husers, Hprops; destruct r; reflexivity).
    reflexivity.
Qed.

Lemma joined_user_without_plan_witness :
  let user := JoinedGate.mkJoinedRow "u1" (Some "active") None (Some "starter")
                None None None None None None None in
  let w := Demo.world [] [Some Demo.outage] in
  let gate := JoinedGate.evaluate Demo.url Demo.req Demo.t0 user in
  run (and_then gate (requireFeature Demo.url Demo.members "analytics")) w
  = (inr (feature_refused Demo.url "analytics" (JoinedGate.subscription_of user)), w).
Proof.
  intros user w gate.
  apply (proj1 (proj2 (joined_user_without_plan Demo.url Demo.members Demo.req Demo.t0
                         w user "analytics" Leads
                         eq_refl eq_refl eq_refl eq_refl eq_refl))).
Defined.

(** ** Upgrade, and two requests at once *)

Lemma find_user_upgraded (d : Db) (plan id : string) :
  find_user (snd (exec (UpgradeUser plan id) d)) id
  = map (fun u => mkUser (u_id u) (u_email u) (u_password_hash u) (u_first_name u)
                    (u_last_name u) (u_role u) (u_status u) (u_agency_id u)
                    (Some "active") None (Some plan))
        (find_user d id).
Proof.
  unfold find_user. simpl.
  induction (users d) as [| u l IH]; [reflexivity |].
  simpl. destruct (bool_decide (u_id u = id)) eqn:E; simpl; rewrite E, IH; reflexivity.
Qed.

(** X24.  The write of the upgrade reopens the gate.  Whatever the user
    row held before ([expired], [cancelled], a trial long over), after
    [UPDATE users SET subscription_status = 'active', plan_name = ...,
    trial_end_date = NULL] the gate lets the user through at every
    reading of the clock, with the new plan name and its features, and
    writes nothing. *)
Theorem upgrade_reopens_gate
    (jwt_verify : string -> Exn + option string) (FRONTEND_URL : string)
    (builtin_member : string -> string -> JsVal)
    (req : Req) (now : Z) (w : World) (uid plan : string)
    (user : UserRow) (rest : list UserRow) :
  reaches_evaluation jwt_verify req uid ->
  faults w = [] ->
  find_user (db w) uid = user :: rest ->
  let w1 := snd (run (upgrade_user plan uid) w) in
  exists s : Subscription,
    run (checkSubscriptionStatus jwt_verify FRONTEND_URL builtin_member req now) w1
    = (inr (Next (attach req s)), w1)
    /\ status s = Some "active"
    /\ planName s = Some plan
    /\ trialEndDate s = None
    /\ features s = resolve_features (Some plan)
    /\ userId s = u_id user.
Proof.
  intros Hreach Hf Hrows w1.
  assert (Hw1 : w1 = mkWorld (snd (exec (UpgradeUser plan uid) (db w))) []).
  { unfold w1, upgrade_user. cbn [run await].
    rewrite pool_query_healthy by exact Hf. reflexivity. }
  set (user' := mkUser (u_id user) (u_email user) (u_password_hash user)
                  (u_first_name user) (u_last_name user) (u_role user)
                  (u_status user) (u_agency_id user)
                  (Some "active") None (Some plan)).
  exists (subscription_of builtin_member user').
  split; [| repeat split].
  apply (gate_passes _ _ _ req now w1 uid user'
           (map (fun u => mkUser (u_id u) (u_email u) (u_password_hash u)
                            (u_first_name u) (u_last_name u) (u_role u)
                            (u_status u) (u_agency_id u)
                            (Some "active") None (Some plan)) rest) Hreach).
  - rewrite Hw1. reflexivity.
  - rewrite Hw1. cbn [db]. rewrite find_user_upgraded, Hrows. reflexivity.
  - reflexivity.
Qed.

Lemma upgrade_reopens_gate_witness :
  let u := Demo.user "u1" (Some "expired") (Some 0) (Some "starter") in
  let w := Demo.world [u] [] in
  let w1 := snd (run (upgrade_user "pro" "u1") w) in
  exists s : Subscription,
    run (checkSubscriptionStatus Demo.jwt Demo.url Demo.members Demo.req Demo.t0) w1
    = (inr (Next (attach Demo.req s)), w1)
    /\ status s = Some "active"
    /\ planName s = Some "pro"
    /\ trialEndDate s = None
    /\ features s = resolve_features (Some "pro")
    /\ userId s = "u1".
Proof.
  intros u w.
  apply (upgrade_reopens_gate Demo.jwt Demo.url Demo.members Demo.req Demo.t0 w
           "u1" "pro" u [] (conj eq_refl (conj eq_refl eq_refl)) eq_refl eq_refl).
Defined.

(** X25.  The check of [createSubscription] and its insertion are two
    separate queries.  When two calls for the same user, who has no
    live subscription, are in flight together and both look before
    either inserts, both succeed and the user ends up with two live
    subscriptions: the guarantee of the sequential case is lost. *)
Theorem concurrent_createSubscription_doubles
    (userId : string) (agencyId : option string) (planId : string)
    (plan : SubscriptionService.Plan)
    (a1 a2 a3 b1 b2 b3 : Z) (id1 id2 : string) (c1 c2 : Z) (w : World) :
  faults w = [] ->
  SubscriptionService.getPlan planId = Some plan ->
  live_subscriptions (db w) userId = [] ->
  let p1 := SubscriptionService.createSubscription userId agencyId planId "trial"
              a1 a2 a3 id1 c1 in
  let p2 := SubscriptionService.createSubscription userId agencyId planId "trial"
              b1 b2 b3 id2 c2 in
  exists (r1 r2 : SubRow) (w' : World),
    interleave [true; false; true; false] p1 p2 w = (Ret r1, Ret r2, w')
    /\ s_id r1 = id1 /\ s_id r2 = id2
    /\ live_subscriptions (db w') userId = [r1; r2]
    /\ fst (run (bind p1 (fun _ => p2)) w)
       = inl (mkExn "Error" "User already has an active subscription").
Proof.
  intros Hf Hplan Hnone p1 p2.
  assert (Hlatest : latest (fun s => bool_decide (s_user_id s = userId)
                                     && bool_decide (s_status s ∈ ["active"; "trial"]))
                           (subscriptions (db w)) = None).
  { rewrite latest_filter. fold (live_subscriptions (db w) userId).
    rewrite Hnone. reflexivity. }
  set (r1 := mkSub id1 userId agencyId planId (SubscriptionService.name plan)
                   "trial" "trial" a1 (a3 + 13 * 24 * 60 * 60 * 1000) c1).
  set (r2 := mkSub id2 userId agencyId planId (SubscriptionService.name plan)
                   "trial" "trial" b1 (b3 + 13 * 24 * 60 * 60 * 1000) c2).
  exists r1, r2,
    (mkWorld (with_subscriptions
                (with_subscriptions (db w) (subscriptions (db w) ++ [r1]))
                ((subscriptions (db w) ++ [r1]) ++ [r2])) []).
  split; [| split; [reflexivity | split; [reflexivity | split]]].
  - unfold p1, p2, SubscriptionService.createSubscription. rewrite Hplan.
    rewrite bool_decide_eq_true_2 by reflexivity.
    cbn [interleave step await].
    rewrite pool_query_healthy by exact Hf. cbn [exec fst snd]. rewrite Hlatest.
    rewrite pool_query_healthy by reflexivity. cbn [exec fst snd db]. rewrite Hlatest.
    cbn [interleave step await].
    rewrite pool_query_healthy by reflexivity. cbn [exec fst snd db].
    rewrite pool_query_healthy by reflexivity. cbn [exec fst snd db].
    reflexivity.
  - unfold live_subscriptions in *. cbn [db subscriptions with_subscriptions].
    rewrite !List.filter_app, Hnone. cbn [List.filter app r1 r2 s_user_id s_status].
    rewrite bool_decide_eq_true_2 by reflexivity.
    replace (bool_decide ("trial" ∈ ["active"; "trial"])) with true by reflexivity.
    reflexivity.
  - rewrite run_bind. unfold p1, p2, SubscriptionService.createSubscription.
    rewrite Hplan. cbn [run await].
    rewrite pool_query_healthy by exact Hf. cbn [exec fst snd]. rewrite Hlatest.
    cbn [run await]. rewrite pool_query_healthy by reflexivity.
    cbn [exec fst snd db run]. rewrite pool_query_healthy by reflexivity.
    cbn [exec fst snd db with_subscriptions subscriptions].
    rewrite latest_filter, List.filter_app.
    fold (live_subscriptions (db w) userId). rewrite Hnone.
    rewrite bool_decide_eq_true_2 by reflexivity.
    cbn [List.filter app s_user_id s_status].
    rewrite bool_decide_eq_true_2 by reflexivity.
    replace (bool_decide ("trial" ∈ ["active"; "trial"])) with true by reflexivity.
    reflexivity.
Qed.

Lemma concurrent_createSubscription_doubles_witness :
  let p1 := SubscriptionService.createSubscription "u1" (Some "a1") "starter" "trial"
              Demo.t0 Demo.t0 Demo.t0 "s1" Demo.t0 in
  let p2 := SubscriptionService.createSubscription "u1" (Some "a1") "starter" "trial"
              Demo.t0 Demo.t0 Demo.t0 "s2" Demo.t0 in
  exists (r1 r2 : SubRow) (w' : World),
    interleave [true; false; true; false] p1 p2 (Demo.world [] []) = (Ret r1, Ret r2, w')
    /\ s_id r1 = "s1" /\ s_id r2 = "s2"
    /\ live_subscriptions (db w') "u1" = [r1; r2]
    /\ fst (run (bind p1 (fun _ => p2)) (Demo.world [] []))
       = inl (mkExn "Error" "User already has an active subscription").
Proof.
  apply (concurrent_createSubscription_doubles "u1" (Some "a1") "starter"
           (SubscriptionService.mkPlan "starter" "Starter Plan" 29 50 1 20)
           Demo.t0 Demo.t0 Demo.t0 Demo.t0 Demo.t0 Demo.t0 "s1" "s2" Demo.t0 Demo.t0
           (Demo.world [] []) eq_refl eq_refl eq_refl).
Defined.
